(** * Manovyam: the task and Pomodoro session engine

    A shallow embedding of
    - [models/Task.ts]                               (records and DTOs),
    - [services/implementations/LocalTaskService.ts] (the repository over
      the browser's key-value store),
    - [store/taskAtoms.ts]                           (the Jotai atoms),
    - [viewmodels/useTaskViewModel.ts]               (the timer engine),
    - [components/TaskPanel.tsx], [components/PomodoroTimer.tsx]
                                                     (the handlers of the
      task panel and of the timer widget),
    followed by the properties of the engine.

    Conventions of the embedding.
    - A JavaScript [number] is an integer of [Z]; a [Date] is its
      [getTime()] value, milliseconds since the epoch.
    - [new Date()], [Date.now()] and [Math.random()] are inputs of the
      operation that reads them: [now] and [rnd].  All clock reads made
      while one operation runs return the same [now].
    - [localStorage] holds two keys; the store is the pair of the two
      parsed arrays.  [JSON.stringify] followed by [JSON.parse] and the
      [Date] revival of [getTasks]/[getSessions] is the identity on such
      records, so [getTasks]/[saveTasks] read and write the array itself.
    - A write to [localStorage] is accepted: the embedding covers the runs
      in which [setItem] does not throw (the quota is not reached).  The
      properties say what a call does when its writes are accepted; that a
      call returns is said of these runs only.
    - A third key, "manovyam-pomodoro-settings", mirrors
      [pomodoroSettingsAtom], an [atomWithStorage]; the atom stands for
      both, and [Storage.t] holds the two keys of the task service only.
    - An [async] function that may [throw] is a computation in the monad
      [M St], which threads the state and carries the exception. *)

From stdpp Require Import base option list strings pretty.
From Stdlib Require Import ZArith Lia.

Open Scope Z_scope.

(** ** State and exception monad *)

Inductive Error :=
  | TaskNotFound      (* new Error("Task not found") *)
  | SessionNotFound.  (* new Error("Session not found") *)

Definition message (e : Error) : string :=
  match e with
  | TaskNotFound => "Task not found"
  | SessionNotFound => "Session not found"
  end.

Inductive Result (A : Type) :=
  | Ok (a : A)
  | Err (e : Error).
Arguments Ok {A} a.
Arguments Err {A} e.

Definition M (St A : Type) : Type := St → Result A * St.

#[global] Instance M_ret St : MRet (M St) := λ A a s, (Ok a, s).

#[global] Instance M_bind St : MBind (M St) := λ A B f m s,
  match m s with
  | (Ok a, s') => f a s'
  | (Err e, s') => (Err e, s')
  end.

Definition throw {St A} (e : Error) : M St A := λ s, (Err e, s).

Definition get {St} : M St St := λ s, (Ok s, s).

Definition modify {St} (f : St → St) : M St unit := λ s, (Ok tt, f s).

(** [try { body } catch (err) { handler(err) }]: the handler runs in the
    state the body had reached when it threw. *)
Definition try_catch {St A} (body : M St A) (handler : Error → M St A)
  : M St A := λ s,
  match body s with
  | (Ok a, s') => (Ok a, s')
  | (Err e, s') => handler e s'
  end.

(** ** models/Task.ts *)

Definition Date := Z.

Inductive TaskStatus := todo | in_progress | done | cancelled.
Inductive TaskPriority := low | medium | high.
Inductive SessionType := pomodoro | short_break | long_break.

#[global] Instance TaskStatus_eq_dec : EqDecision TaskStatus.
Proof. solve_decision. Defined.
#[global] Instance TaskPriority_eq_dec : EqDecision TaskPriority.
Proof. solve_decision. Defined.
#[global] Instance SessionType_eq_dec : EqDecision SessionType.
Proof. solve_decision. Defined.

Module Task.
Record t := mk {
  id : string;
  noteId : option string;
  title : string;
  description : option string;
  status : TaskStatus;
  priority : TaskPriority;
  dueDate : option Date;
  estimatedMinutes : option Z;
  actualMinutes : Z;
  tags : list string;
  createdAt : Date;
  updatedAt : Date;
  completedAt : option Date;
}.
End Task.

Module CreateTaskDto.
Record t := mk {
  noteId : option string;
  title : string;
  description : option string;
  priority : option TaskPriority;
  dueDate : option Date;
  estimatedMinutes : option Z;
  tags : option (list string);
}.
End CreateTaskDto.

(** A partial object.  A key is absent ([None]) or present ([Some v]);
    the object spread [{...old, ...dto}] copies every present key, also
    one whose value is [undefined], so a present key of a field that is
    optional in the record carries an [option].  [actualMinutes] is not
    part of the TypeScript interface; [updateSession] passes it. *)
Module UpdateTaskDto.
Record t := mk {
  title : option string;
  description : option (option string);
  status : option TaskStatus;
  priority : option TaskPriority;
  dueDate : option (option Date);
  estimatedMinutes : option (option Z);
  tags : option (list string);
  actualMinutes : option Z;
}.
(* the object literal {} *)
Definition empty : t := mk None None None None None None None None.
(* { status: s } *)
Definition of_status (s : TaskStatus) : t :=
  mk None None (Some s) None None None None None.
(* { actualMinutes: n } *)
Definition of_actualMinutes (n : Z) : t :=
  mk None None None None None None None (Some n).
End UpdateTaskDto.

Module TaskSession.
Record t := mk {
  id : string;
  taskId : string;
  startedAt : Date;
  endedAt : option Date;
  durationMinutes : Z;
  type : SessionType;
  completed : bool;
  achievement : option string;
  pending : option string;
  notes : option string;
}.
End TaskSession.

Module CreateSessionDto.
Record t := mk {
  taskId : string;
  type : option SessionType;
}.
End CreateSessionDto.

Module UpdateSessionDto.
Record t := mk {
  endedAt : option (option Date);
  durationMinutes : option Z;
  completed : option bool;
  achievement : option (option string);
  pending : option (option string);
  notes : option (option string);
}.
End UpdateSessionDto.

Module PomodoroSettings.
Record t := mk {
  workDuration : Z;          (* minutes *)
  shortBreakDuration : Z;    (* minutes *)
  longBreakDuration : Z;     (* minutes *)
  sessionsUntilLongBreak : Z;
  autoStartBreaks : bool;
  autoStartPomodoros : bool;
}.
End PomodoroSettings.

Definition DEFAULT_POMODORO_SETTINGS : PomodoroSettings.t :=
  PomodoroSettings.mk 25 5 15 4 false false.

(* Partial<PomodoroSettings> *)
Module PartialPomodoroSettings.
Record t := mk {
  workDuration : option Z;
  shortBreakDuration : option Z;
  longBreakDuration : option Z;
  sessionsUntilLongBreak : option Z;
  autoStartBreaks : option bool;
  autoStartPomodoros : option bool;
}.
End PartialPomodoroSettings.

(** ** Built-ins of the language the code calls

    A string is a sequence of code units below 256.
    [String.prototype.trim] removes the WhiteSpace and LineTerminator code
    units from both ends; below 256 these are TAB, LF, VT, FF, CR, SPACE
    and NO-BREAK SPACE. *)

Module JsString.
Definition isWhiteSpace (c : Ascii.ascii) : bool :=
  match Ascii.N_of_ascii c with
  | 9%N | 10%N | 11%N | 12%N | 13%N | 32%N | 160%N => true
  | _ => false
  end.

Fixpoint trimStart (s : string) : string :=
  match s with
  | EmptyString => EmptyString
  | String c rest => if isWhiteSpace c then trimStart rest else s
  end.

Definition trimEnd (s : string) : string :=
  String.rev (trimStart (String.rev s)).

Definition trim (s : string) : string := trimEnd (trimStart s).

(* s.padStart(2, "0") *)
Definition padStart2 (s : string) : string :=
  match String.length s with
  | O => "00" +:+ s
  | S O => "0" +:+ s
  | _ => s
  end.

(* x || undefined, for x a string or null *)
Definition orUndefined (x : option string) : option string :=
  match x with
  | Some EmptyString => None
  | _ => x
  end.
End JsString.

(** ** services/implementations/LocalTaskService.ts *)

Module Storage.
Record t := mk {
  tasks : list Task.t;            (* key "manovyam-tasks" *)
  sessions : list TaskSession.t;  (* key "manovyam-task-sessions" *)
}.
(* no key is set: both getters return [] *)
Definition empty : t := mk [] [].
End Storage.

Module LocalTaskService.

Definition getTasks : M Storage.t (list Task.t) :=
  λ st, (Ok (Storage.tasks st), st).

(* localStorage.setItem(TASKS_KEY, JSON.stringify(tasks)), accepted *)
Definition saveTasks (tasks : list Task.t) : M Storage.t unit :=
  modify (λ st, Storage.mk tasks (Storage.sessions st)).

Definition getSessions : M Storage.t (list TaskSession.t) :=
  λ st, (Ok (Storage.sessions st), st).

(* localStorage.setItem(SESSIONS_KEY, JSON.stringify(sessions)), accepted *)
Definition saveSessions (sessions : list TaskSession.t) : M Storage.t unit :=
  modify (λ st, Storage.mk (Storage.tasks st) sessions).

Definition getAllTasks : M Storage.t (list Task.t) := getTasks.

(* tasks.find((task) => task.id === id) || null *)
Definition getTaskById (id : string) : M Storage.t (option Task.t) :=
  tasks ← getTasks;
  mret (snd <$> list_find (λ task, Task.id task = id) tasks).

Definition getTasksByNote (noteId : string) : M Storage.t (list Task.t) :=
  tasks ← getTasks;
  mret (filter (λ task, Task.noteId task = Some noteId) tasks).

(* `task_${Date.now()}_${Math.random().toString(36).substr(2, 9)}` *)
Definition newTaskId (now : Date) (rnd : string) : string :=
  "task_" +:+ pretty now +:+ "_" +:+ rnd.

(* the object literal of createTask *)
Definition newTask (now : Date) (rnd : string) (dto : CreateTaskDto.t)
  : Task.t := {|
    Task.id := newTaskId now rnd;
    Task.noteId := CreateTaskDto.noteId dto;
    Task.title := CreateTaskDto.title dto;
    Task.description := CreateTaskDto.description dto;
    Task.status := todo;
    Task.priority := default medium (CreateTaskDto.priority dto);
    Task.dueDate := CreateTaskDto.dueDate dto;
    Task.estimatedMinutes := CreateTaskDto.estimatedMinutes dto;
    Task.actualMinutes := 0;
    Task.tags := default [] (CreateTaskDto.tags dto);
    Task.createdAt := now;
    Task.updatedAt := now;
    Task.completedAt := None |}.

Definition createTask (now : Date) (rnd : string) (dto : CreateTaskDto.t)
  : M Storage.t Task.t :=
  tasks ← getTasks;
  let newTask := newTask now rnd dto in
  saveTasks (tasks ++ [newTask]);;
  mret newTask.

(* { ...old, ...dto, updatedAt: new Date(), completedAt: ... } *)
Definition mergeTask (now : Date) (old : Task.t) (dto : UpdateTaskDto.t)
  : Task.t := {|
    Task.id := Task.id old;
    Task.noteId := Task.noteId old;
    Task.title := default (Task.title old) (UpdateTaskDto.title dto);
    Task.description :=
      default (Task.description old) (UpdateTaskDto.description dto);
    Task.status := default (Task.status old) (UpdateTaskDto.status dto);
    Task.priority := default (Task.priority old) (UpdateTaskDto.priority dto);
    Task.dueDate := default (Task.dueDate old) (UpdateTaskDto.dueDate dto);
    Task.estimatedMinutes :=
      default (Task.estimatedMinutes old) (UpdateTaskDto.estimatedMinutes dto);
    Task.actualMinutes :=
      default (Task.actualMinutes old) (UpdateTaskDto.actualMinutes dto);
    Task.tags := default (Task.tags old) (UpdateTaskDto.tags dto);
    Task.createdAt := Task.createdAt old;
    Task.updatedAt := now;
    Task.completedAt :=
      if bool_decide (UpdateTaskDto.status dto = Some done)
         && bool_decide (Task.completedAt old = None)
      then Some now
      else Task.completedAt old |}.

Definition updateTask (now : Date) (id : string) (dto : UpdateTaskDto.t)
  : M Storage.t Task.t :=
  tasks ← getTasks;
  match list_find (λ task, Task.id task = id) tasks with
  | None => throw TaskNotFound
  | Some (index, old) =>
      let updatedTask := mergeTask now old dto in
      saveTasks (<[index := updatedTask]> tasks);;
      mret updatedTask
  end.

Definition deleteTask (id : string) : M Storage.t unit :=
  tasks ← getTasks;
  let filtered := filter (λ task, Task.id task ≠ id) tasks in
  saveTasks filtered.

(** The loop of [createTasksFromNote].  Every iteration reads the clock and
    the random source once more: [clock i] and [random i] are the readings
    of iteration [i], and [createdTasks] is the array built so far. *)
Fixpoint createTasksFromNote_loop (clock : nat → Date) (random : nat → string)
    (noteId : string) (i : nat) (taskTitles : list string)
    (createdTasks : list Task.t) : M Storage.t (list Task.t) :=
  match taskTitles with
  | [] => mret createdTasks
  | title :: rest =>
      task ← createTask (clock i) (random i) {|
        CreateTaskDto.noteId := Some noteId;
        CreateTaskDto.title := JsString.trim title;
        CreateTaskDto.description := None;
        CreateTaskDto.priority := Some medium;
        CreateTaskDto.dueDate := None;
        CreateTaskDto.estimatedMinutes := None;
        CreateTaskDto.tags := None |};
      createTasksFromNote_loop clock random noteId (S i) rest
        (createdTasks ++ [task])
  end.

Definition createTasksFromNote (clock : nat → Date) (random : nat → string)
    (noteId : string) (taskTitles : list string) : M Storage.t (list Task.t) :=
  createTasksFromNote_loop clock random noteId 0 taskTitles [].

Definition getSessionsByTask (taskId : string)
  : M Storage.t (list TaskSession.t) :=
  sessions ← getSessions;
  mret (filter (λ session, TaskSession.taskId session = taskId) sessions).

(* `session_${Date.now()}_${Math.random().toString(36).substr(2, 9)}` *)
Definition newSessionId (now : Date) (rnd : string) : string :=
  "session_" +:+ pretty now +:+ "_" +:+ rnd.

(* the object literal of createSession *)
Definition newSession (now : Date) (rnd : string) (dto : CreateSessionDto.t)
  : TaskSession.t := {|
    TaskSession.id := newSessionId now rnd;
    TaskSession.taskId := CreateSessionDto.taskId dto;
    TaskSession.startedAt := now;
    TaskSession.endedAt := None;
    TaskSession.durationMinutes := 0;
    TaskSession.type := default pomodoro (CreateSessionDto.type dto);
    TaskSession.completed := false;
    TaskSession.achievement := None;
    TaskSession.pending := None;
    TaskSession.notes := None |}.

Definition createSession (now : Date) (rnd : string) (dto : CreateSessionDto.t)
  : M Storage.t TaskSession.t :=
  sessions ← getSessions;
  let newSession := newSession now rnd dto in
  saveSessions (sessions ++ [newSession]);;
  mret newSession.

(* { ...old, ...dto } *)
Definition mergeSession (old : TaskSession.t) (dto : UpdateSessionDto.t)
  : TaskSession.t := {|
    TaskSession.id := TaskSession.id old;
    TaskSession.taskId := TaskSession.taskId old;
    TaskSession.startedAt := TaskSession.startedAt old;
    TaskSession.endedAt :=
      default (TaskSession.endedAt old) (UpdateSessionDto.endedAt dto);
    TaskSession.durationMinutes :=
      default (TaskSession.durationMinutes old)
              (UpdateSessionDto.durationMinutes dto);
    TaskSession.type := TaskSession.type old;
    TaskSession.completed :=
      default (TaskSession.completed old) (UpdateSessionDto.completed dto);
    TaskSession.achievement :=
      default (TaskSession.achievement old) (UpdateSessionDto.achievement dto);
    TaskSession.pending :=
      default (TaskSession.pending old) (UpdateSessionDto.pending dto);
    TaskSession.notes :=
      default (TaskSession.notes old) (UpdateSessionDto.notes dto) |}.

(* if (dto.durationMinutes): the key is present and its value is not 0 *)
Definition truthy (n : option Z) : option Z :=
  match n with
  | Some d => if bool_decide (d = 0) then None else Some d
  | None => None
  end.

Definition updateSession (now : Date) (id : string) (dto : UpdateSessionDto.t)
  : M Storage.t TaskSession.t :=
  sessions ← getSessions;
  match list_find (λ session, TaskSession.id session = id) sessions with
  | None => throw SessionNotFound
  | Some (index, old) =>
      let updatedSession := mergeSession old dto in
      saveSessions (<[index := updatedSession]> sessions);;
      (* Update task's actual minutes *)
      match truthy (UpdateSessionDto.durationMinutes dto) with
      | Some d =>
          task ← getTaskById (TaskSession.taskId updatedSession);
          match task with
          | Some task =>
              updateTask now (Task.id task)
                (UpdateTaskDto.of_actualMinutes (Task.actualMinutes task + d));;
              mret tt
          | None => mret tt
          end
      | None => mret tt
      end;;
      mret updatedSession
  end.

(* sessions.find((session) => !session.endedAt && !session.completed) || null *)
Definition getActiveSession : M Storage.t (option TaskSession.t) :=
  sessions ← getSessions;
  mret (snd <$> list_find
          (λ session, TaskSession.endedAt session = None
                      ∧ TaskSession.completed session = false) sessions).

Definition getTotalTimeSpent (taskId : string) : M Storage.t Z :=
  sessions ← getSessionsByTask taskId;
  mret (foldl (λ total session, total + TaskSession.durationMinutes session)
              0 sessions).

Module TaskStats.
Record t := mk { total : Z; todo : Z; inProgress : Z; done : Z }.
End TaskStats.

Definition getTaskStats : M Storage.t TaskStats.t :=
  tasks ← getTasks;
  let count (s : TaskStatus) :=
    Z.of_nat (length (filter (λ t, Task.status t = s) tasks)) in
  mret (TaskStats.mk (Z.of_nat (length tasks))
                     (count todo) (count in_progress) (count done)).

End LocalTaskService.

(** ** store/taskAtoms.ts *)

Module PomodoroTimerState.
Record t := mk {
  isRunning : bool;
  isPaused : bool;
  timeRemaining : Z;   (* seconds *)
  totalTime : Z;       (* seconds *)
  sessionType : SessionType;
  completedPomodoros : Z;
}.
End PomodoroTimerState.

(** The application state: the key-value store behind the service and the
    atoms of [taskAtoms.ts] and [atoms.ts] the view model reads and writes. *)
Module App.
Record t := mk {
  localStorage : Storage.t;
  tasksAtom : list Task.t;
  activeTaskIdAtom : option string;
  currentSessionAtom : option TaskSession.t;
  pomodoroTimerAtom : PomodoroTimerState.t;
  pomodoroSettingsAtom : PomodoroSettings.t;  (* and the key mirroring it *)
  taskSessionsAtom : list TaskSession.t;
  errorAtom : option string;
}.

(* the atoms' initial values over a given store of tasks and sessions, the
   settings key being unset *)
Definition init (st : Storage.t) : t := {|
  localStorage := st;
  tasksAtom := [];
  activeTaskIdAtom := None;
  currentSessionAtom := None;
  pomodoroTimerAtom :=
    PomodoroTimerState.mk false false (25 * 60) (25 * 60) pomodoro 0;
  pomodoroSettingsAtom := DEFAULT_POMODORO_SETTINGS;
  taskSessionsAtom := [];
  errorAtom := None |}.

(** Derived atoms *)

(* tasks.find((task) => task.id === activeId) || null *)
Definition activeTaskAtom (w : t) : option Task.t :=
  match activeTaskIdAtom w with
  | Some activeId =>
      snd <$> list_find (λ task, Task.id task = activeId) (tasksAtom w)
  | None => None
  end.

Definition todoTasksAtom (w : t) : list Task.t :=
  filter (λ task, Task.status task = todo) (tasksAtom w).

Definition inProgressTasksAtom (w : t) : list Task.t :=
  filter (λ task, Task.status task = in_progress) (tasksAtom w).

Definition doneTasksAtom (w : t) : list Task.t :=
  filter (λ task, Task.status task = done) (tasksAtom w).
End App.

(** ** viewmodels/useTaskViewModel.ts

    The hook's callbacks close over the atoms' values of the last render;
    the embedding runs them one after the other, each on the state the
    previous one left. *)

Module TaskViewModel.
Import App.

(* a call into [taskService], which owns the store *)
Definition taskService {A} (call : M Storage.t A) : M App.t A := λ w,
  let '(r, st) := call (localStorage w) in
  (r, mk st (tasksAtom w) (activeTaskIdAtom w) (currentSessionAtom w)
         (pomodoroTimerAtom w) (pomodoroSettingsAtom w)
         (taskSessionsAtom w) (errorAtom w)).

Definition setTasks (f : list Task.t → list Task.t) : M App.t unit :=
  modify (λ w, mk (localStorage w) (f (tasksAtom w)) (activeTaskIdAtom w)
                  (currentSessionAtom w) (pomodoroTimerAtom w)
                  (pomodoroSettingsAtom w) (taskSessionsAtom w) (errorAtom w)).

Definition setActiveTaskId (v : option string) : M App.t unit :=
  modify (λ w, mk (localStorage w) (tasksAtom w) v
                  (currentSessionAtom w) (pomodoroTimerAtom w)
                  (pomodoroSettingsAtom w) (taskSessionsAtom w) (errorAtom w)).

Definition setCurrentSession (v : option TaskSession.t) : M App.t unit :=
  modify (λ w, mk (localStorage w) (tasksAtom w) (activeTaskIdAtom w)
                  v (pomodoroTimerAtom w)
                  (pomodoroSettingsAtom w) (taskSessionsAtom w) (errorAtom w)).

Definition setTimerState (f : PomodoroTimerState.t → PomodoroTimerState.t)
  : M App.t unit :=
  modify (λ w, mk (localStorage w) (tasksAtom w) (activeTaskIdAtom w)
                  (currentSessionAtom w) (f (pomodoroTimerAtom w))
                  (pomodoroSettingsAtom w) (taskSessionsAtom w) (errorAtom w)).

(* writes the atom, and with it the key that mirrors it *)
Definition setPomodoroSettings (f : PomodoroSettings.t → PomodoroSettings.t)
  : M App.t unit :=
  modify (λ w, mk (localStorage w) (tasksAtom w) (activeTaskIdAtom w)
                  (currentSessionAtom w) (pomodoroTimerAtom w)
                  (f (pomodoroSettingsAtom w)) (taskSessionsAtom w) (errorAtom w)).

Definition setSessions (v : list TaskSession.t) : M App.t unit :=
  modify (λ w, mk (localStorage w) (tasksAtom w) (activeTaskIdAtom w)
                  (currentSessionAtom w) (pomodoroTimerAtom w)
                  (pomodoroSettingsAtom w) v (errorAtom w)).

(* setError(err instanceof Error ? err.message : ...) *)
Definition setError (e : Error) : M App.t unit :=
  modify (λ w, mk (localStorage w) (tasksAtom w) (activeTaskIdAtom w)
                  (currentSessionAtom w) (pomodoroTimerAtom w)
                  (pomodoroSettingsAtom w) (taskSessionsAtom w)
                  (Some (message e))).

(* catch (err) { setError(...); throw err; } *)
Definition report {A} (body : M App.t A) : M App.t A :=
  try_catch body (λ err, setError err;; throw err).

Definition loadTasks : M App.t unit :=
  try_catch
    (allTasks ← taskService LocalTaskService.getAllTasks;
     setTasks (λ _, allTasks);;
     (* Check for active session *)
     activeSession ← taskService LocalTaskService.getActiveSession;
     match activeSession with
     | Some activeSession =>
         setCurrentSession (Some activeSession);;
         setActiveTaskId (Some (TaskSession.taskId activeSession))
     | None => mret tt
     end)
    (λ err, setError err).

Definition createTask (now : Date) (rnd : string) (dto : CreateTaskDto.t)
  : M App.t Task.t :=
  report
    (task ← taskService (LocalTaskService.createTask now rnd dto);
     setTasks (λ prev, prev ++ [task]);;
     mret task).

Definition updateTask (now : Date) (id : string) (dto : UpdateTaskDto.t)
  : M App.t Task.t :=
  report
    (updated ← taskService (LocalTaskService.updateTask now id dto);
     setTasks (λ prev,
       (λ task, if bool_decide (Task.id task = id) then updated else task)
         <$> prev);;
     mret updated).

Definition deleteTask (id : string) : M App.t unit :=
  report
    (taskService (LocalTaskService.deleteTask id);;
     setTasks (λ prev, filter (λ task, Task.id task ≠ id) prev)).

(** Create tasks from note content (AI-powered) *)
Definition createTasksFromNote (clock : nat → Date) (random : nat → string)
    (noteId : string) (taskTitles : list string) : M App.t (list Task.t) :=
  report
    (created ← taskService
       (LocalTaskService.createTasksFromNote clock random noteId taskTitles);
     setTasks (λ prev, prev ++ created);;
     mret created).

(** Start working on a task (start pomodoro) *)
Definition startTask (now : Date) (rnd : string) (taskId : string)
  : M App.t unit :=
  report
    ((* Update task status to in_progress *)
     updateTask now taskId (UpdateTaskDto.of_status in_progress);;
     (* Create a new session *)
     session ← taskService
       (LocalTaskService.createSession now rnd (CreateSessionDto.mk taskId None));
     setCurrentSession (Some session);;
     setActiveTaskId (Some taskId);;
     (* Initialize timer *)
     w ← get;
     let workDuration :=
       PomodoroSettings.workDuration (pomodoroSettingsAtom w) * 60 in
     setTimerState (λ _, {|
       PomodoroTimerState.isRunning := true;
       PomodoroTimerState.isPaused := false;
       PomodoroTimerState.timeRemaining := workDuration;
       PomodoroTimerState.totalTime := workDuration;
       PomodoroTimerState.sessionType := pomodoro;
       PomodoroTimerState.completedPomodoros :=
         PomodoroTimerState.completedPomodoros (pomodoroTimerAtom w) |})).

(** Pause/Resume pomodoro *)
Definition togglePause : M App.t unit :=
  setTimerState (λ prev, {|
    PomodoroTimerState.isRunning := PomodoroTimerState.isRunning prev;
    PomodoroTimerState.isPaused := negb (PomodoroTimerState.isPaused prev);
    PomodoroTimerState.timeRemaining := PomodoroTimerState.timeRemaining prev;
    PomodoroTimerState.totalTime := PomodoroTimerState.totalTime prev;
    PomodoroTimerState.sessionType := PomodoroTimerState.sessionType prev;
    PomodoroTimerState.completedPomodoros :=
      PomodoroTimerState.completedPomodoros prev |}).

(* Math.floor((now.getTime() - startedAt.getTime()) / 1000 / 60); on
   integers the floor of the quotient is Z's floor division *)
Definition elapsedMinutes (now startedAt : Date) : Z :=
  (now - startedAt) / 1000 / 60.

(* the object literal stopTask hands to updateSession: [achievement] and
   [pending] are present keys even when their value is undefined *)
Definition closingDto (now : Date) (duration : Z) (completed : bool)
    (achievement pending : option string) : UpdateSessionDto.t := {|
  UpdateSessionDto.endedAt := Some (Some now);
  UpdateSessionDto.durationMinutes := Some duration;
  UpdateSessionDto.completed := Some completed;
  UpdateSessionDto.achievement := Some achievement;
  UpdateSessionDto.pending := Some pending;
  UpdateSessionDto.notes := None |}.

(** Stop pomodoro and save session *)
Definition stopTask (now : Date) (achievement pending : option string)
  : M App.t unit :=
  w ← get;
  match currentSessionAtom w with
  | None => mret tt                        (* if (!currentSession) return; *)
  | Some currentSession =>
      report
        (let duration :=
           elapsedMinutes now (TaskSession.startedAt currentSession) in
         taskService
           (LocalTaskService.updateSession now (TaskSession.id currentSession)
              (closingDto now duration
                 (PomodoroTimerState.timeRemaining (pomodoroTimerAtom w) <=? 0)
                 achievement pending));;
         (* Load updated sessions; if (activeTaskId): "" is falsy *)
         match activeTaskIdAtom w with
         | Some activeTaskId =>
             if bool_decide (activeTaskId = "") then mret tt
             else
               taskSessions ← taskService
                 (LocalTaskService.getSessionsByTask activeTaskId);
               setSessions taskSessions
         | None => mret tt
         end;;
         (* Reset timer *)
         setCurrentSession None;;
         setTimerState (λ prev, {|
           PomodoroTimerState.isRunning := false;
           PomodoroTimerState.isPaused := false;
           PomodoroTimerState.timeRemaining :=
             PomodoroSettings.workDuration (pomodoroSettingsAtom w) * 60;
           PomodoroTimerState.totalTime := PomodoroTimerState.totalTime prev;
           PomodoroTimerState.sessionType :=
             PomodoroTimerState.sessionType prev;
           PomodoroTimerState.completedPomodoros :=
             PomodoroTimerState.completedPomodoros prev |}))
  end.

(** Complete a task *)
Definition completeTask (now : Date) (taskId : string) : M App.t unit :=
  updateTask now taskId (UpdateTaskDto.of_status done);;
  mret tt.

Definition loadTaskSessions (taskId : string) : M App.t unit :=
  try_catch
    (taskSessions ← taskService (LocalTaskService.getSessionsByTask taskId);
     setSessions taskSessions)
    (λ _, mret tt).

(* { ...prev, ...settings } *)
Definition mergeSettings (prev : PomodoroSettings.t)
    (settings : PartialPomodoroSettings.t) : PomodoroSettings.t := {|
  PomodoroSettings.workDuration :=
    default (PomodoroSettings.workDuration prev)
            (PartialPomodoroSettings.workDuration settings);
  PomodoroSettings.shortBreakDuration :=
    default (PomodoroSettings.shortBreakDuration prev)
            (PartialPomodoroSettings.shortBreakDuration settings);
  PomodoroSettings.longBreakDuration :=
    default (PomodoroSettings.longBreakDuration prev)
            (PartialPomodoroSettings.longBreakDuration settings);
  PomodoroSettings.sessionsUntilLongBreak :=
    default (PomodoroSettings.sessionsUntilLongBreak prev)
            (PartialPomodoroSettings.sessionsUntilLongBreak settings);
  PomodoroSettings.autoStartBreaks :=
    default (PomodoroSettings.autoStartBreaks prev)
            (PartialPomodoroSettings.autoStartBreaks settings);
  PomodoroSettings.autoStartPomodoros :=
    default (PomodoroSettings.autoStartPomodoros prev)
            (PartialPomodoroSettings.autoStartPomodoros settings) |}.

Definition updatePomodoroSettings (settings : PartialPomodoroSettings.t)
  : M App.t unit :=
  setPomodoroSettings (λ prev, mergeSettings prev settings).

(** Timer countdown effect: the updater the interval callback passes to
    [setTimerState]. *)
Definition countdown (prev : PomodoroTimerState.t) : PomodoroTimerState.t :=
  let newTime := PomodoroTimerState.timeRemaining prev - 1 in
  if newTime <=? 0 then
    (* Pomodoro completed *)
    {| PomodoroTimerState.isRunning := false;
       PomodoroTimerState.isPaused := PomodoroTimerState.isPaused prev;
       PomodoroTimerState.timeRemaining := 0;
       PomodoroTimerState.totalTime := PomodoroTimerState.totalTime prev;
       PomodoroTimerState.sessionType := PomodoroTimerState.sessionType prev;
       PomodoroTimerState.completedPomodoros :=
         PomodoroTimerState.completedPomodoros prev + 1 |}
  else
    {| PomodoroTimerState.isRunning := PomodoroTimerState.isRunning prev;
       PomodoroTimerState.isPaused := PomodoroTimerState.isPaused prev;
       PomodoroTimerState.timeRemaining := newTime;
       PomodoroTimerState.totalTime := PomodoroTimerState.totalTime prev;
       PomodoroTimerState.sessionType := PomodoroTimerState.sessionType prev;
       PomodoroTimerState.completedPomodoros :=
         PomodoroTimerState.completedPomodoros prev |}.

(** One firing of the interval.  The effect installs the interval only
    while [isRunning && !isPaused] and clears it when either changes. *)
Definition tick : M App.t unit :=
  w ← get;
  if negb (PomodoroTimerState.isRunning (pomodoroTimerAtom w))
     || PomodoroTimerState.isPaused (pomodoroTimerAtom w)
  then mret tt
  else setTimerState countdown.

End TaskViewModel.

(** ** components/TaskPanel.tsx, components/PomodoroTimer.tsx

    The handlers of the task panel and of the timer widget, wired to the
    view model as the application shell wires them. *)

Module TaskPanel.

(* onCreateTask = (title) => taskVM.createTask({ title }) *)
Definition onCreateTask (now : Date) (rnd : string) (title : string)
  : M App.t Task.t :=
  TaskViewModel.createTask now rnd
    (CreateTaskDto.mk None title None None None None None).

(** [handleCreateTask], on the text of the input field; it returns the text
    the field holds afterwards.  A non-empty string is truthy.  The promise
    [onCreateTask] returns is not awaited: a rejection does not reach the
    handler. *)
Definition handleCreateTask (now : Date) (rnd : string) (newTaskTitle : string)
  : M App.t string :=
  if bool_decide (JsString.trim newTaskTitle = "") then mret newTaskTitle
  else
    try_catch (onCreateTask now rnd (JsString.trim newTaskTitle);; mret tt)
              (λ _, mret tt);;
    mret "".

(* {activeTask && isTimerRunning && (<PomodoroTimer ... />)}, in the
   panel when it is open *)
Definition rendersPomodoroTimer (w : App.t) : bool :=
  bool_decide (is_Some (App.activeTaskAtom w))
  && PomodoroTimerState.isRunning (App.pomodoroTimerAtom w).

End TaskPanel.

Module PomodoroTimer.

(* Math.floor(seconds / 60), seconds % 60, each padded to two digits *)
Definition formatTime (seconds : Z) : string :=
  let mins := seconds `div` 60 in
  let secs := seconds `rem` 60 in
  JsString.padStart2 (pretty mins) +:+ ":" +:+ JsString.padStart2 (pretty secs).

(** [handleStop]; the two arguments are what the two [prompt] dialogs
    return when they are shown: the text entered, or [null]. *)
Definition handleStop (now : Date) (achievement pending : option string)
  : M App.t unit :=
  w ← get;
  if PomodoroTimerState.timeRemaining (App.pomodoroTimerAtom w) <=? 0 then
    (* Session completed - ask for summary *)
    TaskViewModel.stopTask now (JsString.orUndefined achievement)
                               (JsString.orUndefined pending)
  else
    (* Session interrupted *)
    TaskViewModel.stopTask now None None.

End PomodoroTimer.

(** ** The engine's operations

    What the UI layer can invoke: the service's mutating calls, directly,
    and the view model's actions; [Tick] is one firing of the countdown
    interval.  [createTasksFromNote] is a sequence of [createTask] calls
    and the read-only calls leave the state as it is, so sequences of the
    operations below cover them; [toggleTaskPanel] and [setShowCompleted]
    write atoms of the task panel only, which are not part of [App.t]. *)

Module Engine.

Inductive Op :=
  (* ITaskService *)
  | SvcCreateTask (now : Date) (rnd : string) (dto : CreateTaskDto.t)
  | SvcUpdateTask (now : Date) (id : string) (dto : UpdateTaskDto.t)
  | SvcDeleteTask (id : string)
  | SvcCreateSession (now : Date) (rnd : string) (dto : CreateSessionDto.t)
  | SvcUpdateSession (now : Date) (id : string) (dto : UpdateSessionDto.t)
  (* useTaskViewModel *)
  | LoadTasks
  | CreateTask (now : Date) (rnd : string) (dto : CreateTaskDto.t)
  | UpdateTask (now : Date) (id : string) (dto : UpdateTaskDto.t)
  | DeleteTask (id : string)
  | StartTask (now : Date) (rnd : string) (taskId : string)
  | TogglePause
  | StopTask (now : Date) (achievement pending : option string)
  | CompleteTask (now : Date) (taskId : string)
  | LoadTaskSessions (taskId : string)
  | UpdatePomodoroSettings (settings : PartialPomodoroSettings.t)
  | SetActiveTaskId (taskId : option string)
  | Tick.

Definition exec (op : Op) : M App.t unit :=
  match op with
  | SvcCreateTask now rnd dto =>
      TaskViewModel.taskService (LocalTaskService.createTask now rnd dto);;
      mret tt
  | SvcUpdateTask now id dto =>
      TaskViewModel.taskService (LocalTaskService.updateTask now id dto);;
      mret tt
  | SvcDeleteTask id =>
      TaskViewModel.taskService (LocalTaskService.deleteTask id)
  | SvcCreateSession now rnd dto =>
      TaskViewModel.taskService (LocalTaskService.createSession now rnd dto);;
      mret tt
  | SvcUpdateSession now id dto =>
      TaskViewModel.taskService (LocalTaskService.updateSession now id dto);;
      mret tt
  | LoadTasks => TaskViewModel.loadTasks
  | CreateTask now rnd dto => TaskViewModel.createTask now rnd dto;; mret tt
  | UpdateTask now id dto => TaskViewModel.updateTask now id dto;; mret tt
  | DeleteTask id => TaskViewModel.deleteTask id
  | StartTask now rnd taskId => TaskViewModel.startTask now rnd taskId
  | TogglePause => TaskViewModel.togglePause
  | StopTask now achievement pending =>
      TaskViewModel.stopTask now achievement pending
  | CompleteTask now taskId => TaskViewModel.completeTask now taskId
  | LoadTaskSessions taskId => TaskViewModel.loadTaskSessions taskId
  | UpdatePomodoroSettings settings =>
      TaskViewModel.updatePomodoroSettings settings
  | SetActiveTaskId taskId => TaskViewModel.setActiveTaskId taskId
  | Tick => TaskViewModel.tick
  end.

(* the state an operation leaves, whether it returned or threw *)
Definition run_op (op : Op) (w : App.t) : App.t := snd (exec op w).

Definition run (ops : list Op) (w : App.t) : App.t :=
  foldl (λ w op, run_op op w) w ops.

(** States reachable from [w0] by operations that each satisfy the
    usage discipline [allowed] in the state they are invoked in. *)
Inductive reachable (allowed : Op → App.t → bool) (w0 : App.t)
  : App.t → Prop :=
  | reachable_init : reachable allowed w0 w0
  | reachable_step op w :
      reachable allowed w0 w →
      allowed op w = true →
      reachable allowed w0 (run_op op w).

End Engine.

(** ** Quantities the properties speak about *)

(* sessions with endedAt = null *)
Definition openSessions (st : Storage.t) : list TaskSession.t :=
  filter (λ s, TaskSession.endedAt s = None) (Storage.sessions st).

(* sum of durationMinutes over the closed sessions of a task *)
Definition closedMinutes (taskId : string) (sessions : list TaskSession.t) : Z :=
  foldr Z.add 0
    (TaskSession.durationMinutes <$>
       filter (λ s, TaskSession.taskId s = taskId
                    ∧ TaskSession.endedAt s ≠ None) sessions).

(* what a session adds to that sum *)
Definition closedShare (s : TaskSession.t) : Z :=
  if decide (TaskSession.endedAt s = None) then 0
  else TaskSession.durationMinutes s.

(* find by id, as the service's find/findIndex do *)
Definition findTask (id : string) (st : Storage.t) : option (nat * Task.t) :=
  list_find (λ task, Task.id task = id) (Storage.tasks st).

Definition findSession (id : string) (st : Storage.t)
  : option (nat * TaskSession.t) :=
  list_find (λ session, TaskSession.id session = id) (Storage.sessions st).

Definition isErr {A} (r : Result A) : Prop := ∃ e, r = Err e.

(** ** The writes an operation makes to the store

    Every operation reaches the store through the service only.  The
    mutating service calls an operation makes, in order; a call that
    throws cuts the rest of the operation short. *)

Module Mutation.
Inductive t :=
  | createTask (now : Date) (rnd : string) (dto : CreateTaskDto.t)
  | updateTask (now : Date) (id : string) (dto : UpdateTaskDto.t)
  | deleteTask (id : string)
  | createSession (now : Date) (rnd : string) (dto : CreateSessionDto.t)
  | updateSession (now : Date) (id : string) (dto : UpdateSessionDto.t).

Definition apply (st : Storage.t) (m : t) : Storage.t :=
  match m with
  | createTask now rnd dto => snd (LocalTaskService.createTask now rnd dto st)
  | updateTask now id dto => snd (LocalTaskService.updateTask now id dto st)
  | deleteTask id => snd (LocalTaskService.deleteTask id st)
  | createSession now rnd dto =>
      snd (LocalTaskService.createSession now rnd dto st)
  | updateSession now id dto =>
      snd (LocalTaskService.updateSession now id dto st)
  end.

Definition of_op (op : Engine.Op) (w : App.t) : list t :=
  match op with
  | Engine.SvcCreateTask now rnd dto | Engine.CreateTask now rnd dto =>
      [createTask now rnd dto]
  | Engine.SvcUpdateTask now id dto | Engine.UpdateTask now id dto =>
      [updateTask now id dto]
  | Engine.SvcDeleteTask id | Engine.DeleteTask id => [deleteTask id]
  | Engine.SvcCreateSession now rnd dto => [createSession now rnd dto]
  | Engine.SvcUpdateSession now id dto => [updateSession now id dto]
  | Engine.StartTask now rnd taskId =>
      match findTask taskId (App.localStorage w) with
      | Some _ =>
          [updateTask now taskId (UpdateTaskDto.of_status in_progress);
           createSession now rnd (CreateSessionDto.mk taskId None)]
      | None => []
      end
  | Engine.StopTask now achievement pending =>
      match App.currentSessionAtom w with
      | Some currentSession =>
          [updateSession now (TaskSession.id currentSession)
             (TaskViewModel.closingDto now
                (TaskViewModel.elapsedMinutes now
                   (TaskSession.startedAt currentSession))
                (PomodoroTimerState.timeRemaining (App.pomodoroTimerAtom w)
                 <=? 0)
                achievement pending)]
      | None => []
      end
  | Engine.CompleteTask now taskId =>
      [updateTask now taskId (UpdateTaskDto.of_status done)]
  | Engine.LoadTasks | Engine.TogglePause | Engine.LoadTaskSessions _
  | Engine.UpdatePomodoroSettings _ | Engine.SetActiveTaskId _
  | Engine.Tick => []
  end.
End Mutation.

(** ** Usage disciplines *)

(** A session is opened only while none is open, and no update of a
    session carries an [endedAt] key holding [undefined]. *)
Definition oneSessionAtATime (op : Engine.Op) (w : App.t) : bool :=
  match op with
  | Engine.SvcCreateSession _ _ _ | Engine.StartTask _ _ _ =>
      bool_decide (openSessions (App.localStorage w) = [])
  | Engine.SvcUpdateSession _ _ dto =>
      bool_decide (UpdateSessionDto.endedAt dto ≠ Some None)
  | _ => true
  end.

(* an id no task has and no session refers to *)
Definition freshTaskId (id : string) (st : Storage.t) : Prop :=
  (id ∉ Task.id <$> Storage.tasks st)
  ∧ (id ∉ TaskSession.taskId <$> Storage.sessions st).

(* the partial holds an endedAt key with a date *)
Definition setsEndedAt (dto : UpdateSessionDto.t) : bool :=
  match UpdateSessionDto.endedAt dto with
  | Some (Some _) => true
  | _ => false
  end.

(* the session an update by id would reach, if any, is still open *)
Definition reachesOpenSession (id : string) (st : Storage.t) : Prop :=
  match findSession id st with
  | Some (_, session) => TaskSession.endedAt session = None
  | None => True
  end.

#[global] Instance reachesOpenSession_dec id st
  : Decision (reachesOpenSession id st).
Proof.
  unfold reachesOpenSession. destruct (findSession id st) as [[??]|]; apply _.
Defined.

(** Task ids are fresh, callers' task updates carry no [actualMinutes]
    (the key is not in [UpdateTaskDto]), and a session is updated once:
    while it is open, by the update that closes it. *)
Definition creditedOnce (op : Engine.Op) (w : App.t) : bool :=
  match op with
  | Engine.SvcCreateTask now rnd _ | Engine.CreateTask now rnd _ =>
      bool_decide (freshTaskId (LocalTaskService.newTaskId now rnd)
                               (App.localStorage w))
  | Engine.SvcUpdateTask _ _ dto | Engine.UpdateTask _ _ dto =>
      bool_decide (UpdateTaskDto.actualMinutes dto = None)
  | Engine.SvcUpdateSession _ id dto =>
      bool_decide (reachesOpenSession id (App.localStorage w))
      && setsEndedAt dto
  | Engine.StopTask _ _ _ =>
      match App.currentSessionAtom w with
      | Some currentSession =>
          bool_decide (reachesOpenSession (TaskSession.id currentSession)
                                          (App.localStorage w))
      | None => true
      end
  | _ => true
  end.

(* the session an update by id would reach, if any, holds no minutes *)
Definition reachesUncreditedSession (id : string) (st : Storage.t) : Prop :=
  match findSession id st with
  | Some (_, session) => TaskSession.durationMinutes session = 0
  | None => True
  end.

#[global] Instance reachesUncreditedSession_dec id st
  : Decision (reachesUncreditedSession id st).
Proof.
  unfold reachesUncreditedSession.
  destruct (findSession id st) as [[??]|]; apply _.
Defined.

(* the session an update by id would reach, if any, has endedAt set once
   the partial is merged into it *)
Definition leavesSessionClosed (id : string) (dto : UpdateSessionDto.t)
    (st : Storage.t) : Prop :=
  match findSession id st with
  | Some (_, session) =>
      TaskSession.endedAt (LocalTaskService.mergeSession session dto) ≠ None
  | None => True
  end.

#[global] Instance leavesSessionClosed_dec id dto st
  : Decision (leavesSessionClosed id dto st).
Proof.
  unfold leavesSessionClosed.
  destruct (findSession id st) as [[??]|]; apply _.
Defined.

(* the partial carries a durationMinutes key, or an endedAt key holding
   undefined *)
Definition touchesMinutes (dto : UpdateSessionDto.t) : Prop :=
  UpdateSessionDto.durationMinutes dto ≠ None
  ∨ UpdateSessionDto.endedAt dto = Some None.

(** The two rules for an update of a session: a partial that carries a
    [durationMinutes] key, or an [endedAt] key holding [undefined],
    reaches a session whose [durationMinutes] is still 0; a partial that
    carries a [durationMinutes] other than 0 leaves the session with
    [endedAt] set.  Every other update is free. *)
Definition creditsWithClosing (id : string) (dto : UpdateSessionDto.t)
    (st : Storage.t) : Prop :=
  (touchesMinutes dto → reachesUncreditedSession id st)
  ∧ (LocalTaskService.truthy (UpdateSessionDto.durationMinutes dto) ≠ None →
     leavesSessionClosed id dto st).

(** Task ids are fresh, callers' task updates carry no [actualMinutes]
    (the key is not in [UpdateTaskDto]), and every update of a session
    follows the two rules above; for stopTask, whose update sets [endedAt],
    this means that the session it reaches holds no minutes yet. *)
Definition minutesCreditedWithClosing (op : Engine.Op) (w : App.t) : bool :=
  match op with
  | Engine.SvcCreateTask now rnd _ | Engine.CreateTask now rnd _ =>
      bool_decide (freshTaskId (LocalTaskService.newTaskId now rnd)
                               (App.localStorage w))
  | Engine.SvcUpdateTask _ _ dto | Engine.UpdateTask _ _ dto =>
      bool_decide (UpdateTaskDto.actualMinutes dto = None)
  | Engine.SvcUpdateSession _ id dto =>
      bool_decide (creditsWithClosing id dto (App.localStorage w))
  | Engine.StopTask _ _ _ =>
      match App.currentSessionAtom w with
      | Some currentSession =>
          bool_decide (reachesUncreditedSession (TaskSession.id currentSession)
                                                (App.localStorage w))
      | None => true
      end
  | _ => true
  end.

(** The configured work duration never becomes negative. *)
Definition workDurationNonNegative (op : Engine.Op) (w : App.t) : bool :=
  match op with
  | Engine.UpdatePomodoroSettings settings =>
      bool_decide (0 ≤ default 0 (PartialPomodoroSettings.workDuration settings))
  | _ => true
  end.

(** ** Auxiliary notions of the proofs *)

(* a timer with another value in one atom field *)
Definition withTimer (w : App.t) (t : PomodoroTimerState.t) : App.t :=
  App.mk (App.localStorage w) (App.tasksAtom w) (App.activeTaskIdAtom w)
         (App.currentSessionAtom w) t (App.pomodoroSettingsAtom w)
         (App.taskSessionsAtom w) (App.errorAtom w).

(* { ...t, timeRemaining: n } *)
Definition withTimeRemaining (t : PomodoroTimerState.t) (n : Z)
  : PomodoroTimerState.t :=
  {| PomodoroTimerState.isRunning := PomodoroTimerState.isRunning t;
     PomodoroTimerState.isPaused := PomodoroTimerState.isPaused t;
     PomodoroTimerState.timeRemaining := n;
     PomodoroTimerState.totalTime := PomodoroTimerState.totalTime t;
     PomodoroTimerState.sessionType := PomodoroTimerState.sessionType t;
     PomodoroTimerState.completedPomodoros :=
       PomodoroTimerState.completedPomodoros t |}.

(* { ...t, isRunning: false, timeRemaining: 0,
     completedPomodoros: t.completedPomodoros + 1 } *)
Definition completedTimer (t : PomodoroTimerState.t) : PomodoroTimerState.t :=
  {| PomodoroTimerState.isRunning := false;
     PomodoroTimerState.isPaused := PomodoroTimerState.isPaused t;
     PomodoroTimerState.timeRemaining := 0;
     PomodoroTimerState.totalTime := PomodoroTimerState.totalTime t;
     PomodoroTimerState.sessionType := PomodoroTimerState.sessionType t;
     PomodoroTimerState.completedPomodoros :=
       PomodoroTimerState.completedPomodoros t + 1 |}.

(* the state an exception reported through setError leaves *)
Definition withError (w : App.t) (e : Error) : App.t :=
  App.mk (App.localStorage w) (App.tasksAtom w) (App.activeTaskIdAtom w)
         (App.currentSessionAtom w) (App.pomodoroTimerAtom w)
         (App.pomodoroSettingsAtom w) (App.taskSessionsAtom w)
         (Some (message e)).

(* what stopTask leaves in taskSessionsAtom, given the store it wrote *)
Definition sessionsAfterStop (w : App.t) (st' : Storage.t)
  : list TaskSession.t :=
  match App.activeTaskIdAtom w with
  | Some activeTaskId =>
      if bool_decide (activeTaskId = "") then App.taskSessionsAtom w
      else filter (λ session, TaskSession.taskId session = activeTaskId)
                  (Storage.sessions st')
  | None => App.taskSessionsAtom w
  end.

(* the task found under [id] carries completedAt = c *)
Definition stamped (id : string) (c : Date) (st : Storage.t) : Prop :=
  ∃ i t, findTask id st = Some (i, t) ∧ Task.completedAt t = Some c.

(* the operation does not delete the task [id] *)
Definition keepsTask (id : string) (op : Engine.Op) (w : App.t) : bool :=
  match op with
  | Engine.SvcDeleteTask id' | Engine.DeleteTask id' => bool_decide (id' ≠ id)
  | _ => true
  end.

(* the mutations that leave the sessions array alone *)
Definition writesTasksOnly (m : Mutation.t) : Prop :=
  match m with
  | Mutation.createTask _ _ _ | Mutation.updateTask _ _ _
  | Mutation.deleteTask _ => True
  | _ => False
  end.

(** The bookkeeping invariant behind [actualMinutes]. *)
Record credited (st : Storage.t) : Prop := {
  credited_ids : NoDup (Task.id <$> Storage.tasks st);
  credited_open : ∀ s, s ∈ Storage.sessions st →
    TaskSession.endedAt s = None → TaskSession.durationMinutes s = 0;
  credited_sum : ∀ task, task ∈ Storage.tasks st →
    Task.actualMinutes task
    = closedMinutes (Task.id task) (Storage.sessions st);
}.

(* [creditedOnce], for one write *)
Definition creditGuard (m : Mutation.t) (st : Storage.t) : Prop :=
  match m with
  | Mutation.createTask now rnd _ =>
      freshTaskId (LocalTaskService.newTaskId now rnd) st
  | Mutation.updateTask _ _ dto => UpdateTaskDto.actualMinutes dto = None
  | Mutation.updateSession _ id dto =>
      reachesOpenSession id st ∧ setsEndedAt dto = true
  | _ => True
  end.

(* [minutesCreditedWithClosing], for one write *)
Definition closingGuard (m : Mutation.t) (st : Storage.t) : Prop :=
  match m with
  | Mutation.createTask now rnd _ =>
      freshTaskId (LocalTaskService.newTaskId now rnd) st
  | Mutation.updateTask _ _ dto => UpdateTaskDto.actualMinutes dto = None
  | Mutation.updateSession _ id dto => creditsWithClosing id dto st
  | _ => True
  end.

(* every operation of the list is allowed in the state it is invoked in *)
Fixpoint allowedRun (allowed : Engine.Op → App.t → bool)
    (ops : list Engine.Op) (w : App.t) : bool :=
  match ops with
  | [] => true
  | op :: ops => allowed op w && allowedRun allowed ops (Engine.run_op op w)
  end.

(** ** Sample data *)

Module Sample.
Definition dto (title : string) : CreateTaskDto.t :=
  CreateTaskDto.mk None title None None None None None.

(* two tasks, created one second apart *)
Definition idA : string := LocalTaskService.newTaskId 1000 "k3j9x0q1z".
Definition idB : string := LocalTaskService.newTaskId 2000 "p7m2c5v8b".

Definition twoTasks : list Engine.Op :=
  [Engine.CreateTask 1000 "k3j9x0q1z" (dto "Write spec");
   Engine.CreateTask 2000 "p7m2c5v8b" (dto "Review")].

Definition ready : App.t := Engine.run twoTasks (App.init Storage.empty).

Definition taskA : Task.t :=
  LocalTaskService.newTask 1000 "k3j9x0q1z" (dto "Write spec").

(* the first task is started at 3 s *)
Definition started : App.t :=
  Engine.run_op (Engine.StartTask 3000 "w1e4r6t8y" idA) ready.

Definition sessionA : TaskSession.t :=
  LocalTaskService.newSession 3000 "w1e4r6t8y" (CreateSessionDto.mk idA None).

(* ... and stopped five minutes later *)
Definition stopped : App.t :=
  Engine.run_op (Engine.StopTask 303000 (Some "Wrote spec") (Some "Review"))
                started.

(* { notes: "late note", durationMinutes: 5 } *)
Definition lateNote : UpdateSessionDto.t :=
  UpdateSessionDto.mk None (Some 5) None None None (Some (Some "late note")).

(* { endedAt: undefined } *)
Definition reopening : UpdateSessionDto.t :=
  UpdateSessionDto.mk (Some None) None None None None None.

(* { durationMinutes: 5 } *)
Definition minutesOnly : UpdateSessionDto.t :=
  UpdateSessionDto.mk None (Some 5) None None None None.

(* { workDuration: 0 } *)
Definition noWork : PartialPomodoroSettings.t :=
  PartialPomodoroSettings.mk (Some 0) None None None None None.

(* a store whose only session belongs to a deleted task *)
Definition orphaned : Storage.t :=
  App.localStorage (Engine.run_op (Engine.DeleteTask idA) started).
End Sample.

(** ** Further notions: the rest of the service, the view model and the
    components *)

(* the tasks [createTasksFromNote] builds, iteration by iteration *)
Fixpoint tasksFromNote (clock : nat → Date) (random : nat → string)
    (noteId : string) (i : nat) (taskTitles : list string) : list Task.t :=
  match taskTitles with
  | [] => []
  | title :: rest =>
      LocalTaskService.newTask (clock i) (random i)
        (CreateTaskDto.mk (Some noteId) (JsString.trim title) None
           (Some medium) None None None)
      :: tasksFromNote clock random noteId (S i) rest
  end.

(* the task list the panel shows is the stored one *)
Definition synced (w : App.t) : Prop :=
  App.tasksAtom w = Storage.tasks (App.localStorage w)
  ∧ NoDup (Task.id <$> Storage.tasks (App.localStorage w)).

(** The actions of the view model other than stopTask, the ids of new
    tasks being fresh. *)
Definition throughViewModel (op : Engine.Op) (w : App.t) : bool :=
  match op with
  | Engine.SvcCreateTask _ _ _ | Engine.SvcUpdateTask _ _ _
  | Engine.SvcDeleteTask _ | Engine.SvcCreateSession _ _ _
  | Engine.SvcUpdateSession _ _ _ | Engine.StopTask _ _ _ => false
  | Engine.CreateTask now rnd _ =>
      bool_decide (LocalTaskService.newTaskId now rnd
                   ∉ Task.id <$> Storage.tasks (App.localStorage w))
  | _ => true
  end.

(** The configured work duration stays positive. *)
Definition workDurationPositive (op : Engine.Op) (w : App.t) : bool :=
  match op with
  | Engine.UpdatePomodoroSettings settings =>
      bool_decide (0 < default 1 (PartialPomodoroSettings.workDuration settings))
  | _ => true
  end.

(* no discipline: every operation, in every state *)
Definition anyOperation (op : Engine.Op) (w : App.t) : bool := true.

(* the current session, when set, carries the id of a stored session *)
Definition currentSessionStored (w : App.t) : Prop :=
  ∀ cs, App.currentSessionAtom w = Some cs →
    TaskSession.id cs ∈ TaskSession.id <$> Storage.sessions (App.localStorage w).

(* { ...t, isPaused: !t.isPaused } *)
Definition toggled (t : PomodoroTimerState.t) : PomodoroTimerState.t :=
  {| PomodoroTimerState.isRunning := PomodoroTimerState.isRunning t;
     PomodoroTimerState.isPaused := negb (PomodoroTimerState.isPaused t);
     PomodoroTimerState.timeRemaining := PomodoroTimerState.timeRemaining t;
     PomodoroTimerState.totalTime := PomodoroTimerState.totalTime t;
     PomodoroTimerState.sessionType := PomodoroTimerState.sessionType t;
     PomodoroTimerState.completedPomodoros :=
       PomodoroTimerState.completedPomodoros t |}.

(* the session getActiveSession returns *)
Definition activeSession (st : Storage.t) : option TaskSession.t :=
  snd <$> list_find (λ session, TaskSession.endedAt session = None
                                ∧ TaskSession.completed session = false)
                    (Storage.sessions st).

(* the actions of the view model that edit the task list *)
Definition taskAction (op : Engine.Op) : bool :=
  match op with
  | Engine.CreateTask _ _ _ | Engine.UpdateTask _ _ _ | Engine.DeleteTask _
  | Engine.CompleteTask _ _ => true
  | _ => false
  end.

(* the timer startTask sets *)
Definition startedTimer (w : App.t) : PomodoroTimerState.t :=
  let workDuration :=
    PomodoroSettings.workDuration (App.pomodoroSettingsAtom w) * 60 in
  {| PomodoroTimerState.isRunning := true;
     PomodoroTimerState.isPaused := false;
     PomodoroTimerState.timeRemaining := workDuration;
     PomodoroTimerState.totalTime := workDuration;
     PomodoroTimerState.sessionType := pomodoro;
     PomodoroTimerState.completedPomodoros :=
       PomodoroTimerState.completedPomodoros (App.pomodoroTimerAtom w) |}.

(* the timer stopTask leaves *)
Definition stoppedTimer (w : App.t) : PomodoroTimerState.t :=
  {| PomodoroTimerState.isRunning := false;
     PomodoroTimerState.isPaused := false;
     PomodoroTimerState.timeRemaining :=
       PomodoroSettings.workDuration (App.pomodoroSettingsAtom w) * 60;
     PomodoroTimerState.totalTime :=
       PomodoroTimerState.totalTime (App.pomodoroTimerAtom w);
     PomodoroTimerState.sessionType :=
       PomodoroTimerState.sessionType (App.pomodoroTimerAtom w);
     PomodoroTimerState.completedPomodoros :=
       PomodoroTimerState.completedPomodoros (App.pomodoroTimerAtom w) |}.

(* the tick that ends a countdown *)
Definition completesPomodoro (op : Engine.Op) (w : App.t) : bool :=
  match op with
  | Engine.Tick =>
      PomodoroTimerState.isRunning (App.pomodoroTimerAtom w)
      && negb (PomodoroTimerState.isPaused (App.pomodoroTimerAtom w))
      && (PomodoroTimerState.timeRemaining (App.pomodoroTimerAtom w) - 1 <=? 0)
  | _ => false
  end.

(* a number below 100 written with two decimal digits *)
Definition digit (n : Z) : Ascii.ascii := Ascii.ascii_of_N (48 + Z.to_N n).

Definition twoDigits (n : Z) : string :=
  String (digit (n `div` 10)) (String (digit (n `mod` 10)) "").

(** ** Sample data of a note's tasks *)

Module Scenario.
(* the readings of the clock and of the random source, call by call *)
Definition clock (i : nat) : Date := 5000 + Z.of_nat i.
Definition random (i : nat) : string := "r4nd0m" +:+ pretty i.

(* two titles extracted from the note "n1" *)
Definition titles : list string := ["Buy milk"; "  Call Bob "].

(* { notes: "called away" } *)
Definition notesOnly : UpdateSessionDto.t :=
  UpdateSessionDto.mk None None None None None (Some (Some "called away")).

(* { durationMinutes: 0 } *)
Definition zeroMinutes : UpdateSessionDto.t :=
  UpdateSessionDto.mk None (Some 0) None None None None.

(* the first task was started and the countdown has run out *)
Definition ranOut : App.t :=
  Engine.run (replicate 1500 Engine.Tick) Sample.started.
End Scenario.

(** * Properties *)

(** ** The service, call by call *)

Section service_equations.
Implicit Types (now : Date) (st : Storage.t) (id : string).

Lemma store_eta st : Storage.mk (Storage.tasks st) (Storage.sessions st) = st.
Proof. by destruct st. Qed.

Lemma getTaskById_eq st id :
  LocalTaskService.getTaskById id st = (Ok (snd <$> findTask id st), st).
Proof. reflexivity. Qed.

Lemma findTask_id st id index task :
  findTask id st = Some (index, task) → Task.id task = id.
Proof. unfold findTask. rewrite list_find_Some. tauto. Qed.

Lemma findTask_lookup st id index task :
  findTask id st = Some (index, task) → Storage.tasks st !! index = Some task.
Proof. unfold findTask. by intros [? _]%list_find_Some. Qed.

Lemma findTask_same_index st id id' i t old :
  findTask id st = Some (i, t) → findTask id' st = Some (i, old) → t = old.
Proof.
  intros H1%findTask_lookup H2%findTask_lookup. congruence.
Qed.

Lemma findSession_lookup st id index session :
  findSession id st = Some (index, session) →
  Storage.sessions st !! index = Some session.
Proof. unfold findSession. by intros [? _]%list_find_Some. Qed.

Lemma updateTask_missing now st id dto :
  findTask id st = None →
  LocalTaskService.updateTask now id dto st = (Err TaskNotFound, st).
Proof.
  unfold findTask, LocalTaskService.updateTask. intros H.
  cbv [mbind M_bind LocalTaskService.getTasks]. by rewrite H.
Qed.

Lemma updateTask_found now st id dto index old :
  findTask id st = Some (index, old) →
  LocalTaskService.updateTask now id dto st =
    (Ok (LocalTaskService.mergeTask now old dto),
     Storage.mk (<[index := LocalTaskService.mergeTask now old dto]>
                   (Storage.tasks st))
                (Storage.sessions st)).
Proof.
  unfold findTask, LocalTaskService.updateTask. intros H.
  cbv [mbind M_bind LocalTaskService.getTasks]. by rewrite H.
Qed.

Lemma deleteTask_eq st id :
  LocalTaskService.deleteTask id st =
    (Ok tt, Storage.mk (filter (λ task, Task.id task ≠ id) (Storage.tasks st))
                       (Storage.sessions st)).
Proof. reflexivity. Qed.

Lemma createTask_eq now st rnd dto :
  LocalTaskService.createTask now rnd dto st =
    (Ok (LocalTaskService.newTask now rnd dto),
     Storage.mk (Storage.tasks st ++ [LocalTaskService.newTask now rnd dto])
                (Storage.sessions st)).
Proof. reflexivity. Qed.

Lemma createSession_eq now st rnd dto :
  LocalTaskService.createSession now rnd dto st =
    (Ok (LocalTaskService.newSession now rnd dto),
     Storage.mk (Storage.tasks st)
                (Storage.sessions st ++ [LocalTaskService.newSession now rnd dto])).
Proof. reflexivity. Qed.

Lemma updateSession_missing now st id dto :
  findSession id st = None →
  LocalTaskService.updateSession now id dto st = (Err SessionNotFound, st).
Proof.
  unfold findSession, LocalTaskService.updateSession. intros H.
  cbv [mbind M_bind LocalTaskService.getSessions]. by rewrite H.
Qed.

(* the session is written first; the owning task, when there is one and
   the duration is truthy, is written next *)
Lemma updateSession_found now st id dto index old :
  findSession id st = Some (index, old) →
  let updated := LocalTaskService.mergeSession old dto in
  let sessions' := <[index := updated]> (Storage.sessions st) in
  LocalTaskService.updateSession now id dto st =
    (Ok updated,
     match LocalTaskService.truthy (UpdateSessionDto.durationMinutes dto),
           findTask (TaskSession.taskId old) st with
     | Some d, Some (j, task) =>
         Storage.mk
           (<[j := LocalTaskService.mergeTask now task
                     (UpdateTaskDto.of_actualMinutes
                        (Task.actualMinutes task + d))]> (Storage.tasks st))
           sessions'
     | _, _ => Storage.mk (Storage.tasks st) sessions'
     end).
Proof.
  unfold findSession, LocalTaskService.updateSession. intros H.
  cbv [mbind M_bind LocalTaskService.getSessions]. rewrite H. cbn.
  destruct (LocalTaskService.truthy _) as [d|]; [|done].
  cbn. rewrite getTaskById_eq. unfold findTask. cbn.
  destruct (list_find _ (Storage.tasks st)) as [[j task]|] eqn:Hf; [|done].
  cbn. erewrite updateTask_found; [done|].
  unfold findTask. cbn. by rewrite (findTask_id _ _ _ _ Hf).
Qed.

End service_equations.

(** ** The view model, action by action *)

Ltac run_monad :=
  cbv [mbind mret M_bind M_ret get modify throw try_catch
       TaskViewModel.report TaskViewModel.taskService
       TaskViewModel.setTasks TaskViewModel.setActiveTaskId
       TaskViewModel.setCurrentSession TaskViewModel.setTimerState
       TaskViewModel.setPomodoroSettings TaskViewModel.setSessions
       TaskViewModel.setError
       LocalTaskService.getAllTasks LocalTaskService.getActiveSession
       LocalTaskService.getSessionsByTask LocalTaskService.getTasks
       LocalTaskService.getSessions LocalTaskService.createTask
       LocalTaskService.createSession LocalTaskService.deleteTask
       LocalTaskService.saveTasks LocalTaskService.saveSessions].

Ltac case_find :=
  match goal with
  | |- context [list_find ?P ?l] => destruct (list_find P l) as [[??]|]
  end.

Section view_model_equations.
Context (now : Date) (w : App.t).

Lemma vm_updateTask_found id dto index old :
  findTask id (App.localStorage w) = Some (index, old) →
  let updated := LocalTaskService.mergeTask now old dto in
  TaskViewModel.updateTask now id dto w =
    (Ok updated,
     App.mk (Storage.mk (<[index := updated]> (Storage.tasks (App.localStorage w)))
                        (Storage.sessions (App.localStorage w)))
            ((λ task, if bool_decide (Task.id task = id) then updated else task)
               <$> App.tasksAtom w)
            (App.activeTaskIdAtom w) (App.currentSessionAtom w)
            (App.pomodoroTimerAtom w) (App.pomodoroSettingsAtom w)
            (App.taskSessionsAtom w) (App.errorAtom w)).
Proof.
  intros H. unfold TaskViewModel.updateTask. run_monad.
  by rewrite (updateTask_found _ _ _ _ _ _ H).
Qed.

Lemma vm_updateTask_missing id dto :
  findTask id (App.localStorage w) = None →
  TaskViewModel.updateTask now id dto w
  = (Err TaskNotFound, withError w TaskNotFound).
Proof.
  intros H. unfold TaskViewModel.updateTask. run_monad.
  by rewrite (updateTask_missing _ _ _ _ H).
Qed.

Lemma startTask_found rnd taskId index old :
  findTask taskId (App.localStorage w) = Some (index, old) →
  let updated :=
    LocalTaskService.mergeTask now old (UpdateTaskDto.of_status in_progress) in
  let session :=
    LocalTaskService.newSession now rnd (CreateSessionDto.mk taskId None) in
  let workDuration :=
    PomodoroSettings.workDuration (App.pomodoroSettingsAtom w) * 60 in
  TaskViewModel.startTask now rnd taskId w =
    (Ok tt,
     App.mk (Storage.mk (<[index := updated]> (Storage.tasks (App.localStorage w)))
                        (Storage.sessions (App.localStorage w) ++ [session]))
            ((λ task, if bool_decide (Task.id task = taskId) then updated else task)
               <$> App.tasksAtom w)
            (Some taskId) (Some session)
            (PomodoroTimerState.mk true false workDuration workDuration pomodoro
               (PomodoroTimerState.completedPomodoros (App.pomodoroTimerAtom w)))
            (App.pomodoroSettingsAtom w)
            (App.taskSessionsAtom w) (App.errorAtom w)).
Proof.
  intros H. unfold TaskViewModel.startTask.
  unfold TaskViewModel.report at 1, try_catch at 1, mbind at 1, M_bind at 1.
  rewrite (vm_updateTask_found _ _ _ _ H). by run_monad.
Qed.

Lemma startTask_missing rnd taskId :
  findTask taskId (App.localStorage w) = None →
  TaskViewModel.startTask now rnd taskId w
  = (Err TaskNotFound, withError w TaskNotFound).
Proof.
  intros H. unfold TaskViewModel.startTask.
  unfold TaskViewModel.report at 1, try_catch at 1, mbind at 1, M_bind at 1.
  rewrite (vm_updateTask_missing _ _ H). by run_monad.
Qed.

Lemma stopTask_idle achievement pending :
  App.currentSessionAtom w = None →
  TaskViewModel.stopTask now achievement pending w = (Ok tt, w).
Proof.
  intros H. unfold TaskViewModel.stopTask. run_monad. by rewrite H.
Qed.

Lemma stopTask_found achievement pending currentSession index old :
  App.currentSessionAtom w = Some currentSession →
  findSession (TaskSession.id currentSession) (App.localStorage w) = Some (index, old) →
  let dto :=
    TaskViewModel.closingDto now
      (TaskViewModel.elapsedMinutes now (TaskSession.startedAt currentSession))
      (PomodoroTimerState.timeRemaining (App.pomodoroTimerAtom w) <=? 0)
      achievement pending in
  let st' :=
    snd (LocalTaskService.updateSession now (TaskSession.id currentSession) dto
           (App.localStorage w)) in
  TaskViewModel.stopTask now achievement pending w =
    (Ok tt,
     App.mk st' (App.tasksAtom w) (App.activeTaskIdAtom w) None
       (PomodoroTimerState.mk false false
          (PomodoroSettings.workDuration (App.pomodoroSettingsAtom w) * 60)
          (PomodoroTimerState.totalTime (App.pomodoroTimerAtom w))
          (PomodoroTimerState.sessionType (App.pomodoroTimerAtom w))
          (PomodoroTimerState.completedPomodoros (App.pomodoroTimerAtom w)))
       (App.pomodoroSettingsAtom w)
       (sessionsAfterStop w st') (App.errorAtom w)).
Proof.
  intros Hcur Hfind dto st'. unfold TaskViewModel.stopTask, sessionsAfterStop.
  unfold mbind at 1, M_bind at 1, get at 1. rewrite Hcur.
  subst st'. run_monad. fold dto.
  rewrite (updateSession_found now _ _ dto _ _ Hfind). cbn.
  destruct (App.activeTaskIdAtom w) as [a|]; [|done].
  by destruct (bool_decide (a = "")).
Qed.

Lemma stopTask_missing achievement pending currentSession :
  App.currentSessionAtom w = Some currentSession →
  findSession (TaskSession.id currentSession) (App.localStorage w) = None →
  TaskViewModel.stopTask now achievement pending w
  = (Err SessionNotFound, withError w SessionNotFound).
Proof.
  intros Hcur Hfind. unfold TaskViewModel.stopTask.
  unfold mbind at 1, M_bind at 1, get at 1. rewrite Hcur.
  run_monad. by rewrite (updateSession_missing _ _ _ _ Hfind).
Qed.

End view_model_equations.

(** ** What one operation does to the store, the settings and the countdown *)

Section run_op.
Context (w : App.t).
Let remaining (w : App.t) : Z :=
  PomodoroTimerState.timeRemaining (App.pomodoroTimerAtom w).

Lemma run_op_shape op :
  let w' := Engine.run_op op w in
  App.localStorage w'
    = foldl Mutation.apply (App.localStorage w) (Mutation.of_op op w)
  ∧ App.pomodoroSettingsAtom w'
    = match op with
      | Engine.UpdatePomodoroSettings settings =>
          TaskViewModel.mergeSettings (App.pomodoroSettingsAtom w) settings
      | _ => App.pomodoroSettingsAtom w
      end
  ∧ (remaining w' = remaining w
     ∨ remaining w'
       = PomodoroSettings.workDuration (App.pomodoroSettingsAtom w) * 60
     ∨ remaining w'
       = PomodoroTimerState.timeRemaining
           (TaskViewModel.countdown (App.pomodoroTimerAtom w))).
Proof.
  unfold remaining, Engine.run_op.
  destruct op as [now rnd dto|now id dto|id|now rnd dto|now id dto|
                  |now rnd dto|now id dto|id|now rnd taskId| |now ach pend
                  |now taskId|taskId|settings|active|];
    cbn [Engine.exec Mutation.of_op].
  - run_monad. auto.
  - run_monad. cbn [foldl Mutation.apply].
    destruct (LocalTaskService.updateTask _ _ _ _) as [[?|?] ?]; auto.
  - run_monad. auto.
  - run_monad. auto.
  - run_monad. cbn [foldl Mutation.apply].
    destruct (LocalTaskService.updateSession _ _ _ _) as [[?|?] ?]; auto.
  - unfold TaskViewModel.loadTasks. run_monad. cbn. case_find; auto.
  - unfold TaskViewModel.createTask. run_monad. auto.
  - unfold mbind, M_bind. cbn [foldl Mutation.apply].
    destruct (findTask id (App.localStorage w)) as [[i old]|] eqn:H.
    + rewrite (vm_updateTask_found _ _ _ _ _ _ H),
        (updateTask_found _ _ _ _ _ _ H). auto.
    + rewrite (vm_updateTask_missing _ _ _ _ H),
        (updateTask_missing _ _ _ _ H). auto.
  - unfold TaskViewModel.deleteTask. run_monad. auto.
  - destruct (findTask taskId (App.localStorage w)) as [[i old]|] eqn:H.
    + rewrite (startTask_found _ _ _ _ _ _ H). cbn.
      rewrite (updateTask_found _ _ _ _ _ _ H). auto.
    + rewrite (startTask_missing _ _ _ _ H). auto.
  - run_monad. auto.
  - destruct (App.currentSessionAtom w) as [cs|] eqn:Hcur.
    + destruct (findSession (TaskSession.id cs) (App.localStorage w))
        as [[i old]|] eqn:H.
      * rewrite (stopTask_found _ _ _ _ _ _ _ Hcur H). auto.
      * rewrite (stopTask_missing _ _ _ _ _ Hcur H). cbn.
        rewrite (updateSession_missing _ _ _ _ H). auto.
    + rewrite stopTask_idle by done. auto.
  - unfold TaskViewModel.completeTask, mbind, M_bind.
    cbn [foldl Mutation.apply].
    destruct (findTask taskId (App.localStorage w)) as [[i old]|] eqn:H.
    + rewrite (vm_updateTask_found _ _ _ _ _ _ H),
        (updateTask_found _ _ _ _ _ _ H). auto.
    + rewrite (vm_updateTask_missing _ _ _ _ H),
        (updateTask_missing _ _ _ _ H). auto.
  - unfold TaskViewModel.loadTaskSessions. run_monad. auto.
  - run_monad. auto.
  - run_monad. auto.
  - unfold TaskViewModel.tick. run_monad. destruct (negb _ || _); auto.
Qed.

Lemma run_op_storage op :
  App.localStorage (Engine.run_op op w)
  = foldl Mutation.apply (App.localStorage w) (Mutation.of_op op w).
Proof. apply run_op_shape. Qed.

End run_op.

Lemma run_cons op ops w :
  Engine.run (op :: ops) w = Engine.run ops (Engine.run_op op w).
Proof. reflexivity. Qed.

Lemma run_app ops1 ops2 w :
  Engine.run (ops1 ++ ops2) w = Engine.run ops2 (Engine.run ops1 w).
Proof. apply foldl_app. Qed.

(* a list of operations that passes the check is a path of [reachable] *)
Lemma reachable_run allowed ops w0 w :
  Engine.reachable allowed w0 w →
  allowedRun allowed ops w = true →
  Engine.reachable allowed w0 (Engine.run ops w).
Proof.
  revert w. induction ops as [|op ops IH]; intros w Hw; [done|].
  cbn [allowedRun]. intros [Hop Hops]%andb_true_iff.
  rewrite run_cons. apply IH; [|done]. by constructor.
Qed.

(** ** Searching and overwriting arrays *)

Section find_lemmas.
Context {A : Type} (P : A → Prop) `{!∀ x, Decision (P x)}.

(* overwriting a slot with an element that answers the search alike
   moves no search result *)
Lemma list_find_insert_alike (l : list A) (i j : nat) (x y t : A) :
  l !! j = Some y → (P x ↔ P y) →
  list_find P l = Some (i, t) →
  list_find P (<[j := x]> l) = Some (i, if decide (i = j) then x else t).
Proof.
  intros Hj Hxy (Hi & Ht & Hleast)%list_find_Some.
  apply list_find_Some. destruct (decide (i = j)) as [->|Hne].
  - simplify_eq. split_and!.
    + apply list_lookup_insert_eq. by eapply lookup_lt_Some.
    + tauto.
    + intros k z Hk Hlt. rewrite list_lookup_insert_ne in Hk by lia. eauto.
  - split_and!; [by rewrite list_lookup_insert_ne|done|].
    intros k z Hk Hlt. destruct (decide (k = j)) as [->|].
    + rewrite list_lookup_insert_eq in Hk by (by eapply lookup_lt_Some).
      simplify_eq. intros ?%Hxy. by apply (Hleast j y).
    + rewrite list_lookup_insert_ne in Hk by done. eauto.
Qed.

(* a filter that keeps every answer keeps the first answer *)
Lemma list_find_filter_keeps (Q : A → Prop) `{!∀ x, Decision (Q x)}
    (l : list A) (i : nat) (t : A) :
  (∀ x, P x → Q x) →
  list_find P l = Some (i, t) →
  ∃ i', list_find P (filter Q l) = Some (i', t).
Proof.
  intros HPQ. revert i. induction l as [|x l IH]; intros i; [done|].
  cbn [list_find]. destruct (decide (P x)) as [HP|HP].
  - intros [= <- <-]. rewrite filter_cons_True by auto.
    exists 0%nat. cbn. by rewrite decide_True.
  - destruct (list_find P l) as [[i' t']|] eqn:Hl; [|done].
    intros [= <- <-]. destruct (IH i' eq_refl) as [k Hk].
    destruct (decide (Q x)).
    + rewrite filter_cons_True by done. exists (S k).
      cbn. rewrite decide_False by done. by rewrite Hk.
    + rewrite filter_cons_False by done. eauto.
Qed.

Lemma list_find_filter_out (l : list A) :
  list_find P (filter (λ x, ¬ P x) l) = None.
Proof.
  apply list_find_None, Forall_forall.
  by intros x [? _]%list_elem_of_filter.
Qed.

(* overwriting a slot does not add an element that passes the filter
   when the old element passed it whenever the new one does *)
Lemma filter_insert_length (l : list A) (i : nat) (x y : A) :
  l !! i = Some y → (P x → P y) →
  (length (filter P (<[i := x]> l)) ≤ length (filter P l))%nat.
Proof.
  intros Hi Hxy.
  rewrite insert_take_drop by (by eapply lookup_lt_Some).
  rewrite <- (take_drop_middle l i y Hi) at 3.
  rewrite !filter_app, !length_app, !filter_cons.
  destruct (decide (P x)), (decide (P y)); cbn; try lia. tauto.
Qed.

Lemma elem_of_insert_inv (l : list A) (i : nat) (x y : A) :
  y ∈ <[i := x]> l → y = x ∨ ∃ k, k ≠ i ∧ l !! k = Some y.
Proof.
  intros [k Hk]%list_elem_of_lookup.
  apply list_lookup_insert_Some in Hk as [(_ & -> & _)|[? ?]]; eauto.
Qed.

End find_lemmas.

Lemma filter_unknown_id id (tasks : list Task.t) :
  list_find (λ task, Task.id task = id) tasks = None →
  filter (λ task, Task.id task ≠ id) tasks = tasks.
Proof.
  rewrite list_find_None. induction 1 as [|t l Ht _ IH]; [done|].
  rewrite filter_cons_True by done. by rewrite IH.
Qed.

Lemma findTask_insert_same st id index old task :
  findTask id st = Some (index, old) →
  Task.id task = id →
  list_find (λ t, Task.id t = id) (<[index := task]> (Storage.tasks st))
    = Some (index, task).
Proof.
  unfold findTask. intros (Hl & _ & Hleast)%list_find_Some Hid.
  apply list_find_insert_Some. right; left.
  split_and!; [done..|by eapply lookup_lt_Some|done|done].
Qed.

Lemma findTask_after_update st now id id' dto index old i t :
  findTask id' st = Some (index, old) →
  findTask id st = Some (i, t) →
  findTask id (Storage.mk (<[index := LocalTaskService.mergeTask now old dto]>
                             (Storage.tasks st)) (Storage.sessions st))
  = Some (i, if decide (i = index)
             then LocalTaskService.mergeTask now old dto else t).
Proof.
  intros Hold Ht. unfold findTask in *. cbn.
  apply list_find_Some in Hold as Hold'. destruct Hold' as (Hl & _ & _).
  by apply (list_find_insert_alike _ _ _ _ _ old).
Qed.

Lemma insert_mergeTask_ids now (tasks : list Task.t) (j : nat) task dto :
  tasks !! j = Some task →
  Task.id <$> <[j := LocalTaskService.mergeTask now task dto]> tasks
  = Task.id <$> tasks.
Proof.
  intros Hj. rewrite list_fmap_insert. apply list_insert_id.
  by rewrite list_lookup_fmap, Hj.
Qed.

Lemma NoDup_ids_lookup (tasks : list Task.t) j k t1 t2 :
  NoDup (Task.id <$> tasks) →
  tasks !! j = Some t1 → tasks !! k = Some t2 → Task.id t1 = Task.id t2 →
  j = k.
Proof.
  intros Hnd H1 H2 Hid. apply (NoDup_lookup _ _ _ (Task.id t1) Hnd).
  - by rewrite list_lookup_fmap, H1.
  - by rewrite list_lookup_fmap, H2, Hid.
Qed.

(** ** The writes, one by one *)

Lemma mutation_sessions_kept m st :
  writesTasksOnly m →
  Storage.sessions (Mutation.apply st m) = Storage.sessions st.
Proof.
  destruct m as [now rnd dto|now id dto|id|now rnd dto|now id dto];
    cbn [Mutation.apply writesTasksOnly]; try done; intros _.
  destruct (findTask id st) as [[j old]|] eqn:Hold.
  - by rewrite (updateTask_found _ _ _ _ _ _ Hold).
  - by rewrite (updateTask_missing _ _ _ _ Hold).
Qed.

Lemma updateSession_sessions now id dto st :
  Storage.sessions (Mutation.apply st (Mutation.updateSession now id dto))
  = match findSession id st with
    | Some (index, old) =>
        <[index := LocalTaskService.mergeSession old dto]> (Storage.sessions st)
    | None => Storage.sessions st
    end.
Proof.
  cbn [Mutation.apply].
  destruct (findSession id st) as [[j old]|] eqn:Hold.
  - rewrite (updateSession_found _ _ _ _ _ _ Hold). cbn [snd].
    destruct (LocalTaskService.truthy _); [|done].
    by destruct (findTask _ _) as [[??]|].
  - by rewrite (updateSession_missing _ _ _ _ Hold).
Qed.

(** ** The countdown *)

Section countdown.
Context (w : App.t).
Let timer := App.pomodoroTimerAtom w.
Context (Hrun : PomodoroTimerState.isRunning timer = true)
        (Hpause : PomodoroTimerState.isPaused timer = false).

Lemma tick_running :
  Engine.run_op Engine.Tick w = withTimer w (TaskViewModel.countdown timer).
Proof.
  unfold Engine.run_op; cbn [Engine.exec]. unfold TaskViewModel.tick.
  run_monad. fold timer. by rewrite Hrun, Hpause.
Qed.

Lemma tick_last :
  PomodoroTimerState.timeRemaining timer ≤ 1 →
  Engine.run_op Engine.Tick w = withTimer w (completedTimer timer).
Proof.
  intros H. rewrite tick_running. unfold TaskViewModel.countdown.
  by rewrite (proj2 (Z.leb_le _ _)) by lia.
Qed.

Lemma tick_decrement :
  1 < PomodoroTimerState.timeRemaining timer →
  Engine.run_op Engine.Tick w
  = withTimer w (withTimeRemaining timer
                   (PomodoroTimerState.timeRemaining timer - 1)).
Proof.
  intros H. rewrite tick_running. unfold TaskViewModel.countdown.
  by rewrite (proj2 (Z.leb_gt _ _)) by lia.
Qed.
End countdown.

(* fewer ticks than seconds remain: the countdown is still running *)
Lemma ticks_decrement (n : nat) w :
  PomodoroTimerState.isRunning (App.pomodoroTimerAtom w) = true →
  PomodoroTimerState.isPaused (App.pomodoroTimerAtom w) = false →
  Z.of_nat n < PomodoroTimerState.timeRemaining (App.pomodoroTimerAtom w) →
  Engine.run (replicate n Engine.Tick) w
  = withTimer w (withTimeRemaining (App.pomodoroTimerAtom w)
       (PomodoroTimerState.timeRemaining (App.pomodoroTimerAtom w) - Z.of_nat n)).
Proof.
  revert w. induction n as [|n IH]; intros w Hrun Hpause Hlt.
  - cbn. rewrite Z.sub_0_r. by destruct w as [? ? ? ? [] ? ? ?].
  - cbn [replicate]. rewrite run_cons.
    rewrite (tick_decrement w Hrun Hpause) by lia.
    rewrite IH; cbn; [|done|done|lia].
    unfold withTimer, withTimeRemaining; cbn. do 2 f_equal. lia.
Qed.

(* as many ticks as seconds remain: the last one completes the pomodoro *)
Lemma ticks_complete (n : nat) w :
  PomodoroTimerState.isRunning (App.pomodoroTimerAtom w) = true →
  PomodoroTimerState.isPaused (App.pomodoroTimerAtom w) = false →
  PomodoroTimerState.timeRemaining (App.pomodoroTimerAtom w) = Z.of_nat (S n) →
  Engine.run (replicate (S n) Engine.Tick) w
  = withTimer w (completedTimer (App.pomodoroTimerAtom w)).
Proof.
  intros Hrun Hpause H.
  replace (S n) with (n + 1)%nat by lia.
  rewrite replicate_add, run_app.
  rewrite (ticks_decrement n w); [|done|done|lia].
  cbn [replicate]. rewrite run_cons. cbn [Engine.run foldl].
  rewrite tick_last; cbn; [|done|done|lia].
  reflexivity.
Qed.

Lemma countdown_nonneg t :
  0 ≤ PomodoroTimerState.timeRemaining (TaskViewModel.countdown t).
Proof.
  unfold TaskViewModel.countdown.
  destruct (Z.leb_spec (PomodoroTimerState.timeRemaining t - 1) 0); cbn; lia.
Qed.

Lemma countdown_clamps t :
  PomodoroTimerState.timeRemaining t - 1 ≤ 0 →
  PomodoroTimerState.timeRemaining (TaskViewModel.countdown t) = 0.
Proof.
  intros H. unfold TaskViewModel.countdown.
  by rewrite (proj2 (Z.leb_le _ _)) by lia.
Qed.

(** ** Elapsed minutes *)

Lemma elapsedMinutes_floor now startedAt :
  TaskViewModel.elapsedMinutes now startedAt = (now - startedAt) `div` 60000.
Proof. unfold TaskViewModel.elapsedMinutes. rewrite Z.div_div by lia. done. Qed.

Lemma elapsedMinutes_sub_minute now startedAt :
  0 ≤ now - startedAt < 60000 →
  TaskViewModel.elapsedMinutes now startedAt = 0.
Proof. intros H. rewrite elapsedMinutes_floor. by apply Z.div_small. Qed.

(** * The claims *)

(** ** C1: open sessions *)

Lemma createSession_opens now rnd dto st :
  openSessions (Mutation.apply st (Mutation.createSession now rnd dto))
  = openSessions st ++ [LocalTaskService.newSession now rnd dto].
Proof.
  unfold openSessions. cbn [Mutation.apply].
  rewrite createSession_eq. cbn [snd Storage.sessions].
  by rewrite filter_app.
Qed.

Lemma writesTasksOnly_openSessions m st :
  writesTasksOnly m → openSessions (Mutation.apply st m) = openSessions st.
Proof. intros Hm. unfold openSessions. by rewrite mutation_sessions_kept. Qed.

Lemma updateSession_opens_none now id dto st :
  UpdateSessionDto.endedAt dto ≠ Some None →
  (length (openSessions (Mutation.apply st (Mutation.updateSession now id dto)))
   ≤ length (openSessions st))%nat.
Proof.
  intros Hdto. unfold openSessions. rewrite updateSession_sessions.
  destruct (findSession id st) as [[j old]|] eqn:Hold; [|done].
  apply (filter_insert_length _ _ _ _ old).
  - by eapply findSession_lookup.
  - cbn. destruct (UpdateSessionDto.endedAt dto) as [[t|]|]; cbn; done.
Qed.

Lemma run_op_one_open_session op w :
  oneSessionAtATime op w = true →
  (length (openSessions (App.localStorage w)) ≤ 1)%nat →
  (length (openSessions (App.localStorage (Engine.run_op op w))) ≤ 1)%nat.
Proof.
  intros Hallowed Hinv. rewrite run_op_storage.
  destruct op; cbn [Mutation.of_op foldl]; cbn in Hallowed;
    rewrite ?writesTasksOnly_openSessions by done; try done.
  - apply bool_decide_eq_true in Hallowed.
    rewrite createSession_opens, Hallowed. cbn. lia.
  - apply bool_decide_eq_true in Hallowed.
    etrans; [by apply updateSession_opens_none|done].
  - apply bool_decide_eq_true in Hallowed.
    destruct (findTask _ _); cbn [foldl]; [|done].
    rewrite createSession_opens, writesTasksOnly_openSessions, Hallowed by done.
    cbn. lia.
  - destruct (App.currentSessionAtom w); cbn [foldl]; [|done].
    etrans; [by apply updateSession_opens_none|done].
Qed.

(** C1, as the code has it.  In every state reachable from empty storage
    by operations of the engine in which a session is opened
    (createSession, startTask) only while no session is open, and in which
    no session update carries an [endedAt] key holding [undefined], the
    number of sessions with [endedAt] unset is 0 or 1. *)
Theorem at_most_one_open_session w :
  Engine.reachable oneSessionAtATime (App.init Storage.empty) w →
  (length (openSessions (App.localStorage w)) ≤ 1)%nat.
Proof.
  induction 1 as [|op w _ IH Hallowed]; [cbn; lia|].
  by apply run_op_one_open_session.
Qed.

Lemma at_most_one_open_session_witness :
  let w := Engine.run
    (Sample.twoTasks ++
     [Engine.StartTask 3000 "w1e4r6t8y" Sample.idA;
      Engine.StopTask 303000 None None;
      Engine.StartTask 304000 "u2i5o7p9a" Sample.idB])
    (App.init Storage.empty) in
  Engine.reachable oneSessionAtATime (App.init Storage.empty) w
  ∧ (length (openSessions (App.localStorage w)) ≤ 1)%nat.
Proof.
  intros w.
  assert (Hreach : Engine.reachable oneSessionAtATime (App.init Storage.empty) w).
  { apply reachable_run; [constructor|]. vm_compute. reflexivity. }
  split; [exact Hreach|]. exact (at_most_one_open_session w Hreach).
Defined.

(** C1, as stated, fails: the engine does not refuse to start a task while
    a session is open.  Two tasks are created, the first is started and,
    with its session still open, the second is started: two sessions have
    [endedAt] unset.  A closed session can also be opened again: the first
    task is started and stopped, the second is started, and an update of
    the first session with [{ endedAt: undefined }] leaves two sessions
    with [endedAt] unset. *)
Lemma second_start_leaves_two_open_sessions :
  let w1 := Engine.run
    (Sample.twoTasks ++
     [Engine.StartTask 3000 "w1e4r6t8y" Sample.idA;
      Engine.StartTask 4000 "u2i5o7p9a" Sample.idB])
    (App.init Storage.empty) in
  let w2 := Engine.run
    (Sample.twoTasks ++
     [Engine.StartTask 3000 "w1e4r6t8y" Sample.idA;
      Engine.StopTask 303000 None None;
      Engine.StartTask 304000 "u2i5o7p9a" Sample.idB;
      Engine.SvcUpdateSession 305000 (TaskSession.id Sample.sessionA)
        Sample.reopening])
    (App.init Storage.empty) in
  length (openSessions (App.localStorage w1)) = 2%nat
  ∧ length (openSessions (App.localStorage w2)) = 2%nat.
Proof. vm_compute. done. Qed.

(** ** C2: actualMinutes and the closed sessions *)

Lemma closedMinutes_app taskId l1 l2 :
  closedMinutes taskId (l1 ++ l2)
  = closedMinutes taskId l1 + closedMinutes taskId l2.
Proof.
  unfold closedMinutes. rewrite filter_app, fmap_app.
  induction (_ <$> filter _ l1) as [|x l IH]; cbn; lia.
Qed.

Lemma closedMinutes_cons taskId s l :
  closedMinutes taskId (s :: l)
  = (if decide (TaskSession.taskId s = taskId ∧ TaskSession.endedAt s ≠ None)
     then TaskSession.durationMinutes s else 0)
    + closedMinutes taskId l.
Proof.
  unfold closedMinutes. rewrite filter_cons. by case_decide.
Qed.

Lemma closedMinutes_open taskId l s :
  TaskSession.endedAt s = None →
  closedMinutes taskId (l ++ [s]) = closedMinutes taskId l.
Proof.
  intros Hs. rewrite closedMinutes_app, closedMinutes_cons.
  rewrite decide_False by (rewrite Hs; tauto). unfold closedMinutes; cbn. lia.
Qed.

Lemma closedMinutes_unreferenced taskId l :
  taskId ∉ TaskSession.taskId <$> l → closedMinutes taskId l = 0.
Proof.
  induction l as [|s l IH]; [done|]. rewrite fmap_cons, not_elem_of_cons.
  intros [Hs Hl]. rewrite closedMinutes_cons, IH by done.
  rewrite decide_False; [done|]. intros [? _]. congruence.
Qed.

(* closing the open session in slot [i] adds its duration to its task *)
Lemma closedMinutes_close taskId l i old new :
  l !! i = Some old →
  TaskSession.endedAt old = None →
  TaskSession.endedAt new ≠ None →
  TaskSession.taskId new = TaskSession.taskId old →
  closedMinutes taskId (<[i := new]> l)
  = closedMinutes taskId l
    + (if decide (TaskSession.taskId old = taskId)
       then TaskSession.durationMinutes new else 0).
Proof.
  intros Hi Hold Hnew Hid.
  rewrite insert_take_drop by (by eapply lookup_lt_Some).
  rewrite <- (take_drop_middle l i old Hi) at 3.
  rewrite !closedMinutes_app, !closedMinutes_cons.
  rewrite (decide_False (P := _ ∧ TaskSession.endedAt old ≠ None))
    by (rewrite Hold; tauto).
  rewrite Hid. destruct (decide (TaskSession.taskId old = taskId)).
  - rewrite decide_True by done. lia.
  - rewrite decide_False by tauto. lia.
Qed.

Lemma credited_createTask now rnd dto st :
  freshTaskId (LocalTaskService.newTaskId now rnd) st →
  credited st → credited (Mutation.apply st (Mutation.createTask now rnd dto)).
Proof.
  intros [Htasks Hsessions] [Hids Hopen Hsum].
  cbn [Mutation.apply]. rewrite createTask_eq. cbn [snd].
  split; cbn [Storage.tasks Storage.sessions].
  - rewrite fmap_app. apply NoDup_app. split_and!; [done| |apply NoDup_singleton].
    intros x Hx ->%list_elem_of_singleton. by apply Htasks.
  - done.
  - intros task [Hin| ->%list_elem_of_singleton]%elem_of_app; [by apply Hsum|].
    cbn. by rewrite closedMinutes_unreferenced.
Qed.

Lemma credited_updateTask now id dto st :
  UpdateTaskDto.actualMinutes dto = None →
  credited st → credited (Mutation.apply st (Mutation.updateTask now id dto)).
Proof.
  intros Hdto [Hids Hopen Hsum]. cbn [Mutation.apply].
  destruct (findTask id st) as [[j old]|] eqn:Hold.
  - rewrite (updateTask_found _ _ _ _ _ _ Hold). cbn [snd].
    pose proof (findTask_lookup _ _ _ _ Hold) as Hj.
    split; cbn [Storage.tasks Storage.sessions].
    + by rewrite insert_mergeTask_ids.
    + done.
    + intros task [->|(k & _ & Hk)]%elem_of_insert_inv.
      * cbn. rewrite Hdto. cbn. apply Hsum. by eapply list_elem_of_lookup_2.
      * apply Hsum. by eapply list_elem_of_lookup_2.
  - by rewrite (updateTask_missing _ _ _ _ Hold).
Qed.

Lemma credited_deleteTask id st :
  credited st → credited (Mutation.apply st (Mutation.deleteTask id)).
Proof.
  intros [Hids Hopen Hsum]. cbn [Mutation.apply]. rewrite deleteTask_eq.
  split; cbn [snd Storage.tasks Storage.sessions].
  - eapply sublist_NoDup; [done|]. apply fmap_sublist, sublist_filter.
  - done.
  - intros task [_ Hin]%list_elem_of_filter. by apply Hsum.
Qed.

Lemma credited_createSession now rnd dto st :
  credited st → credited (Mutation.apply st (Mutation.createSession now rnd dto)).
Proof.
  intros [Hids Hopen Hsum]. cbn [Mutation.apply]. rewrite createSession_eq.
  split; cbn [snd Storage.tasks Storage.sessions].
  - done.
  - intros s [Hin| ->%list_elem_of_singleton]%elem_of_app; [by apply Hopen|done].
  - intros task Hin. rewrite closedMinutes_open by done. by apply Hsum.
Qed.

(* an open session has no minutes yet, so closing it leaves it with the
   truthy duration of the partial, or with 0 *)
Lemma mergeSession_closing_duration old dto :
  TaskSession.durationMinutes old = 0 →
  TaskSession.durationMinutes (LocalTaskService.mergeSession old dto)
  = default 0 (LocalTaskService.truthy (UpdateSessionDto.durationMinutes dto)).
Proof.
  intros Hzero. cbn. rewrite Hzero.
  destruct (UpdateSessionDto.durationMinutes dto) as [d|]; [|done].
  cbn. by case_bool_decide.
Qed.

Lemma credited_updateSession now id dto st :
  reachesOpenSession id st → setsEndedAt dto = true →
  credited st → credited (Mutation.apply st (Mutation.updateSession now id dto)).
Proof.
  intros Hreach Hends [Hids Hopen Hsum]. cbn [Mutation.apply].
  unfold reachesOpenSession in Hreach.
  destruct (findSession id st) as [[i old]|] eqn:Hold;
    [|by rewrite (updateSession_missing _ _ _ _ Hold)].
  rewrite (updateSession_found _ _ _ _ _ _ Hold). cbn [snd].
  set (new := LocalTaskService.mergeSession old dto).
  pose proof (findSession_lookup _ _ _ _ Hold) as Hi.
  assert (Hnew : TaskSession.endedAt new ≠ None).
  { subst new. cbn. unfold setsEndedAt in Hends.
    by destruct (UpdateSessionDto.endedAt dto) as [[?|]|]. }
  assert (Hminutes : ∀ taskId,
    closedMinutes taskId (<[i := new]> (Storage.sessions st))
    = closedMinutes taskId (Storage.sessions st)
      + (if decide (TaskSession.taskId old = taskId)
         then default 0 (LocalTaskService.truthy
                           (UpdateSessionDto.durationMinutes dto))
         else 0)).
  { intros taskId. rewrite <- (mergeSession_closing_duration old dto).
    - by apply closedMinutes_close.
    - apply Hopen; [|done]. by eapply list_elem_of_lookup_2. }
  assert (Hopen' : ∀ s, s ∈ <[i := new]> (Storage.sessions st) →
    TaskSession.endedAt s = None → TaskSession.durationMinutes s = 0).
  { intros s [->|(k & _ & Hk)]%elem_of_insert_inv Hs; [done|].
    apply Hopen; [|done]. by eapply list_elem_of_lookup_2. }
  destruct (LocalTaskService.truthy _) as [d|] eqn:Htruthy.
  - destruct (findTask (TaskSession.taskId old) st) as [[j task]|] eqn:Htask.
    + pose proof (findTask_lookup _ _ _ _ Htask) as Hj.
      pose proof (findTask_id _ _ _ _ Htask) as Hid.
      split; cbn [Storage.tasks Storage.sessions].
      * by rewrite insert_mergeTask_ids.
      * done.
      * intros t [->|(k & Hne & Hk)]%elem_of_insert_inv; rewrite Hminutes.
        -- cbn. rewrite decide_True by done. cbn.
           rewrite (Hsum task) by (by eapply list_elem_of_lookup_2). done.
        -- rewrite decide_False.
           ++ rewrite Z.add_0_r. apply Hsum. by eapply list_elem_of_lookup_2.
           ++ intros Heq. apply Hne.
              eapply (NoDup_ids_lookup _ _ _ _ _ Hids Hk Hj). congruence.
    + split; cbn [Storage.tasks Storage.sessions]; [done..|].
      intros t Hin. rewrite Hminutes, decide_False.
      * rewrite Z.add_0_r. by apply Hsum.
      * intros Heq. unfold findTask in Htask.
        rewrite list_find_None, Forall_forall in Htask.
        by apply (Htask t Hin).
  - split; cbn [Storage.tasks Storage.sessions]; [done..|].
    intros t Hin. rewrite Hminutes. cbn.
    rewrite (Hsum t Hin). case_decide; lia.
Qed.

Lemma mutation_credited m st :
  creditGuard m st → credited st → credited (Mutation.apply st m).
Proof.
  destruct m; cbn [creditGuard].
  - apply credited_createTask.
  - apply credited_updateTask.
  - intros _. apply credited_deleteTask.
  - intros _. apply credited_createSession.
  - intros [??]. by apply credited_updateSession.
Qed.

Lemma run_op_credited op w :
  creditedOnce op w = true →
  credited (App.localStorage w) →
  credited (App.localStorage (Engine.run_op op w)).
Proof.
  intros Hallowed Hinv. rewrite run_op_storage.
  destruct op; cbn [Mutation.of_op foldl]; cbn in Hallowed; try done.
  - apply mutation_credited; [|done]. by apply bool_decide_eq_true in Hallowed.
  - apply mutation_credited; [|done]. by apply bool_decide_eq_true in Hallowed.
  - by apply mutation_credited.
  - by apply mutation_credited.
  - apply andb_true_iff in Hallowed as [?%bool_decide_eq_true ?].
    by apply mutation_credited.
  - apply mutation_credited; [|done]. by apply bool_decide_eq_true in Hallowed.
  - apply mutation_credited; [|done]. by apply bool_decide_eq_true in Hallowed.
  - by apply mutation_credited.
  - destruct (findTask _ _); cbn [foldl]; [|done].
    apply mutation_credited; [done|]. by apply mutation_credited.
  - destruct (App.currentSessionAtom w); cbn [foldl]; [|done].
    apply bool_decide_eq_true in Hallowed. by apply mutation_credited.
  - by apply mutation_credited.
Qed.

(* overwriting the session in slot [i] changes the closed minutes of its
   task by the difference of the two shares *)
Lemma closedMinutes_insert taskId l i old new :
  l !! i = Some old →
  TaskSession.taskId new = TaskSession.taskId old →
  closedMinutes taskId (<[i := new]> l)
  = closedMinutes taskId l
    + (if decide (TaskSession.taskId old = taskId)
       then closedShare new - closedShare old else 0).
Proof.
  intros Hi Hid.
  rewrite insert_take_drop by (by eapply lookup_lt_Some).
  rewrite <- (take_drop_middle l i old Hi) at 3.
  rewrite !closedMinutes_app, !closedMinutes_cons. rewrite Hid.
  unfold closedShare.
  destruct (decide (TaskSession.taskId old = taskId)) as [Ht|Ht].
  - destruct (decide (TaskSession.endedAt new = None)),
      (decide (TaskSession.endedAt old = None));
      repeat case_decide; try tauto; lia.
  - rewrite !decide_False by tauto. lia.
Qed.

(* under the two rules the share of the session grows by what is credited,
   and a session left open holds no minutes *)
Lemma creditsWithClosing_share id dto st index old :
  findSession id st = Some (index, old) →
  creditsWithClosing id dto st →
  (TaskSession.endedAt old = None → TaskSession.durationMinutes old = 0) →
  let new := LocalTaskService.mergeSession old dto in
  closedShare new - closedShare old
  = default 0 (LocalTaskService.truthy (UpdateSessionDto.durationMinutes dto))
  ∧ (TaskSession.endedAt new = None → TaskSession.durationMinutes new = 0).
Proof.
  intros Hold [Huncredited Hclosed] Hopen new.
  unfold reachesUncreditedSession, leavesSessionClosed, touchesMinutes in *.
  rewrite Hold in Huncredited, Hclosed. fold new in Hclosed.
  assert (Hended : TaskSession.endedAt new
                   = default (TaskSession.endedAt old)
                             (UpdateSessionDto.endedAt dto)) by done.
  assert (Hduration : TaskSession.durationMinutes new
                      = default (TaskSession.durationMinutes old)
                                (UpdateSessionDto.durationMinutes dto)) by done.
  unfold closedShare. rewrite Hduration.
  destruct (UpdateSessionDto.durationMinutes dto) as [d|] eqn:Hd;
    cbn [default LocalTaskService.truthy].
  - assert (Hnone : TaskSession.durationMinutes old = 0).
    { apply Huncredited. left. discriminate. }
    rewrite Hnone. case_bool_decide as Hzero.
    + subst d. cbn. split; [repeat case_decide; lia|done].
    + cbn. assert (Hset : TaskSession.endedAt new ≠ None).
      { apply Hclosed. cbn. by rewrite bool_decide_eq_false_2. }
      rewrite (decide_False (P := TaskSession.endedAt new = None)) by done.
      split; [case_decide; lia|done].
  - rewrite Hended.
    destruct (UpdateSessionDto.endedAt dto) as [[e|]|] eqn:He; cbn [default].
    + split; [|done]. cbn. repeat case_decide; try done; try lia.
      rewrite Hopen by done. lia.
    + assert (Hnone : TaskSession.durationMinutes old = 0).
      { apply Huncredited. by right. }
      rewrite Hnone. cbn. split; [repeat case_decide; done || lia|done].
    + cbn. split; [lia|exact Hopen].
Qed.

Lemma credited_updateSession_closing now id dto st :
  creditsWithClosing id dto st →
  credited st → credited (Mutation.apply st (Mutation.updateSession now id dto)).
Proof.
  intros Hguard [Hids Hopen Hsum]. cbn [Mutation.apply].
  destruct (findSession id st) as [[i old]|] eqn:Hold;
    [|by rewrite (updateSession_missing _ _ _ _ Hold)].
  rewrite (updateSession_found _ _ _ _ _ _ Hold). cbn [snd].
  pose proof (findSession_lookup _ _ _ _ Hold) as Hi.
  destruct (creditsWithClosing_share id dto st i old Hold Hguard)
    as [Hshare Hnew].
  { apply Hopen. by eapply list_elem_of_lookup_2. }
  set (new := LocalTaskService.mergeSession old dto) in *.
  assert (Hminutes : ∀ taskId,
    closedMinutes taskId (<[i := new]> (Storage.sessions st))
    = closedMinutes taskId (Storage.sessions st)
      + (if decide (TaskSession.taskId old = taskId)
         then default 0 (LocalTaskService.truthy
                           (UpdateSessionDto.durationMinutes dto))
         else 0)).
  { intros taskId. rewrite <- Hshare. by apply closedMinutes_insert. }
  assert (Hopen' : ∀ s, s ∈ <[i := new]> (Storage.sessions st) →
    TaskSession.endedAt s = None → TaskSession.durationMinutes s = 0).
  { intros s [->|(k & _ & Hk)]%elem_of_insert_inv Hs; [by apply Hnew|].
    apply Hopen; [|done]. by eapply list_elem_of_lookup_2. }
  destruct (LocalTaskService.truthy _) as [d|] eqn:Htruthy.
  - destruct (findTask (TaskSession.taskId old) st) as [[j task]|] eqn:Htask.
    + pose proof (findTask_lookup _ _ _ _ Htask) as Hj.
      pose proof (findTask_id _ _ _ _ Htask) as Hid.
      split; cbn [Storage.tasks Storage.sessions].
      * by rewrite insert_mergeTask_ids.
      * done.
      * intros t [->|(k & Hne & Hk)]%elem_of_insert_inv; rewrite Hminutes.
        -- cbn. rewrite decide_True by done. cbn.
           rewrite (Hsum task) by (by eapply list_elem_of_lookup_2). done.
        -- rewrite decide_False.
           ++ rewrite Z.add_0_r. apply Hsum. by eapply list_elem_of_lookup_2.
           ++ intros Heq. apply Hne.
              eapply (NoDup_ids_lookup _ _ _ _ _ Hids Hk Hj). congruence.
    + split; cbn [Storage.tasks Storage.sessions]; [done..|].
      intros t Hin. rewrite Hminutes, decide_False.
      * rewrite Z.add_0_r. by apply Hsum.
      * intros Heq. unfold findTask in Htask.
        rewrite list_find_None, Forall_forall in Htask.
        by apply (Htask t Hin).
  - split; cbn [Storage.tasks Storage.sessions]; [done..|].
    intros t Hin. rewrite Hminutes. cbn.
    rewrite (Hsum t Hin). case_decide; lia.
Qed.

Lemma mutation_credited_closing m st :
  closingGuard m st → credited st → credited (Mutation.apply st m).
Proof.
  destruct m; cbn [closingGuard].
  - apply credited_createTask.
  - apply credited_updateTask.
  - intros _. apply credited_deleteTask.
  - intros _. apply credited_createSession.
  - apply credited_updateSession_closing.
Qed.

(* stopTask's partial sets endedAt: the second rule holds of it *)
Lemma closingDto_creditsWithClosing now duration completed achievement pending
    id st :
  reachesUncreditedSession id st →
  creditsWithClosing id
    (TaskViewModel.closingDto now duration completed achievement pending) st.
Proof.
  intros H. split; [done|]. intros _. unfold leavesSessionClosed.
  by destruct (findSession id st) as [[??]|].
Qed.

Lemma run_op_credited_closing op w :
  minutesCreditedWithClosing op w = true →
  credited (App.localStorage w) →
  credited (App.localStorage (Engine.run_op op w)).
Proof.
  intros Hallowed Hinv. rewrite run_op_storage.
  destruct op; cbn [Mutation.of_op foldl]; cbn in Hallowed; try done.
  - apply mutation_credited_closing; [|done].
    by apply bool_decide_eq_true in Hallowed.
  - apply mutation_credited_closing; [|done].
    by apply bool_decide_eq_true in Hallowed.
  - by apply mutation_credited_closing.
  - by apply mutation_credited_closing.
  - apply mutation_credited_closing; [|done].
    by apply bool_decide_eq_true in Hallowed.
  - apply mutation_credited_closing; [|done].
    by apply bool_decide_eq_true in Hallowed.
  - apply mutation_credited_closing; [|done].
    by apply bool_decide_eq_true in Hallowed.
  - by apply mutation_credited_closing.
  - destruct (findTask _ _); cbn [foldl]; [|done].
    apply mutation_credited_closing; [done|].
    by apply mutation_credited_closing.
  - destruct (App.currentSessionAtom w); cbn [foldl]; [|done].
    apply bool_decide_eq_true in Hallowed.
    apply mutation_credited_closing; [|done].
    by apply closingDto_creditsWithClosing.
  - by apply mutation_credited_closing.
Qed.

(** C2, as the code has it.  For every task T, [T.actualMinutes] equals
    the sum of [durationMinutes] over the closed sessions with
    [taskId = T.id], in every state reachable from empty storage by
    operations of the engine in which
    - a session update that carries a [durationMinutes] key, or an
      [endedAt] key holding [undefined], reaches a session whose
      [durationMinutes] is still 0,
    - a session update that carries a [durationMinutes] other than 0
      leaves the session with [endedAt] set (it sets [endedAt], as the
      update of stopTask does, or [endedAt] was set before),
    - every new task id is fresh (no task has it and no session refers
      to it), and the callers' task updates carry no [actualMinutes].
    Every other update of a session, one that only fills [notes] among
    them, is free, at any time and any number of times. *)
Theorem actualMinutes_is_closed_time w task :
  Engine.reachable minutesCreditedWithClosing (App.init Storage.empty) w →
  task ∈ Storage.tasks (App.localStorage w) →
  Task.actualMinutes task
  = closedMinutes (Task.id task) (Storage.sessions (App.localStorage w)).
Proof.
  intros Hreach. apply credited_sum.
  induction Hreach as [|op w _ IH Hallowed].
  - split; cbn; [constructor|intros ? []%elem_of_nil..].
  - by apply run_op_credited_closing.
Qed.

Lemma actualMinutes_is_closed_time_witness :
  let w := Engine.run
    (Sample.twoTasks ++
     [Engine.StartTask 3000 "w1e4r6t8y" Sample.idA;
      Engine.SvcUpdateSession 100000 (TaskSession.id Sample.sessionA)
        Scenario.notesOnly;
      Engine.StopTask 303000 (Some "Wrote spec") (Some "Review");
      Engine.SvcUpdateSession 400000 (TaskSession.id Sample.sessionA)
        Scenario.notesOnly])
    (App.init Storage.empty) in
  Engine.reachable minutesCreditedWithClosing (App.init Storage.empty) w
  ∧ ∃ task session,
      Storage.tasks (App.localStorage w) !! 0%nat = Some task
      ∧ Task.actualMinutes task = 5
      ∧ closedMinutes (Task.id task) (Storage.sessions (App.localStorage w)) = 5
      ∧ Storage.sessions (App.localStorage w) !! 0%nat = Some session
      ∧ TaskSession.notes session = Some "called away".
Proof.
  intros w.
  assert (Hreach : Engine.reachable minutesCreditedWithClosing
                     (App.init Storage.empty) w).
  { apply reachable_run; [constructor|]. vm_compute. reflexivity. }
  split; [exact Hreach|].
  destruct (Storage.tasks (App.localStorage w) !! 0%nat) as [task|] eqn:Htask;
    [|vm_compute in Htask; discriminate].
  destruct (Storage.sessions (App.localStorage w) !! 0%nat) as [session|]
    eqn:Hsession; [|vm_compute in Hsession; discriminate].
  exists task, session. split; [reflexivity|].
  assert (Hfive : Task.actualMinutes task = 5).
  { vm_compute in Htask. by injection Htask as <-. }
  split; [exact Hfive|]. split.
  { rewrite <- (actualMinutes_is_closed_time w task Hreach);
      [exact Hfive|by eapply list_elem_of_lookup_2]. }
  split; [reflexivity|].
  vm_compute in Hsession. by injection Hsession as <-.
Defined.

(** C2, as stated, fails: [updateSession] adds the [durationMinutes] it is
    handed to the task whenever the value is truthy, and overwrites the
    session's [durationMinutes] and [endedAt] with what the partial holds,
    whether or not the update closes the session and whether or not the
    session was closed before.  A task is worked on for five minutes and
    stopped (5 minutes credited, one closed session of 5 minutes).
    - A later update of the same session that carries [durationMinutes: 5]
      again credits the task a second time: [actualMinutes] is 10, the
      closed sessions sum to 5.
    - A later update with [{ durationMinutes: 0 }] credits nothing and
      wipes the session's minutes: [actualMinutes] is 5, the closed
      sessions sum to 0.
    - A later update with [{ endedAt: undefined }] opens the session
      again: [actualMinutes] is 5, no session is closed.
    And, on the session while it is still open, an update with
    [{ durationMinutes: 5 }] alone credits the task while no session is
    closed: [actualMinutes] is 5, the closed sessions sum to 0. *)
Lemma second_update_credits_twice :
  let worked :=
    Sample.twoTasks ++
    [Engine.StartTask 3000 "w1e4r6t8y" Sample.idA;
     Engine.StopTask 303000 (Some "Wrote spec") (Some "Review")] in
  let after (ops : list Engine.Op) (actual closed : Z) :=
    ∃ task,
      Storage.tasks
        (App.localStorage (Engine.run ops (App.init Storage.empty))) !! 0%nat
      = Some task
      ∧ Task.id task = Sample.idA
      ∧ Task.actualMinutes task = actual
      ∧ closedMinutes (Task.id task)
          (Storage.sessions
             (App.localStorage (Engine.run ops (App.init Storage.empty))))
        = closed in
  after (worked ++
         [Engine.SvcUpdateSession 400000 (TaskSession.id Sample.sessionA)
            Sample.lateNote]) 10 5
  ∧ after (worked ++
           [Engine.SvcUpdateSession 400000 (TaskSession.id Sample.sessionA)
              Scenario.zeroMinutes]) 5 0
  ∧ after (worked ++
           [Engine.SvcUpdateSession 400000 (TaskSession.id Sample.sessionA)
              Sample.reopening]) 5 0
  ∧ after (Sample.twoTasks ++
           [Engine.StartTask 3000 "w1e4r6t8y" Sample.idA;
            Engine.SvcUpdateSession 303000 (TaskSession.id Sample.sessionA)
              Sample.minutesOnly]) 5 0.
Proof.
  intros worked after.
  assert (Hafter : ∀ ops actual closed,
    (∃ task,
       Storage.tasks
         (App.localStorage (Engine.run ops (App.init Storage.empty))) !! 0%nat
       = Some task
       ∧ bool_decide (Task.id task = Sample.idA) = true
       ∧ (Task.actualMinutes task =? actual) = true
       ∧ (closedMinutes (Task.id task)
            (Storage.sessions
               (App.localStorage (Engine.run ops (App.init Storage.empty))))
          =? closed) = true) →
    after ops actual closed).
  { intros ops actual closed (task & Htask & Hid & Hactual & Hclosed).
    exists task. split_and!; [done|by apply bool_decide_eq_true in Hid|lia..]. }
  split_and!; apply Hafter; eexists; (split; [vm_compute; reflexivity|]);
    vm_compute; done.
Qed.

(** ** C3: stopTask *)

(** C3, as the code has it.  When a session is open (the current session
    is set and stored), [stopTask(achievement, pending)] closes it with
    [endedAt = now], with [durationMinutes] the wall-clock time between the
    session's [startedAt] and [now] in whole minutes rounded down, whatever
    the countdown and the pauses, and with
    [completed = (timeRemaining <= 0)]; it then resets the timer to
    [isRunning = false], [isPaused = false],
    [timeRemaining = workDuration * 60].  A stop between 0 and 60 elapsed
    seconds yields [durationMinutes = 0] and writes no task, so
    [actualMinutes] is unchanged; it yields [completed = false] whenever the
    countdown has not reached zero ([timeRemaining > 0]). *)
Theorem stopTask_closes_session now achievement pending w cs index old :
  App.currentSessionAtom w = Some cs →
  findSession (TaskSession.id cs) (App.localStorage w) = Some (index, old) →
  let elapsed := now - TaskSession.startedAt cs in
  let remaining := PomodoroTimerState.timeRemaining (App.pomodoroTimerAtom w) in
  ∃ w' closed,
    TaskViewModel.stopTask now achievement pending w = (Ok tt, w')
    ∧ Storage.sessions (App.localStorage w')
      = <[index := closed]> (Storage.sessions (App.localStorage w))
    ∧ Storage.sessions (App.localStorage w') !! index = Some closed
    ∧ TaskSession.id closed = TaskSession.id cs
    ∧ TaskSession.endedAt closed = Some now
    ∧ TaskSession.durationMinutes closed = elapsed `div` 60000
    ∧ TaskSession.completed closed = bool_decide (remaining ≤ 0)
    ∧ TaskSession.achievement closed = achievement
    ∧ TaskSession.pending closed = pending
    ∧ App.currentSessionAtom w' = None
    ∧ App.pomodoroTimerAtom w' =
        {| PomodoroTimerState.isRunning := false;
           PomodoroTimerState.isPaused := false;
           PomodoroTimerState.timeRemaining :=
             PomodoroSettings.workDuration (App.pomodoroSettingsAtom w) * 60;
           PomodoroTimerState.totalTime :=
             PomodoroTimerState.totalTime (App.pomodoroTimerAtom w);
           PomodoroTimerState.sessionType :=
             PomodoroTimerState.sessionType (App.pomodoroTimerAtom w);
           PomodoroTimerState.completedPomodoros :=
             PomodoroTimerState.completedPomodoros (App.pomodoroTimerAtom w) |}
    ∧ (0 ≤ elapsed < 60000 →
       TaskSession.durationMinutes closed = 0
       ∧ Storage.tasks (App.localStorage w') = Storage.tasks (App.localStorage w))
    ∧ (0 < remaining → TaskSession.completed closed = false).
Proof.
  intros Hcur Hfind elapsed remaining.
  pose proof (stopTask_found now w achievement pending _ _ _ Hcur Hfind) as Hstop.
  cbv zeta in Hstop.
  rewrite (updateSession_found _ _ _ _ _ _ Hfind) in Hstop.
  cbv zeta in Hstop. cbn [snd] in Hstop.
  set (dto := TaskViewModel.closingDto _ _ _ _ _) in Hstop.
  set (closed := LocalTaskService.mergeSession old dto) in Hstop.
  set (st' := match LocalTaskService.truthy _ with Some _ => _ | None => _ end)
    in Hstop.
  assert (Hsessions : Storage.sessions st'
      = <[index := closed]> (Storage.sessions (App.localStorage w))).
  { subst st'. destruct (LocalTaskService.truthy _); [|done].
    by destruct (findTask _ _) as [[??]|]. }
  assert (Htasks : 0 ≤ elapsed < 60000 →
      Storage.tasks st' = Storage.tasks (App.localStorage w)).
  { intros Hsmall. subst st' dto. cbn [UpdateSessionDto.durationMinutes
      TaskViewModel.closingDto].
    by rewrite elapsedMinutes_sub_minute. }
  eexists _, closed. split; [exact Hstop|].
  cbn [App.localStorage App.currentSessionAtom App.pomodoroTimerAtom].
  rewrite Hsessions. split_and!.
  - reflexivity.
  - apply list_lookup_insert_eq. by eapply lookup_lt_Some, findSession_lookup.
  - unfold findSession in Hfind. apply list_find_Some in Hfind. cbn. tauto.
  - reflexivity.
  - cbn. apply elapsedMinutes_floor.
  - cbn. unfold remaining. destruct (Z.leb_spec
      (PomodoroTimerState.timeRemaining (App.pomodoroTimerAtom w)) 0).
    + by rewrite bool_decide_eq_true_2.
    + rewrite bool_decide_eq_false_2; [done|lia].
  - reflexivity.
  - reflexivity.
  - reflexivity.
  - reflexivity.
  - intros Hsmall. split; [|by apply Htasks].
    cbn. by apply elapsedMinutes_sub_minute.
  - intros Hpos. cbn. apply Z.leb_gt. exact Hpos.
Qed.

Lemma stopTask_closes_session_witness :
  App.currentSessionAtom Sample.started = Some Sample.sessionA
  ∧ findSession (TaskSession.id Sample.sessionA)
      (App.localStorage Sample.started) = Some (0%nat, Sample.sessionA)
  ∧ ∃ w' closed,
      TaskViewModel.stopTask 303000 (Some "Wrote spec") (Some "Review")
        Sample.started = (Ok tt, w')
      ∧ Storage.sessions (App.localStorage w') !! 0%nat = Some closed
      ∧ TaskSession.durationMinutes closed = 5
      ∧ TaskSession.completed closed = false.
Proof.
  assert (Hcur : App.currentSessionAtom Sample.started = Some Sample.sessionA)
    by reflexivity.
  assert (Hfind : findSession (TaskSession.id Sample.sessionA)
      (App.localStorage Sample.started) = Some (0%nat, Sample.sessionA))
    by reflexivity.
  split; [exact Hcur|]. split; [exact Hfind|].
  destruct (stopTask_closes_session 303000 (Some "Wrote spec") (Some "Review")
              Sample.started Sample.sessionA 0 Sample.sessionA Hcur Hfind)
    as (w' & closed & Hstop & _ & Hclosed & _ & _ & Hduration & _ & _ & _ & _
        & _ & _ & Hcompleted).
  exists w', closed. split_and!; [exact Hstop|exact Hclosed|exact Hduration|].
  apply Hcompleted. vm_compute. reflexivity.
Defined.

(** C3, as stated, fails in its last part: a stop after fewer than 60
    elapsed seconds does not always yield [completed = false] and
    [durationMinutes = 0].  [completed] is read off the countdown, not off
    the clock: with [workDuration] set to 0 the countdown starts at 0, and
    a task started at 3 s and stopped at 13 s, ten seconds later, has its
    session closed with [durationMinutes = 0] and [completed = true].  And
    the elapsed time is the difference of two readings of the wall clock,
    rounded down: a task started at 70 s and stopped when the clock reads
    60 s has its session closed with [durationMinutes = -1], which is taken
    off [actualMinutes]. *)
Lemma early_stop_can_be_completed :
  let w1 := Engine.run
    (Sample.twoTasks ++
     [Engine.UpdatePomodoroSettings Sample.noWork;
      Engine.StartTask 3000 "w1e4r6t8y" Sample.idA;
      Engine.StopTask 13000 None None])
    (App.init Storage.empty) in
  let w2 := Engine.run
    [Engine.StartTask 70000 "w1e4r6t8y" Sample.idA;
     Engine.StopTask 60000 None None]
    Sample.ready in
  (∃ closed,
     Storage.sessions (App.localStorage w1) !! 0%nat = Some closed
     ∧ TaskSession.startedAt closed = 3000
     ∧ TaskSession.endedAt closed = Some 13000
     ∧ TaskSession.durationMinutes closed = 0
     ∧ TaskSession.completed closed = true)
  ∧ (∃ closed task,
       Storage.sessions (App.localStorage w2) !! 0%nat = Some closed
       ∧ Storage.tasks (App.localStorage w2) !! 0%nat = Some task
       ∧ TaskSession.startedAt closed = 70000
       ∧ TaskSession.endedAt closed = Some 60000
       ∧ TaskSession.durationMinutes closed = -1
       ∧ Task.actualMinutes task = -1).
Proof.
  intros w1 w2. split.
  - destruct (Storage.sessions (App.localStorage w1) !! 0%nat) as [closed|]
      eqn:Hclosed; [|vm_compute in Hclosed; discriminate].
    exists closed. split; [reflexivity|].
    vm_compute in Hclosed. injection Hclosed as <-. done.
  - destruct (Storage.sessions (App.localStorage w2) !! 0%nat) as [closed|]
      eqn:Hclosed; [|vm_compute in Hclosed; discriminate].
    destruct (Storage.tasks (App.localStorage w2) !! 0%nat) as [task|]
      eqn:Htask; [|vm_compute in Htask; discriminate].
    exists closed, task. split; [reflexivity|]. split; [reflexivity|].
    vm_compute in Hclosed, Htask.
    injection Hclosed as <-. injection Htask as <-. done.
Qed.

(** ** C4: startTask *)

(** C4.  For an id of a stored task, [startTask(taskId)] returns normally,
    leaves that task with status [in_progress], appends to the stored
    sessions a session of that task of type [pomodoro] with
    [startedAt = now], [endedAt] unset, [durationMinutes = 0] and
    [completed = false], makes it the current session, and sets the timer
    to [isRunning = true], [isPaused = false],
    [totalTime = timeRemaining = workDuration * 60]; with
    [workDuration = 25] both are 1500. *)
Theorem startTask_existing now rnd taskId w index old :
  findTask taskId (App.localStorage w) = Some (index, old) →
  ∃ w' task' session,
    TaskViewModel.startTask now rnd taskId w = (Ok tt, w')
    ∧ findTask taskId (App.localStorage w') = Some (index, task')
    ∧ Task.status task' = in_progress
    ∧ Storage.sessions (App.localStorage w')
        = Storage.sessions (App.localStorage w) ++ [session]
    ∧ App.currentSessionAtom w' = Some session
    ∧ TaskSession.taskId session = taskId
    ∧ TaskSession.type session = pomodoro
    ∧ TaskSession.startedAt session = now
    ∧ TaskSession.endedAt session = None
    ∧ TaskSession.durationMinutes session = 0
    ∧ TaskSession.completed session = false
    ∧ App.pomodoroTimerAtom w' =
        {| PomodoroTimerState.isRunning := true;
           PomodoroTimerState.isPaused := false;
           PomodoroTimerState.timeRemaining :=
             PomodoroSettings.workDuration (App.pomodoroSettingsAtom w) * 60;
           PomodoroTimerState.totalTime :=
             PomodoroSettings.workDuration (App.pomodoroSettingsAtom w) * 60;
           PomodoroTimerState.sessionType := pomodoro;
           PomodoroTimerState.completedPomodoros :=
             PomodoroTimerState.completedPomodoros (App.pomodoroTimerAtom w) |}
    ∧ (PomodoroSettings.workDuration (App.pomodoroSettingsAtom w) = 25 →
       PomodoroTimerState.timeRemaining (App.pomodoroTimerAtom w') = 1500
       ∧ PomodoroTimerState.totalTime (App.pomodoroTimerAtom w') = 1500).
Proof.
  intros H.
  eexists _,
    (LocalTaskService.mergeTask now old (UpdateTaskDto.of_status in_progress)),
    (LocalTaskService.newSession now rnd (CreateSessionDto.mk taskId None)).
  split; [by apply startTask_found|].
  cbn [App.localStorage App.currentSessionAtom App.pomodoroTimerAtom
       Storage.sessions].
  split_and!; [|reflexivity..|].
  - by apply (findTask_insert_same _ _ _ _ _ H), (findTask_id _ _ _ _ H).
  - cbn. by intros ->.
Qed.

Lemma startTask_existing_witness :
  ∃ task w',
    findTask Sample.idA (App.localStorage Sample.ready) = Some (0%nat, task)
    ∧ TaskViewModel.startTask 3000 "w1e4r6t8y" Sample.idA Sample.ready
      = (Ok tt, w')
    ∧ PomodoroTimerState.timeRemaining (App.pomodoroTimerAtom w') = 1500.
Proof.
  destruct (findTask Sample.idA (App.localStorage Sample.ready))
    as [[[|i] task]|] eqn:Hfind; try (vm_compute in Hfind; discriminate).
  destruct (startTask_existing 3000 "w1e4r6t8y" Sample.idA Sample.ready 0 task
              Hfind)
    as (w' & _ & _ & Hstart & _ & _ & _ & _ & _ & _ & _ & _ & _ & _ & _ & H25).
  exists task, w'. split_and!; [reflexivity|exact Hstart|].
  apply H25. reflexivity.
Defined.

(** ** C5: natural completion *)

(** C5.  While the timer is running and not paused, the tick that brings
    [timeRemaining] from 1 to 0 sets [isRunning = false] and
    [timeRemaining = 0] and adds exactly 1 to [completedPomodoros]; it
    writes nothing to the store and leaves the current session as it is,
    so the session stays open and its task stays [in_progress] until
    stopTask is called.  From [timeRemaining = 1500], 1500 ticks produce
    this state and no fewer do: after n < 1500 ticks the timer is still
    running with [timeRemaining = 1500 - n]. *)
Theorem natural_completion w :
  PomodoroTimerState.isRunning (App.pomodoroTimerAtom w) = true →
  PomodoroTimerState.isPaused (App.pomodoroTimerAtom w) = false →
  let completes (w' : App.t) :=
    PomodoroTimerState.isRunning (App.pomodoroTimerAtom w') = false
    ∧ PomodoroTimerState.timeRemaining (App.pomodoroTimerAtom w') = 0
    ∧ PomodoroTimerState.completedPomodoros (App.pomodoroTimerAtom w')
      = PomodoroTimerState.completedPomodoros (App.pomodoroTimerAtom w) + 1
    ∧ App.localStorage w' = App.localStorage w
    ∧ App.currentSessionAtom w' = App.currentSessionAtom w in
  (PomodoroTimerState.timeRemaining (App.pomodoroTimerAtom w) = 1 →
   completes (Engine.run_op Engine.Tick w))
  ∧ (PomodoroTimerState.timeRemaining (App.pomodoroTimerAtom w) = 1500 →
     completes (Engine.run (replicate 1500 Engine.Tick) w)
     ∧ ∀ n : nat, (n < 1500)%nat →
         let w' := Engine.run (replicate n Engine.Tick) w in
         PomodoroTimerState.isRunning (App.pomodoroTimerAtom w') = true
         ∧ PomodoroTimerState.timeRemaining (App.pomodoroTimerAtom w')
           = 1500 - Z.of_nat n
         ∧ PomodoroTimerState.completedPomodoros (App.pomodoroTimerAtom w')
           = PomodoroTimerState.completedPomodoros (App.pomodoroTimerAtom w)).
Proof.
  intros Hrun Hpause completes. split.
  - intros H. unfold completes. by rewrite tick_last by (done || lia).
  - intros H. split.
    + unfold completes. by rewrite (ticks_complete 1499).
    + intros n Hn. cbv zeta. rewrite ticks_decrement; [cbn|done..|].
      * rewrite H. done.
      * rewrite H. apply (inj_lt n 1500) in Hn. exact Hn.
Qed.

Lemma natural_completion_witness :
  let w' := Engine.run (replicate 1500 Engine.Tick) Sample.started in
  PomodoroTimerState.isRunning (App.pomodoroTimerAtom w') = false
  ∧ PomodoroTimerState.timeRemaining (App.pomodoroTimerAtom w') = 0
  ∧ PomodoroTimerState.completedPomodoros (App.pomodoroTimerAtom w') = 1
  ∧ openSessions (App.localStorage w') = [Sample.sessionA].
Proof.
  cbv zeta.
  destruct (natural_completion Sample.started eq_refl eq_refl) as [_ H].
  destruct (H eq_refl) as [(Hrun & Hzero & Hcount & Hstore & _) _].
  split_and!; [exact Hrun|exact Hzero|by rewrite Hcount|].
  rewrite Hstore. reflexivity.
Defined.

(** ** C6: completedAt *)

Lemma mergeTask_completedAt_kept now old dto c :
  Task.completedAt old = Some c →
  Task.completedAt (LocalTaskService.mergeTask now old dto) = Some c.
Proof.
  intros H. cbn. rewrite H.
  by rewrite (bool_decide_eq_false_2 (Some c = None)), andb_false_r.
Qed.

Lemma mergeTask_completedAt_stamped now old dto :
  UpdateTaskDto.status dto = Some done →
  Task.completedAt old = None →
  Task.completedAt (LocalTaskService.mergeTask now old dto) = Some now.
Proof. intros Hd Hn. cbn. by rewrite Hd, Hn. Qed.

Lemma mutation_keeps_completedAt m st id c :
  m ≠ Mutation.deleteTask id →
  stamped id c st → stamped id c (Mutation.apply st m).
Proof.
  intros Hm (i & t & Hfind & Hc).
  destruct m as [now rnd dto|now id' dto|id'|now rnd dto|now id' dto];
    cbn [Mutation.apply].
  - exists i, t. split; [|done].
    rewrite createTask_eq. by apply list_find_app_l.
  - destruct (findTask id' st) as [[j old]|] eqn:Hold.
    + rewrite (updateTask_found _ _ _ _ _ _ Hold). cbn [snd].
      eexists _, _. split; [by eapply findTask_after_update|].
      destruct (decide (i = j)) as [->|]; [|done].
      apply mergeTask_completedAt_kept.
      by rewrite <- (findTask_same_index _ _ _ _ _ _ Hfind Hold).
    + rewrite (updateTask_missing _ _ _ _ Hold). by exists i, t.
  - rewrite deleteTask_eq. cbn [snd]. unfold findTask, stamped. cbn.
    assert (id' ≠ id) as Hne by congruence.
    unfold findTask in Hfind.
    destruct (list_find_filter_keeps (λ task, Task.id task = id)
                (λ task, Task.id task ≠ id') _ _ _
                ltac:(cbn; congruence) Hfind) as [i' Hi'].
    by exists i', t.
  - by exists i, t.
  - destruct (findSession id' st) as [[j old]|] eqn:Hold.
    + rewrite (updateSession_found _ _ _ _ _ _ Hold). cbn [snd].
      destruct (LocalTaskService.truthy _) as [d|]; [|by exists i, t].
      destruct (findTask (TaskSession.taskId old) st) as [[k task]|] eqn:Htask;
        [|by exists i, t].
      eexists _, _. split.
      * apply (findTask_after_update st now id _ _ _ _ _ _ Htask Hfind).
      * destruct (decide (i = k)) as [->|]; [|done].
        apply mergeTask_completedAt_kept.
        by rewrite <- (findTask_same_index _ _ _ _ _ _ Hfind Htask).
    + rewrite (updateSession_missing _ _ _ _ Hold). by exists i, t.
Qed.

Lemma keepsTask_mutations id op w :
  keepsTask id op w = true →
  Forall (λ m, m ≠ Mutation.deleteTask id) (Mutation.of_op op w).
Proof.
  destruct op; cbn; intros H; repeat case_match;
    repeat constructor; try congruence.
  all: apply bool_decide_eq_true in H; congruence.
Qed.

Lemma run_op_keeps_completedAt op w id c :
  keepsTask id op w = true →
  stamped id c (App.localStorage w) →
  stamped id c (App.localStorage (Engine.run_op op w)).
Proof.
  intros Hkeep%keepsTask_mutations. rewrite run_op_storage.
  generalize dependent (App.localStorage w).
  induction Hkeep as [|m ms Hm _ IH]; intros st Hst; [done|].
  cbn. by apply IH, mutation_keeps_completedAt.
Qed.

(** C6.  The update of a task whose partial sets [status = done] while the
    stored [completedAt] is unset stamps [completedAt] with [now]; from
    then on, for as long as the task is stored, every operation of the
    engine (further updates and repeated [status = done] updates among
    them) leaves [completedAt] at that value: it is neither cleared nor
    overwritten.  The stamping update is [updateTask] of the service or of
    the view model, or [completeTask]. *)
Theorem completedAt_set_once now id dto op w index old w' :
  findTask id (App.localStorage w) = Some (index, old) →
  Task.completedAt old = None →
  UpdateTaskDto.status dto = Some done →
  op = Engine.SvcUpdateTask now id dto ∨ op = Engine.UpdateTask now id dto
  ∨ (op = Engine.CompleteTask now id ∧ dto = UpdateTaskDto.of_status done) →
  Engine.reachable (keepsTask id) (Engine.run_op op w) w' →
  stamped id now (App.localStorage w').
Proof.
  intros Hfind Hunset Hdone Hop Hreach.
  induction Hreach as [|op' w' _ IH Hkeep].
  - rewrite run_op_storage.
    assert (Mutation.of_op op w = [Mutation.updateTask now id dto]) as ->.
    { destruct Hop as [->|[->|[-> ->]]]; reflexivity. }
    cbn. rewrite (updateTask_found _ _ _ _ _ _ Hfind). cbn [snd].
    eexists _, _. split.
    + apply (findTask_insert_same _ _ _ _ _ Hfind).
      apply (findTask_id _ _ _ _ Hfind).
    + by apply mergeTask_completedAt_stamped.
  - by apply run_op_keeps_completedAt.
Qed.

Lemma completedAt_set_once_witness :
  let w' := Engine.run
    [Engine.CompleteTask 6000 Sample.idA;
     Engine.UpdateTask 7000 Sample.idA (UpdateTaskDto.of_status todo);
     Engine.SvcUpdateTask 8000 Sample.idA (UpdateTaskDto.of_status done);
     Engine.DeleteTask Sample.idB]
    (Engine.run_op (Engine.CompleteTask 5000 Sample.idA) Sample.ready) in
  stamped Sample.idA 5000 (App.localStorage w').
Proof.
  cbv zeta.
  destruct (findTask Sample.idA (App.localStorage Sample.ready))
    as [[index old]|] eqn:Hfind; [|vm_compute in Hfind; discriminate].
  apply (completedAt_set_once 5000 Sample.idA (UpdateTaskDto.of_status done)
           (Engine.CompleteTask 5000 Sample.idA) Sample.ready index old).
  - exact Hfind.
  - vm_compute in Hfind. by injection Hfind as _ <-.
  - reflexivity.
  - right; right. split; reflexivity.
  - apply reachable_run; [constructor|]. vm_compute. reflexivity.
Defined.

(** ** C7: unknown task ids *)

(** C7, as the code has it.  Called with an id that matches no stored
    task, [updateTask] fails with the error "Task not found", whereas
    [deleteTask] returns normally and [getTaskById] returns [null]; each
    of the three leaves the store as it was. *)
Theorem unknown_task_id_outcomes now st id dto :
  findTask id st = None →
  LocalTaskService.updateTask now id dto st = (Err TaskNotFound, st)
  ∧ LocalTaskService.deleteTask id st = (Ok tt, st)
  ∧ LocalTaskService.getTaskById id st = (Ok None, st).
Proof.
  intros H. split_and!.
  - by apply updateTask_missing.
  - rewrite deleteTask_eq, filter_unknown_id by done. by rewrite store_eta.
  - by rewrite getTaskById_eq, H.
Qed.

Lemma unknown_task_id_outcomes_witness :
  let st := App.localStorage Sample.ready in
  findTask "ghost" st = None
  ∧ LocalTaskService.updateTask 5000 "ghost" UpdateTaskDto.empty st
      = (Err TaskNotFound, st)
  ∧ LocalTaskService.deleteTask "ghost" st = (Ok tt, st)
  ∧ LocalTaskService.getTaskById "ghost" st = (Ok None, st).
Proof.
  cbv zeta. split; [reflexivity|].
  apply (unknown_task_id_outcomes 5000 (App.localStorage Sample.ready) "ghost"
           UpdateTaskDto.empty).
  reflexivity.
Defined.

(** C7, as stated, fails for two of the three calls: on a store with two
    tasks, neither of them "ghost", [deleteTask("ghost")] and
    [getTaskById("ghost")] do not fail. *)
Lemma delete_and_get_unknown_id_do_not_fail :
  let st := App.localStorage Sample.ready in
  findTask "ghost" st = None
  ∧ ¬ isErr (fst (LocalTaskService.deleteTask "ghost" st))
  ∧ ¬ isErr (fst (LocalTaskService.getTaskById "ghost" st)).
Proof.
  cbv zeta. split; [reflexivity|].
  split; intros [e He]; vm_compute in He; discriminate.
Qed.

(** ** C8: the empty partial *)

(** C8.  For an id of a stored task, [updateTask(id, {})] returns and
    stores the task with [updatedAt = now] and every other field as it
    was; the task keeps its slot, the array keeps its length, every other
    slot and the sessions are unchanged. *)
Theorem updateTask_empty_partial now st id index old :
  findTask id st = Some (index, old) →
  let updated := {|
    Task.id := Task.id old;
    Task.noteId := Task.noteId old;
    Task.title := Task.title old;
    Task.description := Task.description old;
    Task.status := Task.status old;
    Task.priority := Task.priority old;
    Task.dueDate := Task.dueDate old;
    Task.estimatedMinutes := Task.estimatedMinutes old;
    Task.actualMinutes := Task.actualMinutes old;
    Task.tags := Task.tags old;
    Task.createdAt := Task.createdAt old;
    Task.updatedAt := now;
    Task.completedAt := Task.completedAt old |} in
  let tasks' := <[index := updated]> (Storage.tasks st) in
  LocalTaskService.updateTask now id UpdateTaskDto.empty st
    = (Ok updated, Storage.mk tasks' (Storage.sessions st))
  ∧ tasks' !! index = Some updated
  ∧ length tasks' = length (Storage.tasks st)
  ∧ ∀ j, j ≠ index → tasks' !! j = Storage.tasks st !! j.
Proof.
  intros H updated tasks'. split_and!.
  - by rewrite (updateTask_found _ _ _ _ _ _ H).
  - apply list_lookup_insert_eq. by eapply lookup_lt_Some, findTask_lookup.
  - apply length_insert.
  - intros j Hj. by apply list_lookup_insert_ne.
Qed.

Lemma updateTask_empty_partial_witness :
  let st := App.localStorage Sample.ready in
  findTask Sample.idA st = Some (0%nat, Sample.taskA)
  ∧ ∃ updated tasks',
      LocalTaskService.updateTask 5000 Sample.idA UpdateTaskDto.empty st
      = (Ok updated, Storage.mk tasks' (Storage.sessions st))
      ∧ Task.updatedAt updated = 5000
      ∧ Task.createdAt updated = 1000
      ∧ Task.title updated = "Write spec"
      ∧ tasks' !! 1%nat = Storage.tasks st !! 1%nat.
Proof.
  cbv zeta. split; [reflexivity|].
  destruct (updateTask_empty_partial 5000 (App.localStorage Sample.ready)
              Sample.idA 0 Sample.taskA eq_refl)
    as (Hupdate & _ & _ & Hothers).
  eexists _, _. split; [exact Hupdate|].
  split_and!; [reflexivity..|]. by apply Hothers.
Defined.

(** ** C9: the countdown never goes below zero *)

(** C9.  Provided the configured [workDuration] is non-negative, at the
    start and after every change of the settings, [timeRemaining] is
    non-negative in the initial state and after every operation of the
    engine (startTask, togglePause, every tick and stopTask among them);
    the tick that would take [timeRemaining] to 0 or below leaves it at
    exactly 0. *)
Theorem timeRemaining_nonneg w0 w :
  0 ≤ PomodoroTimerState.timeRemaining (App.pomodoroTimerAtom w0) →
  0 ≤ PomodoroSettings.workDuration (App.pomodoroSettingsAtom w0) →
  Engine.reachable workDurationNonNegative w0 w →
  0 ≤ PomodoroTimerState.timeRemaining (App.pomodoroTimerAtom w)
  ∧ (PomodoroTimerState.isRunning (App.pomodoroTimerAtom w) = true →
     PomodoroTimerState.isPaused (App.pomodoroTimerAtom w) = false →
     PomodoroTimerState.timeRemaining (App.pomodoroTimerAtom w) - 1 ≤ 0 →
     PomodoroTimerState.timeRemaining
       (App.pomodoroTimerAtom (Engine.run_op Engine.Tick w)) = 0).
Proof.
  intros Ht0 Hw0 Hreach. split.
  - cut (0 ≤ PomodoroTimerState.timeRemaining (App.pomodoroTimerAtom w)
         ∧ 0 ≤ PomodoroSettings.workDuration (App.pomodoroSettingsAtom w));
      [tauto|].
    induction Hreach as [|op w Hreach [IHt IHw] Hallowed]; [done|].
    destruct (run_op_shape w op) as (_ & Hsettings & Hremaining). split.
    + destruct Hremaining as [->|[->| ->]];
        [done|lia|apply countdown_nonneg].
    + rewrite Hsettings. destruct op; try done.
      cbn in Hallowed. apply bool_decide_eq_true in Hallowed. cbn.
      destruct (PartialPomodoroSettings.workDuration settings); cbn in *; lia.
  - intros Hrun Hpause Hlast. rewrite (tick_running w Hrun Hpause). cbn.
    by apply countdown_clamps.
Qed.

Lemma timeRemaining_nonneg_witness :
  let w0 := App.init Storage.empty in
  let w := Engine.run
    (Sample.twoTasks ++
     [Engine.UpdatePomodoroSettings Sample.noWork;
      Engine.StartTask 3000 "w1e4r6t8y" Sample.idA;
      Engine.Tick;
      Engine.TogglePause;
      Engine.Tick;
      Engine.StopTask 13000 None None]) w0 in
  Engine.reachable workDurationNonNegative w0 w
  ∧ 0 ≤ PomodoroTimerState.timeRemaining (App.pomodoroTimerAtom w).
Proof.
  intros w0 w.
  assert (Hreach : Engine.reachable workDurationNonNegative w0 w).
  { apply reachable_run; [constructor|]. vm_compute. reflexivity. }
  split; [exact Hreach|].
  apply (timeRemaining_nonneg w0 w); [vm_compute; discriminate..|exact Hreach].
Defined.

(** ** C10: sessions of a deleted task *)

Lemma deleteTask_removes st id :
  findTask id (Mutation.apply st (Mutation.deleteTask id)) = None.
Proof.
  cbn. apply (list_find_filter_out (λ task, Task.id task = id)).
Qed.

(** C10.  Updating a stored session whose [taskId] matches no stored task
    returns normally: it returns the merged session and stores it in the
    slot of the old one, raises no error and leaves every task record as
    it was, whatever [durationMinutes] the partial carries.  The merged
    session takes every key the partial holds ([endedAt],
    [durationMinutes], [completed], [achievement], [pending], [notes]) and
    keeps the rest, so the closing partial of stopTask leaves it with
    [endedAt] set, the given minutes and the given [completed].  This is
    the case of every session of a task once [deleteTask] has removed the
    task: its sessions stay in the store and can still be closed. *)
Theorem updateSession_orphaned now st id dto index old :
  findSession id st = Some (index, old) →
  ∃ updated,
    TaskSession.id updated = TaskSession.id old
    ∧ TaskSession.taskId updated = TaskSession.taskId old
    ∧ TaskSession.startedAt updated = TaskSession.startedAt old
    ∧ TaskSession.type updated = TaskSession.type old
    ∧ TaskSession.endedAt updated
      = default (TaskSession.endedAt old) (UpdateSessionDto.endedAt dto)
    ∧ TaskSession.durationMinutes updated
      = default (TaskSession.durationMinutes old)
                (UpdateSessionDto.durationMinutes dto)
    ∧ TaskSession.completed updated
      = default (TaskSession.completed old) (UpdateSessionDto.completed dto)
    ∧ TaskSession.achievement updated
      = default (TaskSession.achievement old)
                (UpdateSessionDto.achievement dto)
    ∧ TaskSession.pending updated
      = default (TaskSession.pending old) (UpdateSessionDto.pending dto)
    ∧ TaskSession.notes updated
      = default (TaskSession.notes old) (UpdateSessionDto.notes dto)
    ∧ <[index := updated]> (Storage.sessions st) !! index = Some updated
    ∧ (findTask (TaskSession.taskId old) st = None →
       LocalTaskService.updateSession now id dto st
       = (Ok updated,
          Storage.mk (Storage.tasks st)
                     (<[index := updated]> (Storage.sessions st))))
    ∧ (let deleted :=
         snd (LocalTaskService.deleteTask (TaskSession.taskId old) st) in
       LocalTaskService.updateSession now id dto deleted
       = (Ok updated,
          Storage.mk (Storage.tasks deleted)
                     (<[index := updated]> (Storage.sessions st)))).
Proof.
  intros Hs. exists (LocalTaskService.mergeSession old dto).
  split_and!; try reflexivity.
  - apply list_lookup_insert_eq. eapply lookup_lt_Some.
    by eapply findSession_lookup.
  - intros Ht. rewrite (updateSession_found _ _ _ _ _ _ Hs), Ht.
    by destruct (LocalTaskService.truthy _).
  - intros deleted.
    assert (Hs' : findSession id deleted = Some (index, old)) by exact Hs.
    pose proof (deleteTask_removes st (TaskSession.taskId old)) as Ht.
    change (Mutation.apply st _) with deleted in Ht.
    rewrite (updateSession_found _ _ _ _ _ _ Hs'), Ht.
    by destruct (LocalTaskService.truthy _).
Qed.

Lemma updateSession_orphaned_witness :
  let st := App.localStorage Sample.started in
  let dto := TaskViewModel.closingDto 303000 5 false None None in
  ∃ closed,
    findSession (TaskSession.id Sample.sessionA) st
      = Some (0%nat, Sample.sessionA)
    ∧ findTask Sample.idA Sample.orphaned = None
    ∧ LocalTaskService.updateSession 303000 (TaskSession.id Sample.sessionA)
        dto Sample.orphaned
      = (Ok closed, Storage.mk (Storage.tasks Sample.orphaned) [closed])
    ∧ TaskSession.id closed = TaskSession.id Sample.sessionA
    ∧ TaskSession.endedAt closed = Some 303000
    ∧ TaskSession.durationMinutes closed = 5
    ∧ TaskSession.completed closed = false
    ∧ length (Storage.tasks Sample.orphaned) = 1%nat.
Proof.
  intros st dto.
  destruct (updateSession_orphaned 303000 st (TaskSession.id Sample.sessionA)
              dto 0 Sample.sessionA eq_refl)
    as (closed & Hid & _ & _ & _ & Hended & Hminutes & Hcompleted & _ & _ & _
        & _ & _ & Hdeleted).
  exists closed.
  split_and!; [reflexivity|reflexivity|exact Hdeleted|exact Hid|exact Hended
              |exact Hminutes|exact Hcompleted|reflexivity].
Defined.

(** * The rest of the service, the view model and the components *)

(** ** getTaskStats *)

Lemma status_counts (tasks : list Task.t) :
  length tasks
  = (length (filter (λ t, Task.status t = todo) tasks)
     + length (filter (λ t, Task.status t = in_progress) tasks)
     + length (filter (λ t, Task.status t = done) tasks)
     + length (filter (λ t, Task.status t = cancelled) tasks))%nat.
Proof.
  induction tasks as [|t l IH]; [done|].
  rewrite !filter_cons. cbn [length]. rewrite IH.
  destruct (Task.status t); repeat case_decide; try done; cbn [length]; lia.
Qed.

(** X1.  [getTaskStats] never fails and leaves the store as it is;
    [total] is the number of stored tasks and equals the sum of the three
    counts it reports plus the number of [cancelled] tasks, which it does
    not report; the counts are non-negative. *)
Theorem getTaskStats_partition st :
  ∃ stats,
    LocalTaskService.getTaskStats st = (Ok stats, st)
    ∧ LocalTaskService.TaskStats.total stats
      = Z.of_nat (length (Storage.tasks st))
    ∧ LocalTaskService.TaskStats.total stats
      = LocalTaskService.TaskStats.todo stats
        + LocalTaskService.TaskStats.inProgress stats
        + LocalTaskService.TaskStats.done stats
        + Z.of_nat (length (filter (λ t, Task.status t = cancelled)
                                   (Storage.tasks st)))
    ∧ 0 ≤ LocalTaskService.TaskStats.todo stats
    ∧ 0 ≤ LocalTaskService.TaskStats.inProgress stats
    ∧ 0 ≤ LocalTaskService.TaskStats.done stats.
Proof.
  eexists. split; [reflexivity|]. cbn.
  split_and!; [done| |lia..].
  rewrite (status_counts (Storage.tasks st)) at 1. lia.
Qed.

(** ** createTasksFromNote *)

Lemma createTasksFromNote_loop_eq clock random noteId titles i created st :
  LocalTaskService.createTasksFromNote_loop clock random noteId i titles
    created st
  = (Ok (created ++ tasksFromNote clock random noteId i titles),
     Storage.mk (Storage.tasks st ++ tasksFromNote clock random noteId i titles)
                (Storage.sessions st)).
Proof.
  revert i created st. induction titles as [|title rest IH]; intros i created st.
  - cbn. rewrite !app_nil_r. by destruct st.
  - cbn [LocalTaskService.createTasksFromNote_loop tasksFromNote].
    unfold mbind, M_bind. rewrite createTask_eq.
    rewrite IH. cbn [Storage.tasks Storage.sessions].
    by rewrite <- !app_assoc.
Qed.

Lemma tasksFromNote_length clock random noteId i titles :
  length (tasksFromNote clock random noteId i titles) = length titles.
Proof.
  revert i. induction titles as [|t l IH]; intros i; [done|].
  cbn. by rewrite IH.
Qed.

Lemma tasksFromNote_lookup clock random noteId i titles k title :
  titles !! k = Some title →
  tasksFromNote clock random noteId i titles !! k
  = Some (LocalTaskService.newTask (clock (i + k)%nat) (random (i + k)%nat)
            (CreateTaskDto.mk (Some noteId) (JsString.trim title) None
               (Some medium) None None None)).
Proof.
  revert i k. induction titles as [|t l IH]; intros i k; [done|].
  destruct k as [|k]; cbn [tasksFromNote].
  - intros [= ->]. by rewrite Nat.add_0_r.
  - intros H. change ((?x :: ?l) !! S k) with (l !! k).
    rewrite (IH (S i) k H). by replace (S i + k)%nat with (i + S k)%nat by lia.
Qed.

(** X2.  When the store accepts its writes,
    [createTasksFromNote(noteId, titles)] appends to the stored tasks one
    task per title, in the order of the titles, and returns them; the
    sessions are left as they are.  The task of the [k]-th title carries
    the trimmed title, the note's id, status [todo], priority [medium], no
    minutes and no completion date, and the id made from the [k]-th
    readings of the clock and the random source. *)
Theorem createTasksFromNote_creates_one_task_per_title
    clock random noteId titles st :
  ∃ created,
    LocalTaskService.createTasksFromNote clock random noteId titles st
    = (Ok created,
       Storage.mk (Storage.tasks st ++ created) (Storage.sessions st))
    ∧ length created = length titles
    ∧ ∀ k title, titles !! k = Some title →
        ∃ task,
          created !! k = Some task
          ∧ Task.title task = JsString.trim title
          ∧ Task.noteId task = Some noteId
          ∧ Task.status task = todo
          ∧ Task.priority task = medium
          ∧ Task.actualMinutes task = 0
          ∧ Task.completedAt task = None
          ∧ Task.id task = LocalTaskService.newTaskId (clock k) (random k).
Proof.
  exists (tasksFromNote clock random noteId 0 titles). split_and!.
  - unfold LocalTaskService.createTasksFromNote.
    by rewrite createTasksFromNote_loop_eq.
  - apply tasksFromNote_length.
  - intros k title H. eexists. split; [by apply tasksFromNote_lookup|].
    done.
Qed.

Lemma createTasksFromNote_creates_one_task_per_title_witness :
  ∃ created task,
    LocalTaskService.createTasksFromNote Scenario.clock Scenario.random "n1"
      Scenario.titles Storage.empty
    = (Ok created, Storage.mk created [])
    ∧ Scenario.titles !! 1%nat = Some "  Call Bob "
    ∧ created !! 1%nat = Some task
    ∧ Task.title task = "Call Bob"
    ∧ Task.noteId task = Some "n1".
Proof.
  destruct (createTasksFromNote_creates_one_task_per_title
              Scenario.clock Scenario.random "n1" Scenario.titles
              Storage.empty) as (created & Hrun & _ & Hk).
  destruct (Hk 1%nat "  Call Bob " eq_refl)
    as (task & Hlook & Htitle & Hnote & _).
  exists created, task.
  split_and!; [exact Hrun|reflexivity|exact Hlook| |exact Hnote].
  rewrite Htitle. reflexivity.
Defined.


Lemma tasksFromNote_noteId clock random noteId i titles :
  Forall (λ task, Task.noteId task = Some noteId)
         (tasksFromNote clock random noteId i titles).
Proof.
  revert i. induction titles as [|t l IH]; intros i; constructor; [done|].
  apply IH.
Qed.

Lemma filter_all {A} (P : A → Prop) `{!∀ x, Decision (P x)} (l : list A) :
  Forall P l → filter P l = l.
Proof.
  induction 1 as [|x l Hx _ IH]; [done|].
  by rewrite filter_cons_True, IH.
Qed.

Lemma filter_none {A} (P : A → Prop) `{!∀ x, Decision (P x)} (l : list A) :
  Forall (λ x, ¬ P x) l → filter P l = [].
Proof.
  induction 1 as [|x l Hx _ IH]; [done|].
  by rewrite filter_cons_False, IH.
Qed.

Lemma getTasksByNote_eq noteId st :
  LocalTaskService.getTasksByNote noteId st
  = (Ok (filter (λ task, Task.noteId task = Some noteId) (Storage.tasks st)),
     st).
Proof. reflexivity. Qed.

(** X3.  After [createTasksFromNote(noteId, titles)], [getTasksByNote]
    of that note returns what it returned before followed by the created
    tasks, and for every other note it returns what it returned before. *)
Theorem getTasksByNote_after_createTasksFromNote
    clock random noteId titles st :
  ∃ created st' before,
    LocalTaskService.createTasksFromNote clock random noteId titles st
    = (Ok created, st')
    ∧ LocalTaskService.getTasksByNote noteId st = (Ok before, st)
    ∧ LocalTaskService.getTasksByNote noteId st'
      = (Ok (before ++ created), st')
    ∧ ∀ other, other ≠ noteId →
        fst (LocalTaskService.getTasksByNote other st')
        = fst (LocalTaskService.getTasksByNote other st).
Proof.
  eexists _, _, _. split.
  { unfold LocalTaskService.createTasksFromNote.
    by rewrite createTasksFromNote_loop_eq. }
  split; [apply getTasksByNote_eq|].
  pose proof (tasksFromNote_noteId clock random noteId 0 titles) as Hnote.
  split.
  - rewrite getTasksByNote_eq. cbn [Storage.tasks].
    by rewrite filter_app, (filter_all _ _ Hnote).
  - intros other Hother. rewrite !getTasksByNote_eq. cbn [fst Storage.tasks].
    rewrite filter_app, (filter_none _ (tasksFromNote _ _ _ _ _)).
    + by rewrite app_nil_r.
    + eapply Forall_impl; [exact Hnote|]. cbn. intros task -> [= ->]. done.
Qed.

Lemma getTasksByNote_after_createTasksFromNote_witness :
  ∃ created st',
    LocalTaskService.createTasksFromNote Scenario.clock Scenario.random "n1"
      Scenario.titles (App.localStorage Sample.ready)
    = (Ok created, st')
    ∧ LocalTaskService.getTasksByNote "n1" st' = (Ok created, st')
    ∧ "n2" ≠ "n1"
    ∧ fst (LocalTaskService.getTasksByNote "n2" st') = Ok [].
Proof.
  destruct (getTasksByNote_after_createTasksFromNote
              Scenario.clock Scenario.random "n1" Scenario.titles
              (App.localStorage Sample.ready))
    as (created & st' & before & Hrun & Hbefore & Hafter & Hother).
  exists created, st'.
  assert (Hnil : before = []) by (vm_compute in Hbefore; congruence).
  subst before.
  split_and!; [exact Hrun|exact Hafter|done|].
  rewrite (Hother "n2"); [reflexivity|done].
Defined.


(** ** getTotalTimeSpent *)

Lemma foldl_durations (l : list TaskSession.t) (a : Z) :
  foldl (λ total session, total + TaskSession.durationMinutes session) a l
  = a + foldr Z.add 0 (TaskSession.durationMinutes <$> l).
Proof.
  revert a. induction l as [|s l IH]; intros a; cbn; [lia|].
  rewrite IH. lia.
Qed.

Lemma open_sessions_count_for_nothing taskId (l : list TaskSession.t) :
  (∀ s, s ∈ l → TaskSession.endedAt s = None →
        TaskSession.durationMinutes s = 0) →
  foldr Z.add 0 (TaskSession.durationMinutes <$>
                   filter (λ s, TaskSession.taskId s = taskId) l)
  = closedMinutes taskId l.
Proof.
  induction l as [|s l IH]; intros Hopen; [done|].
  rewrite closedMinutes_cons, filter_cons.
  rewrite <- IH by (intros ? ?; apply Hopen; by right).
  destruct (decide (TaskSession.taskId s = taskId)) as [Hs|Hs].
  - cbn. destruct (TaskSession.endedAt s) as [e|] eqn:He.
    + by rewrite decide_True.
    + rewrite decide_False by tauto. rewrite (Hopen s); [done|by left|done].
  - rewrite decide_False by tauto. done.
Qed.

Lemma reachable_credited w :
  Engine.reachable creditedOnce (App.init Storage.empty) w →
  credited (App.localStorage w).
Proof.
  induction 1 as [|op w _ IH Hallowed].
  - split; cbn; [constructor|intros ? []%elem_of_nil..].
  - by apply run_op_credited.
Qed.

Lemma getTotalTimeSpent_eq taskId st :
  LocalTaskService.getTotalTimeSpent taskId st
  = (Ok (foldl (λ total session, total + TaskSession.durationMinutes session)
           0 (filter (λ session, TaskSession.taskId session = taskId)
                     (Storage.sessions st))), st).
Proof. reflexivity. Qed.

(** X4.  In every state reached from empty storage by operations that
    credit each session once (fresh task ids, no caller-supplied
    [actualMinutes], every session updated once, by the update that closes
    it), [getTotalTimeSpent] of a stored task returns that task's
    [actualMinutes] and leaves the store as it is. *)
Theorem getTotalTimeSpent_is_actualMinutes w task :
  Engine.reachable creditedOnce (App.init Storage.empty) w →
  task ∈ Storage.tasks (App.localStorage w) →
  LocalTaskService.getTotalTimeSpent (Task.id task) (App.localStorage w)
  = (Ok (Task.actualMinutes task), App.localStorage w).
Proof.
  intros [Hids Hopen Hsum]%reachable_credited Htask.
  rewrite getTotalTimeSpent_eq.
  rewrite foldl_durations, open_sessions_count_for_nothing by done.
  by rewrite (Hsum task Htask).
Qed.

Lemma getTotalTimeSpent_is_actualMinutes_witness :
  Engine.reachable creditedOnce (App.init Storage.empty) Sample.stopped
  ∧ ∃ task,
      Storage.tasks (App.localStorage Sample.stopped) !! 0%nat = Some task
      ∧ Task.actualMinutes task = 5
      ∧ LocalTaskService.getTotalTimeSpent (Task.id task)
          (App.localStorage Sample.stopped)
        = (Ok 5, App.localStorage Sample.stopped).
Proof.
  assert (Hreach : Engine.reachable creditedOnce (App.init Storage.empty)
                     Sample.stopped).
  { apply (reachable_run creditedOnce
             (Sample.twoTasks ++
              [Engine.StartTask 3000 "w1e4r6t8y" Sample.idA;
               Engine.StopTask 303000 (Some "Wrote spec") (Some "Review")]));
      [constructor|]. vm_compute. reflexivity. }
  split; [exact Hreach|].
  destruct (Storage.tasks (App.localStorage Sample.stopped) !! 0%nat)
    as [task|] eqn:Htask; [|vm_compute in Htask; discriminate].
  exists task. split; [reflexivity|].
  assert (Hfive : Task.actualMinutes task = 5).
  { vm_compute in Htask. by injection Htask as <-. }
  split; [exact Hfive|].
  rewrite <- Hfive.
  apply (getTotalTimeSpent_is_actualMinutes Sample.stopped task Hreach).
  by eapply list_elem_of_lookup_2.
Defined.


(** ** Writing a task and reading it back *)

Lemma list_find_insert_none {A} (P : A → Prop) `{!∀ x, Decision (P x)}
    (l : list A) (i : nat) (x : A) :
  ¬ P x → list_find P l = None → list_find P (<[i := x]> l) = None.
Proof.
  rewrite !list_find_None. intros Hx Hl. by apply Forall_insert.
Qed.

Lemma list_find_filter_none {A} (P Q : A → Prop)
    `{!∀ x, Decision (P x)} `{!∀ x, Decision (Q x)} (l : list A) :
  list_find P l = None → list_find P (filter Q l) = None.
Proof.
  rewrite !list_find_None, !Forall_forall.
  intros Hl x [_ Hx]%list_elem_of_filter. by apply Hl.
Qed.

(** X5.  Writing a task and reading it back, the store accepting the
    write.  When the generated id is not the id of a stored task,
    [getTaskById] of the created task's id returns the created task after
    [createTask]; [getTaskById] of any other id returns what it returned
    before, [getAllTasks] returns the former tasks followed by the created
    one, and the sessions are left as they are. *)
Theorem createTask_then_getTaskById now rnd dto st :
  LocalTaskService.newTaskId now rnd ∉ Task.id <$> Storage.tasks st →
  ∃ task st',
    LocalTaskService.createTask now rnd dto st = (Ok task, st')
    ∧ Task.id task = LocalTaskService.newTaskId now rnd
    ∧ LocalTaskService.getTaskById (Task.id task) st' = (Ok (Some task), st')
    ∧ (∀ id, id ≠ Task.id task →
         fst (LocalTaskService.getTaskById id st')
         = fst (LocalTaskService.getTaskById id st))
    ∧ LocalTaskService.getAllTasks st'
      = (Ok (Storage.tasks st ++ [task]), st')
    ∧ Storage.sessions st' = Storage.sessions st.
Proof.
  intros Hfresh. eexists _, _. split; [apply createTask_eq|].
  split; [reflexivity|]. split_and!; [| |reflexivity..].
  - rewrite getTaskById_eq. unfold findTask. cbn [Storage.tasks].
    rewrite list_find_app_r.
    + cbn. by rewrite decide_True.
    + apply list_find_None, Forall_forall. intros t Ht Hid.
      apply Hfresh.
      change (Task.id t = LocalTaskService.newTaskId now rnd) in Hid.
      rewrite <- Hid. by apply list_elem_of_fmap_2.
  - intros id Hid. rewrite !getTaskById_eq. unfold findTask.
    cbn [fst Storage.tasks]. f_equal.
    destruct (list_find (λ task, Task.id task = id) (Storage.tasks st))
      as [[i t]|] eqn:Hfind.
    + by rewrite (list_find_app_l _ _ _ _ _ Hfind).
    + rewrite list_find_app_r by done. cbn.
      rewrite decide_False; [done|]. cbn in Hid. congruence.
Qed.

Lemma createTask_then_getTaskById_witness :
  ∃ task st',
    (LocalTaskService.newTaskId 4000 "z9y8x7w6v"
       ∉ Task.id <$> Storage.tasks (App.localStorage Sample.ready))
    ∧ LocalTaskService.createTask 4000 "z9y8x7w6v" (Sample.dto "Ship")
        (App.localStorage Sample.ready) = (Ok task, st')
    ∧ LocalTaskService.getTaskById (LocalTaskService.newTaskId 4000 "z9y8x7w6v")
        st' = (Ok (Some task), st')
    ∧ Task.title task = "Ship".
Proof.
  assert (Hfresh : LocalTaskService.newTaskId 4000 "z9y8x7w6v"
            ∉ Task.id <$> Storage.tasks (App.localStorage Sample.ready)).
  { apply (bool_decide_unpack _). vm_compute. exact I. }
  destruct (createTask_then_getTaskById 4000 "z9y8x7w6v" (Sample.dto "Ship")
              (App.localStorage Sample.ready) Hfresh)
    as (task & st' & Hrun & Hid & Hget & _).
  exists task, st'. split_and!; [exact Hfresh|exact Hrun| |].
  - rewrite <- Hid. exact Hget.
  - rewrite createTask_eq in Hrun. by injection Hrun as <- _.
Defined.

(** X6.  For the id of a stored task, [updateTask(id, dto)] returns the
    merged task and [getTaskById(id)] returns that same task afterwards.
    The merged task takes every key the dto holds ([title],
    [description], [status], [priority], [dueDate], [estimatedMinutes],
    [tags], [actualMinutes]) and keeps the old value of every other; it
    keeps [id], [noteId] and [createdAt] and carries [updatedAt = now].
    The update keeps the number, the order and the ids of the stored
    tasks; [getTaskById] of any other id returns what it returned before;
    the sessions are left as they are. *)
Theorem updateTask_then_getTaskById now id dto st index old :
  findTask id st = Some (index, old) →
  ∃ updated st',
    LocalTaskService.updateTask now id dto st = (Ok updated, st')
    ∧ LocalTaskService.getTaskById id st' = (Ok (Some updated), st')
    ∧ Task.id <$> Storage.tasks st' = Task.id <$> Storage.tasks st
    ∧ (∀ id', id' ≠ id →
         fst (LocalTaskService.getTaskById id' st')
         = fst (LocalTaskService.getTaskById id' st))
    ∧ Task.title updated = default (Task.title old) (UpdateTaskDto.title dto)
    ∧ Task.description updated
      = default (Task.description old) (UpdateTaskDto.description dto)
    ∧ Task.status updated
      = default (Task.status old) (UpdateTaskDto.status dto)
    ∧ Task.priority updated
      = default (Task.priority old) (UpdateTaskDto.priority dto)
    ∧ Task.dueDate updated
      = default (Task.dueDate old) (UpdateTaskDto.dueDate dto)
    ∧ Task.estimatedMinutes updated
      = default (Task.estimatedMinutes old)
                (UpdateTaskDto.estimatedMinutes dto)
    ∧ Task.tags updated = default (Task.tags old) (UpdateTaskDto.tags dto)
    ∧ Task.actualMinutes updated
      = default (Task.actualMinutes old) (UpdateTaskDto.actualMinutes dto)
    ∧ Task.id updated = Task.id old
    ∧ Task.noteId updated = Task.noteId old
    ∧ Task.createdAt updated = Task.createdAt old
    ∧ Task.updatedAt updated = now
    ∧ Storage.sessions st' = Storage.sessions st.
Proof.
  intros Hold. eexists _, _. split; [by apply updateTask_found|].
  pose proof (findTask_lookup _ _ _ _ Hold) as Hlook.
  pose proof (findTask_id _ _ _ _ Hold) as Hid.
  split_and!; [| | |reflexivity..].
  - rewrite getTaskById_eq. unfold findTask. cbn [Storage.tasks].
    by rewrite (findTask_insert_same st id index old
                  (LocalTaskService.mergeTask now old dto) Hold Hid).
  - cbn [Storage.tasks]. by apply insert_mergeTask_ids.
  - intros id' Hne. rewrite !getTaskById_eq. cbn [fst]. f_equal.
    destruct (findTask id' st) as [[i t]|] eqn:Hfind.
    + rewrite (findTask_after_update _ now _ _ dto _ _ _ _ Hold Hfind).
      rewrite decide_False; [done|]. intros ->.
      pose proof (findTask_lookup _ _ _ _ Hfind) as Hlook'.
      pose proof (findTask_id _ _ _ _ Hfind) as Hid'. congruence.
    + unfold findTask in *. cbn [Storage.tasks].
      rewrite list_find_insert_none; [done| |done]. cbn. congruence.
Qed.

Lemma updateTask_then_getTaskById_witness :
  let st := App.localStorage Sample.ready in
  let dto := UpdateTaskDto.mk (Some "Write the spec") None None (Some high)
               None None None None in
  ∃ updated st',
    findTask Sample.idA st = Some (0%nat, Sample.taskA)
    ∧ LocalTaskService.updateTask 2500 Sample.idA dto st = (Ok updated, st')
    ∧ LocalTaskService.getTaskById Sample.idA st' = (Ok (Some updated), st')
    ∧ Task.title updated = "Write the spec"
    ∧ Task.priority updated = high
    ∧ Task.status updated = todo
    ∧ Task.updatedAt updated = 2500.
Proof.
  intros st dto.
  destruct (updateTask_then_getTaskById 2500 Sample.idA dto st 0 Sample.taskA
              eq_refl)
    as (updated & st' & Hrun & Hget & _ & _ & Htitle & _ & Hstatus & Hpriority
        & _ & _ & _ & _ & _ & _ & _ & Hnow & _).
  exists updated, st'.
  split_and!; [reflexivity|exact Hrun|exact Hget|exact Htitle|exact Hpriority
              |exact Hstatus|exact Hnow].
Defined.

(** X7.  [deleteTask(id)] never fails.  Afterwards [getTaskById(id)]
    returns [null] and [getTaskById] of any other id returns the task it
    returned before; deleting the same id once more changes nothing; the
    sessions, those of the deleted task included, are left as they are, so
    [getSessionsByTask] and [getTotalTimeSpent] of the deleted id return
    what they returned before. *)
Theorem deleteTask_then_getTaskById id st :
  ∃ st',
    LocalTaskService.deleteTask id st = (Ok tt, st')
    ∧ LocalTaskService.getTaskById id st' = (Ok None, st')
    ∧ (∀ id', id' ≠ id →
         fst (LocalTaskService.getTaskById id' st')
         = fst (LocalTaskService.getTaskById id' st))
    ∧ LocalTaskService.deleteTask id st' = (Ok tt, st')
    ∧ Storage.sessions st' = Storage.sessions st
    ∧ fst (LocalTaskService.getSessionsByTask id st')
      = fst (LocalTaskService.getSessionsByTask id st)
    ∧ fst (LocalTaskService.getTotalTimeSpent id st')
      = fst (LocalTaskService.getTotalTimeSpent id st).
Proof.
  eexists. split; [apply deleteTask_eq|].
  assert (Hgone : findTask id
            (Storage.mk (filter (λ task, Task.id task ≠ id) (Storage.tasks st))
                        (Storage.sessions st)) = None)
    by apply (deleteTask_removes st id).
  split_and!; [| | |reflexivity..].
  - by rewrite getTaskById_eq, Hgone.
  - intros id' Hne. rewrite !getTaskById_eq. cbn [fst]. f_equal.
    unfold findTask. cbn [Storage.tasks].
    destruct (list_find (λ task, Task.id task = id') (Storage.tasks st))
      as [[i t]|] eqn:Hfind.
    + destruct (list_find_filter_keeps (λ task, Task.id task = id')
                  (λ task, Task.id task ≠ id) (Storage.tasks st) i t)
        as [i' ->]; [|done..]. cbn. congruence.
    + by rewrite list_find_filter_none.
  - rewrite deleteTask_eq. cbn [Storage.tasks Storage.sessions].
    unfold findTask in Hgone. cbn [Storage.tasks] in Hgone.
    by rewrite (filter_unknown_id _ _ Hgone).
Qed.

Lemma deleteTask_then_getTaskById_witness :
  ∃ st',
    LocalTaskService.deleteTask Sample.idA (App.localStorage Sample.started)
    = (Ok tt, st')
    ∧ LocalTaskService.getTaskById Sample.idA st' = (Ok None, st')
    ∧ Sample.idB ≠ Sample.idA
    ∧ fst (LocalTaskService.getTaskById Sample.idB st')
      = fst (LocalTaskService.getTaskById Sample.idB
               (App.localStorage Sample.started))
    ∧ fst (LocalTaskService.getSessionsByTask Sample.idA st')
      = Ok [Sample.sessionA].
Proof.
  destruct (deleteTask_then_getTaskById Sample.idA
              (App.localStorage Sample.started))
    as (st' & Hrun & Hget & Hother & _ & _ & Hsessions & _).
  exists st'. split_and!; [exact Hrun|exact Hget|done| |].
  - apply Hother. done.
  - rewrite Hsessions. reflexivity.
Defined.

(** ** Sessions: opening, finding the active one, loading on mount *)

Lemma getActiveSession_eq st :
  LocalTaskService.getActiveSession st = (Ok (activeSession st), st).
Proof. reflexivity. Qed.

Lemma getSessionsByTask_eq taskId st :
  LocalTaskService.getSessionsByTask taskId st
  = (Ok (filter (λ session, TaskSession.taskId session = taskId)
                (Storage.sessions st)), st).
Proof. reflexivity. Qed.

(** X8.  [createSession] does not look the task up: for any [taskId] it
    appends to the stored sessions, which it otherwise keeps as they are,
    one session with [startedAt = now], [endedAt] unset,
    [durationMinutes = 0] and [completed = false], of type [pomodoro]
    unless the dto names another type, and leaves the tasks as they are.
    [getSessionsByTask] of that task then returns the former sessions of
    the task followed by the new one.  [getActiveSession] returns the
    first stored session that is neither ended nor completed: after
    [createSession] it is the session that was active before, and the new
    one only when none was. *)
Theorem createSession_then_getActiveSession now rnd dto st :
  ∃ session st' before,
    LocalTaskService.createSession now rnd dto st = (Ok session, st')
    ∧ TaskSession.taskId session = CreateSessionDto.taskId dto
    ∧ TaskSession.startedAt session = now
    ∧ TaskSession.endedAt session = None
    ∧ TaskSession.durationMinutes session = 0
    ∧ TaskSession.completed session = false
    ∧ TaskSession.type session = default pomodoro (CreateSessionDto.type dto)
    ∧ Storage.sessions st' = Storage.sessions st ++ [session]
    ∧ Storage.tasks st' = Storage.tasks st
    ∧ LocalTaskService.getSessionsByTask (CreateSessionDto.taskId dto) st
      = (Ok before, st)
    ∧ LocalTaskService.getSessionsByTask (CreateSessionDto.taskId dto) st'
      = (Ok (before ++ [session]), st')
    ∧ LocalTaskService.getActiveSession st'
      = (Ok (Some (default session (activeSession st))), st').
Proof.
  eexists _, _, _. split; [apply createSession_eq|].
  split_and!; try reflexivity.
  - rewrite getSessionsByTask_eq. cbn [Storage.sessions].
    rewrite filter_app. f_equal. f_equal. f_equal.
    by rewrite filter_cons_True, filter_nil.
  - rewrite getActiveSession_eq. unfold activeSession.
    cbn [Storage.sessions]. f_equal. f_equal.
    destruct (list_find _ (Storage.sessions st)) as [[i s]|] eqn:Hfind.
    + by rewrite (list_find_app_l _ _ _ _ _ Hfind).
    + rewrite list_find_app_r by done. cbn. by rewrite decide_True.
Qed.

Section loadTasks.
Context (w : App.t).

Lemma loadTasks_eq :
  TaskViewModel.loadTasks w =
    (Ok tt,
     App.mk (App.localStorage w) (Storage.tasks (App.localStorage w))
       (match activeSession (App.localStorage w) with
        | Some session => Some (TaskSession.taskId session)
        | None => App.activeTaskIdAtom w
        end)
       (match activeSession (App.localStorage w) with
        | Some session => Some session
        | None => App.currentSessionAtom w
        end)
       (App.pomodoroTimerAtom w) (App.pomodoroSettingsAtom w)
       (App.taskSessionsAtom w) (App.errorAtom w)).
Proof.
  unfold TaskViewModel.loadTasks, activeSession. run_monad. cbn.
  destruct w as [[tasks sessions] ? ? ? ? ? ? ?]. cbn. by case_find.
Qed.

End loadTasks.

Lemma findSession_elem_of (s : TaskSession.t) st :
  s ∈ Storage.sessions st →
  ∃ index old, findSession (TaskSession.id s) st = Some (index, old)
               ∧ TaskSession.id old = TaskSession.id s.
Proof.
  intros Hs.
  destruct (list_find_elem_of (λ session, TaskSession.id session
                                          = TaskSession.id s)
              (Storage.sessions st) s Hs eq_refl) as [[index old] Hfind].
  exists index, old. split; [exact Hfind|].
  by apply list_find_Some in Hfind as (_ & ? & _).
Qed.

Lemma activeSession_elem_of st s :
  activeSession st = Some s →
  s ∈ Storage.sessions st ∧ TaskSession.endedAt s = None.
Proof.
  unfold activeSession.
  destruct (list_find _ _) as [[i s']|] eqn:Hfind; [|done].
  intros [= <-]. apply list_find_Some in Hfind as (Hl & [? ?] & _).
  split; [by eapply list_elem_of_lookup_2|done].
Qed.

(** X9.  On mount (the atoms hold their initial values) [loadTasks] never
    fails; it copies the stored tasks into [tasksAtom], writes nothing to
    the store and leaves the timer idle at 25:00.  When the store holds a
    session that is neither ended nor completed, the first such session
    becomes the current session and its task the active task, but the
    countdown is not resumed, so the panel does not render the timer
    widget; a [stopTask] called in that state closes a stored session of
    that id with [endedAt = now], [completed = false] and the whole
    wall-clock time since the session's [startedAt] as its duration.
    When there is no such session, no current session and no active task
    are set. *)
Theorem loadTasks_on_mount st :
  ∃ w,
    TaskViewModel.loadTasks (App.init st) = (Ok tt, w)
    ∧ App.localStorage w = st
    ∧ App.tasksAtom w = Storage.tasks st
    ∧ App.pomodoroTimerAtom w = App.pomodoroTimerAtom (App.init st)
    ∧ TaskPanel.rendersPomodoroTimer w = false
    ∧ App.currentSessionAtom w = activeSession st
    ∧ App.activeTaskIdAtom w = TaskSession.taskId <$> activeSession st
    ∧ ∀ s, activeSession st = Some s →
        ∀ now achievement pending, ∃ w' index closed,
          TaskViewModel.stopTask now achievement pending w = (Ok tt, w')
          ∧ Storage.sessions (App.localStorage w') !! index = Some closed
          ∧ TaskSession.id closed = TaskSession.id s
          ∧ TaskSession.endedAt closed = Some now
          ∧ TaskSession.completed closed = false
          ∧ TaskSession.durationMinutes closed
            = TaskViewModel.elapsedMinutes now (TaskSession.startedAt s)
          ∧ App.currentSessionAtom w' = None.
Proof.
  eexists. split; [apply loadTasks_eq|].
  cbn [App.init App.localStorage App.tasksAtom App.pomodoroTimerAtom
       App.currentSessionAtom App.activeTaskIdAtom].
  split_and!; try reflexivity.
  - unfold TaskPanel.rendersPomodoroTimer. cbn. apply andb_false_r.
  - by destruct (activeSession st).
  - intros s Hs now achievement pending. rewrite Hs.
    destruct (activeSession_elem_of _ _ Hs) as [Hin Hopen].
    destruct (findSession_elem_of s st Hin) as (index & old & Hfind & Hid).
    eexists _, index, _. split.
    { by apply (stopTask_found now _ achievement pending s index old). }
    cbn [App.localStorage App.currentSessionAtom].
    pose proof (updateSession_sessions now (TaskSession.id s)
      (TaskViewModel.closingDto now
         (TaskViewModel.elapsedMinutes now (TaskSession.startedAt s))
         (25 * 60 <=? 0) achievement pending) st) as Hsessions.
    cbn [Mutation.apply] in Hsessions. rewrite Hfind in Hsessions.
    cbn [App.pomodoroTimerAtom PomodoroTimerState.timeRemaining].
    rewrite Hsessions. split.
    { apply list_lookup_insert_eq. eapply lookup_lt_Some.
      by apply findSession_lookup in Hfind. }
    split_and!; try reflexivity. exact Hid.
Qed.

Lemma loadTasks_on_mount_witness :
  let st := App.localStorage Sample.started in
  ∃ w w' index closed,
    TaskViewModel.loadTasks (App.init st) = (Ok tt, w)
    ∧ activeSession st = Some Sample.sessionA
    ∧ App.activeTaskIdAtom w = Some Sample.idA
    ∧ TaskViewModel.stopTask 4000000 None None w = (Ok tt, w')
    ∧ Storage.sessions (App.localStorage w') !! index = Some closed
    ∧ TaskSession.completed closed = false
    ∧ TaskSession.durationMinutes closed = 66.
Proof.
  intros st.
  destruct (loadTasks_on_mount st)
    as (w & Hload & _ & _ & _ & _ & _ & Hactive & Hstop).
  destruct (Hstop Sample.sessionA eq_refl 4000000 None None)
    as (w' & index & closed & Hrun & Hlook & _ & _ & Hcompleted & Hduration & _).
  exists w, w', index, closed.
  split_and!; [exact Hload|reflexivity|exact Hactive|exact Hrun|exact Hlook
              |exact Hcompleted|exact Hduration].
Defined.

(** ** The timer, operation by operation *)

Lemma run_op_timer op w :
  let t := App.pomodoroTimerAtom w in
  let t' := App.pomodoroTimerAtom (Engine.run_op op w) in
  t' = t
  ∨ (op = Engine.TogglePause ∧ t' = toggled t)
  ∨ (∃ now rnd taskId, op = Engine.StartTask now rnd taskId)
    ∧ t' = startedTimer w
  ∨ (∃ now achievement pending, op = Engine.StopTask now achievement pending)
    ∧ t' = stoppedTimer w
  ∨ (op = Engine.Tick ∧ PomodoroTimerState.isRunning t = true
     ∧ PomodoroTimerState.isPaused t = false ∧ t' = TaskViewModel.countdown t).
Proof.
  unfold Engine.run_op.
  destruct op as [now rnd dto|now id dto|id|now rnd dto|now id dto|
                  |now rnd dto|now id dto|id|now rnd taskId| |now ach pend
                  |now taskId|taskId|settings|active|];
    cbn [Engine.exec].
  - run_monad. auto.
  - run_monad.
    destruct (LocalTaskService.updateTask _ _ _ _) as [[?|?] ?]; auto.
  - run_monad. auto.
  - run_monad. auto.
  - run_monad.
    destruct (LocalTaskService.updateSession _ _ _ _) as [[?|?] ?]; auto.
  - rewrite loadTasks_eq. auto.
  - unfold TaskViewModel.createTask. run_monad. auto.
  - unfold mbind, M_bind.
    destruct (findTask id (App.localStorage w)) as [[i old]|] eqn:H.
    + rewrite (vm_updateTask_found _ _ _ _ _ _ H). auto.
    + rewrite (vm_updateTask_missing _ _ _ _ H). auto.
  - unfold TaskViewModel.deleteTask. run_monad. auto.
  - destruct (findTask taskId (App.localStorage w)) as [[i old]|] eqn:H.
    + rewrite (startTask_found _ _ _ _ _ _ H). right; right; left. eauto.
    + rewrite (startTask_missing _ _ _ _ H). auto.
  - run_monad. auto.
  - destruct (App.currentSessionAtom w) as [cs|] eqn:Hcur.
    + destruct (findSession (TaskSession.id cs) (App.localStorage w))
        as [[i old]|] eqn:H.
      * rewrite (stopTask_found _ _ _ _ _ _ _ Hcur H).
        right; right; right; left. eauto.
      * rewrite (stopTask_missing _ _ _ _ _ Hcur H). auto.
    + rewrite stopTask_idle by done. auto.
  - unfold TaskViewModel.completeTask, mbind, M_bind.
    destruct (findTask taskId (App.localStorage w)) as [[i old]|] eqn:H.
    + rewrite (vm_updateTask_found _ _ _ _ _ _ H). auto.
    + rewrite (vm_updateTask_missing _ _ _ _ H). auto.
  - unfold TaskViewModel.loadTaskSessions. run_monad. auto.
  - run_monad. auto.
  - run_monad. auto.
  - unfold TaskViewModel.tick. run_monad.
    destruct (PomodoroTimerState.isRunning _) eqn:Hrun;
      destruct (PomodoroTimerState.isPaused _) eqn:Hpause; cbn; auto.
    right; right; right; right. auto.
Qed.

Lemma tick_idle w :
  PomodoroTimerState.isRunning (App.pomodoroTimerAtom w) = false
  ∨ PomodoroTimerState.isPaused (App.pomodoroTimerAtom w) = true →
  Engine.run_op Engine.Tick w = w.
Proof.
  intros H. unfold Engine.run_op; cbn [Engine.exec].
  unfold TaskViewModel.tick. run_monad.
  by destruct H as [-> | ->]; rewrite ?orb_true_r.
Qed.

Lemma ticks_idle (n : nat) w :
  PomodoroTimerState.isRunning (App.pomodoroTimerAtom w) = false
  ∨ PomodoroTimerState.isPaused (App.pomodoroTimerAtom w) = true →
  Engine.run (replicate n Engine.Tick) w = w.
Proof.
  intros H. induction n as [|n IH]; [done|].
  cbn [replicate]. by rewrite run_cons, tick_idle.
Qed.

Lemma togglePause_eq w :
  Engine.run_op Engine.TogglePause w
  = withTimer w (toggled (App.pomodoroTimerAtom w)).
Proof. reflexivity. Qed.

Lemma withTimer_toggled_twice w :
  withTimer (withTimer w (toggled (App.pomodoroTimerAtom w)))
            (toggled (toggled (App.pomodoroTimerAtom w))) = w.
Proof.
  destruct w as [? ? ? ? [? paused ? ? ? ?] ? ? ?].
  unfold withTimer, toggled; cbn. by rewrite negb_involutive.
Qed.

(** X10.  [togglePause] only flips [isPaused]: two calls in a row restore
    the state.  While the timer is paused, and while it is not running,
    the ticks of the interval change nothing: pausing a timer, letting any
    number of ticks pass and resuming it leaves the whole state, the
    remaining time included, as it was. *)
Theorem pause_freezes_countdown (n : nat) w :
  Engine.run [Engine.TogglePause; Engine.TogglePause] w = w
  ∧ (PomodoroTimerState.isRunning (App.pomodoroTimerAtom w) = false →
     Engine.run (replicate n Engine.Tick) w = w)
  ∧ (PomodoroTimerState.isPaused (App.pomodoroTimerAtom w) = false →
     Engine.run (Engine.TogglePause :: replicate n Engine.Tick
                   ++ [Engine.TogglePause]) w = w).
Proof.
  split_and!.
  - rewrite !run_cons, !togglePause_eq. cbn [Engine.run foldl].
    apply withTimer_toggled_twice.
  - intros H. apply ticks_idle. by left.
  - intros H. rewrite run_cons, run_app, togglePause_eq.
    rewrite ticks_idle by (right; cbn; by rewrite H).
    rewrite run_cons, togglePause_eq. cbn [Engine.run foldl].
    apply withTimer_toggled_twice.
Qed.

Lemma pause_freezes_countdown_witness :
  PomodoroTimerState.isRunning (App.pomodoroTimerAtom Sample.stopped) = false
  ∧ Engine.run (replicate 90 Engine.Tick) Sample.stopped = Sample.stopped
  ∧ PomodoroTimerState.isPaused (App.pomodoroTimerAtom Sample.started) = false
  ∧ Engine.run (Engine.TogglePause :: replicate 90 Engine.Tick
                  ++ [Engine.TogglePause]) Sample.started = Sample.started.
Proof.
  split_and!; [reflexivity| |reflexivity|].
  - exact (proj1 (proj2 (pause_freezes_countdown 90 Sample.stopped)) eq_refl).
  - exact (proj2 (proj2 (pause_freezes_countdown 90 Sample.started)) eq_refl).
Defined.

(** ** Editing the task list while a session is running *)

(** X11.  [createTask], [updateTask], [deleteTask] and [completeTask] of
    the view model, whether they return or throw, write neither the stored
    sessions nor the current session, the active task id, the timer, the
    settings or the loaded sessions.  In particular deleting or completing
    the task that is being timed leaves its session open and the countdown
    running. *)
Theorem task_actions_leave_session_and_timer op w :
  taskAction op = true →
  let w' := Engine.run_op op w in
  Storage.sessions (App.localStorage w') = Storage.sessions (App.localStorage w)
  ∧ App.currentSessionAtom w' = App.currentSessionAtom w
  ∧ App.activeTaskIdAtom w' = App.activeTaskIdAtom w
  ∧ App.pomodoroTimerAtom w' = App.pomodoroTimerAtom w
  ∧ App.pomodoroSettingsAtom w' = App.pomodoroSettingsAtom w
  ∧ App.taskSessionsAtom w' = App.taskSessionsAtom w.
Proof.
  unfold Engine.run_op.
  destruct op as [| | | | | |now rnd dto|now id dto|id| | | |now id| | | |];
    try discriminate; intros _; cbn [Engine.exec].
  - unfold TaskViewModel.createTask. by run_monad.
  - unfold mbind, M_bind.
    destruct (findTask id (App.localStorage w)) as [[i old]|] eqn:H.
    + by rewrite (vm_updateTask_found _ _ _ _ _ _ H).
    + by rewrite (vm_updateTask_missing _ _ _ _ H).
  - unfold TaskViewModel.deleteTask. by run_monad.
  - unfold TaskViewModel.completeTask, mbind, M_bind.
    destruct (findTask id (App.localStorage w)) as [[i old]|] eqn:H.
    + by rewrite (vm_updateTask_found _ _ _ _ _ _ H).
    + by rewrite (vm_updateTask_missing _ _ _ _ H).
Qed.

Lemma task_actions_leave_session_and_timer_witness :
  let w' := Engine.run_op (Engine.CompleteTask 60000 Sample.idA)
                          Sample.started in
  taskAction (Engine.CompleteTask 60000 Sample.idA) = true
  ∧ openSessions (App.localStorage w') = [Sample.sessionA]
  ∧ App.currentSessionAtom w' = Some Sample.sessionA
  ∧ PomodoroTimerState.isRunning (App.pomodoroTimerAtom w') = true.
Proof.
  intros w'.
  destruct (task_actions_leave_session_and_timer
              (Engine.CompleteTask 60000 Sample.idA) Sample.started eq_refl)
    as (Hsessions & Hcurrent & _ & Htimer & _).
  fold w' in Hsessions, Hcurrent, Htimer.
  split_and!; [reflexivity| | |].
  - unfold openSessions. rewrite Hsessions. reflexivity.
  - rewrite Hcurrent. reflexivity.
  - rewrite Htimer. reflexivity.
Defined.

Lemma deleteTask_vm_eq id w :
  TaskViewModel.deleteTask id w =
    (Ok tt,
     App.mk (Storage.mk (filter (λ task, Task.id task ≠ id)
                                (Storage.tasks (App.localStorage w)))
                        (Storage.sessions (App.localStorage w)))
            (filter (λ task, Task.id task ≠ id) (App.tasksAtom w))
            (App.activeTaskIdAtom w) (App.currentSessionAtom w)
            (App.pomodoroTimerAtom w) (App.pomodoroSettingsAtom w)
            (App.taskSessionsAtom w) (App.errorAtom w)).
Proof. reflexivity. Qed.

(** X12.  [deleteTask] of the active task removes it from the stored and
    the listed tasks, but neither clears the active task id nor stops the
    timer nor closes the session: afterwards the derived [activeTaskAtom]
    is [null], so the panel no longer renders the timer widget (and with
    it the stop button), while the open sessions, the current session and
    the running timer are what they were. *)
Theorem deleteTask_of_active_task id w :
  App.activeTaskIdAtom w = Some id →
  let w' := Engine.run_op (Engine.DeleteTask id) w in
  findTask id (App.localStorage w') = None
  ∧ App.activeTaskAtom w' = None
  ∧ TaskPanel.rendersPomodoroTimer w' = false
  ∧ App.activeTaskIdAtom w' = Some id
  ∧ openSessions (App.localStorage w') = openSessions (App.localStorage w)
  ∧ App.currentSessionAtom w' = App.currentSessionAtom w
  ∧ App.pomodoroTimerAtom w' = App.pomodoroTimerAtom w.
Proof.
  intros Hactive w'. unfold w', Engine.run_op. cbn [Engine.exec].
  rewrite deleteTask_vm_eq. cbn [snd].
  assert (Hnone : App.activeTaskAtom
            (App.mk (Storage.mk (filter (λ task, Task.id task ≠ id)
                                   (Storage.tasks (App.localStorage w)))
                                (Storage.sessions (App.localStorage w)))
               (filter (λ task, Task.id task ≠ id) (App.tasksAtom w))
               (App.activeTaskIdAtom w) (App.currentSessionAtom w)
               (App.pomodoroTimerAtom w) (App.pomodoroSettingsAtom w)
               (App.taskSessionsAtom w) (App.errorAtom w)) = None).
  { unfold App.activeTaskAtom. cbn [App.activeTaskIdAtom App.tasksAtom].
    rewrite Hactive.
    by rewrite (list_find_filter_out (λ task, Task.id task = id)). }
  split_and!; try done.
  - apply (list_find_filter_out (λ task, Task.id task = id)).
  - unfold TaskPanel.rendersPomodoroTimer. rewrite Hnone.
    rewrite bool_decide_eq_false_2; [done|]. by intros [? ?].
Qed.

Lemma deleteTask_of_active_task_witness :
  let w' := Engine.run_op (Engine.DeleteTask Sample.idA) Sample.started in
  App.activeTaskIdAtom Sample.started = Some Sample.idA
  ∧ TaskPanel.rendersPomodoroTimer Sample.started = true
  ∧ TaskPanel.rendersPomodoroTimer w' = false
  ∧ openSessions (App.localStorage w') = [Sample.sessionA]
  ∧ PomodoroTimerState.isRunning (App.pomodoroTimerAtom w') = true.
Proof.
  intros w'.
  destruct (deleteTask_of_active_task Sample.idA Sample.started eq_refl)
    as (_ & _ & Hrender & _ & Hopen & _ & Htimer).
  fold w' in Hrender, Hopen, Htimer.
  split_and!; [reflexivity|reflexivity|exact Hrender| |].
  - rewrite Hopen. reflexivity.
  - rewrite Htimer. reflexivity.
Defined.

(** ** Stopping from the timer widget *)

Lemma stopTask_sessions now achievement pending w cs index old :
  App.currentSessionAtom w = Some cs →
  findSession (TaskSession.id cs) (App.localStorage w) = Some (index, old) →
  ∃ w',
    TaskViewModel.stopTask now achievement pending w = (Ok tt, w')
    ∧ Storage.sessions (App.localStorage w')
      = <[index := LocalTaskService.mergeSession old
            (TaskViewModel.closingDto now
               (TaskViewModel.elapsedMinutes now (TaskSession.startedAt cs))
               (PomodoroTimerState.timeRemaining (App.pomodoroTimerAtom w)
                <=? 0)
               achievement pending)]> (Storage.sessions (App.localStorage w))
    ∧ App.tasksAtom w' = App.tasksAtom w
    ∧ App.currentSessionAtom w' = None
    ∧ App.activeTaskIdAtom w' = App.activeTaskIdAtom w
    ∧ App.pomodoroTimerAtom w' = stoppedTimer w.
Proof.
  intros Hcur Hfind. eexists. split; [by eapply stopTask_found|].
  cbn [App.localStorage App.tasksAtom App.currentSessionAtom
       App.activeTaskIdAtom App.pomodoroTimerAtom].
  split_and!; try reflexivity.
  pose proof (updateSession_sessions now (TaskSession.id cs)
    (TaskViewModel.closingDto now
       (TaskViewModel.elapsedMinutes now (TaskSession.startedAt cs))
       (PomodoroTimerState.timeRemaining (App.pomodoroTimerAtom w) <=? 0)
       achievement pending) (App.localStorage w)) as Hsessions.
  cbn [Mutation.apply] in Hsessions. by rewrite Hfind in Hsessions.
Qed.

Lemma handleStop_eq now achievement pending w :
  PomodoroTimer.handleStop now achievement pending w
  = if PomodoroTimerState.timeRemaining (App.pomodoroTimerAtom w) <=? 0
    then TaskViewModel.stopTask now (JsString.orUndefined achievement)
           (JsString.orUndefined pending) w
    else TaskViewModel.stopTask now None None w.
Proof.
  unfold PomodoroTimer.handleStop, mbind, M_bind, get.
  by destruct (_ <=? 0).
Qed.

Lemma orUndefined_nonempty x : JsString.orUndefined x ≠ Some "".
Proof. by destruct x as [[|??]|]. Qed.

(** X13.  [handleStop] of the timer widget, with a stored current session:
    the session is closed with [completed = (timeRemaining <= 0)].  The
    answers to the two prompts are stored only when the countdown has
    reached zero; an empty or cancelled answer is stored as [undefined],
    never as an empty string.  When time remains no prompt is shown and
    [achievement] and [pending] are stored as [undefined]. *)
Theorem handleStop_stores_summary now achievement pending w cs index old :
  App.currentSessionAtom w = Some cs →
  findSession (TaskSession.id cs) (App.localStorage w) = Some (index, old) →
  let remaining :=
    PomodoroTimerState.timeRemaining (App.pomodoroTimerAtom w) in
  ∃ w' closed,
    PomodoroTimer.handleStop now achievement pending w = (Ok tt, w')
    ∧ Storage.sessions (App.localStorage w') !! index = Some closed
    ∧ TaskSession.endedAt closed = Some now
    ∧ TaskSession.completed closed = bool_decide (remaining ≤ 0)
    ∧ TaskSession.achievement closed ≠ Some ""
    ∧ TaskSession.pending closed ≠ Some ""
    ∧ (remaining ≤ 0 →
       TaskSession.achievement closed = JsString.orUndefined achievement
       ∧ TaskSession.pending closed = JsString.orUndefined pending)
    ∧ (0 < remaining →
       TaskSession.achievement closed = None
       ∧ TaskSession.pending closed = None).
Proof.
  intros Hcur Hfind remaining. rewrite handleStop_eq. fold remaining.
  pose proof (findSession_lookup _ _ _ _ Hfind) as Hlook.
  apply lookup_lt_Some in Hlook.
  destruct (Z.leb_spec remaining 0) as [Hle|Hlt].
  - destruct (stopTask_sessions now (JsString.orUndefined achievement)
                (JsString.orUndefined pending) w cs index old Hcur Hfind)
      as (w' & Hrun & Hsessions & _).
    exists w'. eexists. split; [exact Hrun|]. rewrite Hsessions.
    split; [by apply list_lookup_insert_eq|]. fold remaining.
    rewrite (proj2 (Z.leb_le _ _) Hle). cbn.
    split_and!; [done|by rewrite bool_decide_eq_true_2
                |apply orUndefined_nonempty..|done|lia].
  - destruct (stopTask_sessions now None None w cs index old Hcur Hfind)
      as (w' & Hrun & Hsessions & _).
    exists w'. eexists. split; [exact Hrun|]. rewrite Hsessions.
    split; [by apply list_lookup_insert_eq|]. fold remaining.
    rewrite (proj2 (Z.leb_gt _ _) Hlt). cbn.
    split_and!; [done|by rewrite bool_decide_eq_false_2 by lia
                |done|done|lia|done].
Qed.

Lemma handleStop_stores_summary_witness :
  ∃ w1 closed1 w2 closed2,
    App.currentSessionAtom Scenario.ranOut = Some Sample.sessionA
    ∧ findSession (TaskSession.id Sample.sessionA)
        (App.localStorage Scenario.ranOut) = Some (0%nat, Sample.sessionA)
    ∧ PomodoroTimerState.timeRemaining
        (App.pomodoroTimerAtom Scenario.ranOut) ≤ 0
    ∧ PomodoroTimer.handleStop 1503000 (Some "") (Some "Review")
        Scenario.ranOut = (Ok tt, w1)
    ∧ Storage.sessions (App.localStorage w1) !! 0%nat = Some closed1
    ∧ TaskSession.achievement closed1 = None
    ∧ TaskSession.pending closed1 = Some "Review"
    ∧ 0 < PomodoroTimerState.timeRemaining
            (App.pomodoroTimerAtom Sample.started)
    ∧ PomodoroTimer.handleStop 303000 (Some "Wrote spec") (Some "Review")
        Sample.started = (Ok tt, w2)
    ∧ Storage.sessions (App.localStorage w2) !! 0%nat = Some closed2
    ∧ TaskSession.achievement closed2 = None
    ∧ TaskSession.pending closed2 = None.
Proof.
  assert (Hle : PomodoroTimerState.timeRemaining
                  (App.pomodoroTimerAtom Scenario.ranOut) ≤ 0)
    by (vm_compute; discriminate).
  assert (Hlt : 0 < PomodoroTimerState.timeRemaining
                      (App.pomodoroTimerAtom Sample.started))
    by (vm_compute; reflexivity).
  destruct (handleStop_stores_summary 1503000 (Some "") (Some "Review")
              Scenario.ranOut Sample.sessionA 0 Sample.sessionA
              eq_refl eq_refl)
    as (w1 & closed1 & Hrun1 & Hlook1 & _ & _ & _ & _ & Hdone & _).
  destruct (handleStop_stores_summary 303000 (Some "Wrote spec")
              (Some "Review") Sample.started Sample.sessionA 0
              Sample.sessionA eq_refl eq_refl)
    as (w2 & closed2 & Hrun2 & Hlook2 & _ & _ & _ & _ & _ & Hearly).
  exists w1, closed1, w2, closed2.
  split_and!; [reflexivity|reflexivity|exact Hle|exact Hrun1|exact Hlook1
              |exact (proj1 (Hdone Hle))|exact (proj2 (Hdone Hle))
              |exact Hlt|exact Hrun2|exact Hlook2
              |exact (proj1 (Hearly Hlt))|exact (proj2 (Hearly Hlt))].
Defined.

Section running_timer.
Context (w0 : App.t).
Context (Hsettings0 :
  0 < PomodoroSettings.workDuration (App.pomodoroSettingsAtom w0)).
Context (Htimer0 :
  PomodoroTimerState.isRunning (App.pomodoroTimerAtom w0) = true →
  0 < PomodoroTimerState.timeRemaining (App.pomodoroTimerAtom w0)).

(* a positive work duration: a running timer has time left *)
Lemma running_timer_has_time_left w :
  Engine.reachable workDurationPositive w0 w →
  0 < PomodoroSettings.workDuration (App.pomodoroSettingsAtom w)
  ∧ (PomodoroTimerState.isRunning (App.pomodoroTimerAtom w) = true →
     0 < PomodoroTimerState.timeRemaining (App.pomodoroTimerAtom w)).
Proof.
  induction 1 as [|op w Hreach [IHs IHt] Hallowed]; [done|].
  destruct (run_op_shape w op) as (_ & Hsettings & _). split.
  - rewrite Hsettings. destruct op; try done.
    cbn in Hallowed. apply bool_decide_eq_true in Hallowed. cbn.
    destruct (PartialPomodoroSettings.workDuration settings); cbn in *; lia.
  - destruct (run_op_timer op w)
      as [->|[[_ ->]|[[_ ->]|[[_ ->]|(_ & Hrun & _ & ->)]]]];
      cbn; try done; try lia.
    unfold TaskViewModel.countdown.
    destruct (Z.leb_spec
      (PomodoroTimerState.timeRemaining (App.pomodoroTimerAtom w) - 1) 0);
      cbn; [done|lia].
Qed.

End running_timer.

(** X14.  Provided the configured work duration is positive initially and
    after every change of the settings, the timer never runs with no time
    left.  The panel renders the timer widget only while the timer runs,
    so whenever the widget is rendered its [handleStop] takes the
    "interrupted" branch: it shows no prompt and calls [stopTask] without
    arguments, and the session it closes is stored with
    [completed = false] and without [achievement] and [pending]. *)
Theorem widget_stop_is_an_interruption w0 w now achievement pending :
  0 < PomodoroSettings.workDuration (App.pomodoroSettingsAtom w0) →
  (PomodoroTimerState.isRunning (App.pomodoroTimerAtom w0) = true →
   0 < PomodoroTimerState.timeRemaining (App.pomodoroTimerAtom w0)) →
  Engine.reachable workDurationPositive w0 w →
  TaskPanel.rendersPomodoroTimer w = true →
  0 < PomodoroTimerState.timeRemaining (App.pomodoroTimerAtom w)
  ∧ PomodoroTimer.handleStop now achievement pending w
    = TaskViewModel.stopTask now None None w
  ∧ ∀ cs index old,
      App.currentSessionAtom w = Some cs →
      findSession (TaskSession.id cs) (App.localStorage w)
        = Some (index, old) →
      ∃ w' closed,
        PomodoroTimer.handleStop now achievement pending w = (Ok tt, w')
        ∧ Storage.sessions (App.localStorage w') !! index = Some closed
        ∧ TaskSession.completed closed = false
        ∧ TaskSession.achievement closed = None
        ∧ TaskSession.pending closed = None.
Proof.
  intros Hs0 Ht0 Hreach Hrender.
  assert (Hleft : 0 < PomodoroTimerState.timeRemaining
                        (App.pomodoroTimerAtom w)).
  { apply (running_timer_has_time_left w0 Hs0 Ht0 w Hreach).
    unfold TaskPanel.rendersPomodoroTimer in Hrender.
    by apply andb_true_iff in Hrender as [_ ?]. }
  assert (Hstop : PomodoroTimer.handleStop now achievement pending w
                  = TaskViewModel.stopTask now None None w).
  { rewrite handleStop_eq. by rewrite (proj2 (Z.leb_gt _ _) Hleft). }
  split_and!; [done..|].
  intros cs index old Hcur Hfind. rewrite Hstop.
  destruct (stopTask_sessions now None None w cs index old Hcur Hfind)
    as (w' & Hrun & Hsessions & _).
  exists w'. eexists. split; [exact Hrun|]. rewrite Hsessions. split.
  { apply list_lookup_insert_eq. eapply lookup_lt_Some.
    by apply findSession_lookup in Hfind. }
  cbn. by rewrite (proj2 (Z.leb_gt _ _) Hleft).
Qed.

Lemma widget_stop_is_an_interruption_witness :
  let w0 := App.init Storage.empty in
  let w := Engine.run
    (Sample.twoTasks ++
     [Engine.StartTask 3000 "w1e4r6t8y" Sample.idA]
     ++ replicate 1499 Engine.Tick)
    w0 in
  0 < PomodoroSettings.workDuration (App.pomodoroSettingsAtom w0)
  ∧ Engine.reachable workDurationPositive w0 w
  ∧ TaskPanel.rendersPomodoroTimer w = true
  ∧ PomodoroTimerState.timeRemaining (App.pomodoroTimerAtom w) = 1
  ∧ ∃ w' closed,
      PomodoroTimer.handleStop 1502000 (Some "Wrote spec") None w = (Ok tt, w')
      ∧ Storage.sessions (App.localStorage w') !! 0%nat = Some closed
      ∧ TaskSession.completed closed = false
      ∧ TaskSession.achievement closed = None.
Proof.
  intros w0 w.
  assert (Hs0 : 0 < PomodoroSettings.workDuration (App.pomodoroSettingsAtom w0))
    by reflexivity.
  assert (Ht0 : PomodoroTimerState.isRunning (App.pomodoroTimerAtom w0) = true →
                0 < PomodoroTimerState.timeRemaining (App.pomodoroTimerAtom w0))
    by (intros _; reflexivity).
  assert (Hreach : Engine.reachable workDurationPositive w0 w).
  { apply reachable_run; [constructor|]. vm_compute. reflexivity. }
  assert (Hrender : TaskPanel.rendersPomodoroTimer w = true)
    by (vm_compute; reflexivity).
  destruct (widget_stop_is_an_interruption w0 w 1502000 (Some "Wrote spec")
              None Hs0 Ht0 Hreach Hrender) as (_ & _ & Hclose).
  destruct (Hclose Sample.sessionA 0%nat Sample.sessionA)
    as (w' & closed & Hrun & Hlook & Hcompleted & Hachievement & _);
    [vm_compute; reflexivity..|].
  split_and!; [exact Hs0|exact Hreach|exact Hrender|vm_compute; reflexivity|].
  exists w', closed. by split_and!.
Defined.

(** ** The listed tasks and the stored tasks *)

(* [prev.map(task => task.id === id ? updated : task)] overwrites the slot
   of the task when ids are unique *)
Lemma map_replace_insert (l : list Task.t) id index old updated :
  NoDup (Task.id <$> l) →
  list_find (λ task, Task.id task = id) l = Some (index, old) →
  (λ task, if bool_decide (Task.id task = id) then updated else task) <$> l
  = <[index := updated]> l.
Proof.
  intros Hnd (Hl & Hid & _)%list_find_Some. apply list_eq. intros i.
  rewrite list_lookup_fmap. destruct (decide (i = index)) as [->|Hne].
  - rewrite list_lookup_insert_eq by (by eapply lookup_lt_Some).
    rewrite Hl. cbn. by rewrite bool_decide_eq_true_2.
  - rewrite list_lookup_insert_ne by done.
    destruct (l !! i) as [t|] eqn:Hi; [|done]. cbn.
    rewrite bool_decide_eq_false_2; [done|]. intros Ht.
    apply Hne. apply (NoDup_ids_lookup l i index t old Hnd Hi Hl). congruence.
Qed.

Lemma synced_update now id dto w index old :
  synced w →
  findTask id (App.localStorage w) = Some (index, old) →
  synced (snd (TaskViewModel.updateTask now id dto w)).
Proof.
  intros [Hatom Hnd] Hfind. rewrite (vm_updateTask_found _ _ _ _ _ _ Hfind).
  split; cbn.
  - rewrite Hatom. by apply (map_replace_insert _ _ _ old).
  - rewrite insert_mergeTask_ids; [done|by eapply findTask_lookup].
Qed.

Lemma NoDup_ids_filter (P : Task.t → Prop) `{!∀ x, Decision (P x)}
    (l : list Task.t) :
  NoDup (Task.id <$> l) → NoDup (Task.id <$> filter P l).
Proof.
  intros Hnd. eapply sublist_NoDup; [exact Hnd|apply fmap_sublist, sublist_filter].
Qed.

Lemma run_op_synced op w :
  synced w → throughViewModel op w = true → synced (Engine.run_op op w).
Proof.
  intros Hsynced. pose proof Hsynced as [Hatom Hnd]. unfold Engine.run_op.
  destruct op as [now rnd dto|now id dto|id|now rnd dto|now id dto|
                  |now rnd dto|now id dto|id|now rnd taskId| |now ach pend
                  |now taskId|taskId|settings|active|];
    try discriminate; intros Hallowed; cbn [Engine.exec].
  - rewrite loadTasks_eq. by split.
  - cbn in Hallowed. apply bool_decide_eq_true in Hallowed.
    unfold TaskViewModel.createTask. run_monad. split; cbn.
    + by rewrite Hatom.
    + rewrite fmap_app. apply NoDup_app. split_and!; [done| |apply NoDup_singleton].
      intros x Hx [->|[]%elem_of_nil]%elem_of_cons. by apply Hallowed.
  - unfold mbind, M_bind.
    destruct (findTask id (App.localStorage w)) as [[i old]|] eqn:H.
    + pose proof (synced_update now id dto w i old Hsynced H) as Hs.
      by destruct (TaskViewModel.updateTask now id dto w) as [[?|?] ?].
    + by rewrite (vm_updateTask_missing _ _ _ _ H).
  - rewrite deleteTask_vm_eq. split; cbn.
    + by rewrite Hatom.
    + by apply NoDup_ids_filter.
  - destruct (findTask taskId (App.localStorage w)) as [[i old]|] eqn:H.
    + rewrite (startTask_found _ _ _ _ _ _ H). split; cbn.
      * rewrite Hatom. by apply (map_replace_insert _ _ _ old).
      * rewrite insert_mergeTask_ids; [done|by eapply findTask_lookup].
    + by rewrite (startTask_missing _ _ _ _ H).
  - done.
  - unfold TaskViewModel.completeTask, mbind, M_bind.
    destruct (findTask taskId (App.localStorage w)) as [[i old]|] eqn:H.
    + pose proof (synced_update now taskId (UpdateTaskDto.of_status done)
                    w i old Hsynced H) as Hs.
      by destruct (TaskViewModel.updateTask now taskId _ w) as [[?|?] ?].
    + by rewrite (vm_updateTask_missing _ _ _ _ H).
  - unfold TaskViewModel.loadTaskSessions. by run_monad.
  - done.
  - done.
  - unfold TaskViewModel.tick. run_monad. by destruct (negb _ || _).
Qed.

Lemma reachable_synced w0 w :
  synced w0 → Engine.reachable throughViewModel w0 w → synced w.
Proof.
  intros H0. induction 1 as [|op w _ IH Hallowed]; [done|].
  by apply run_op_synced.
Qed.

(** X15.  Starting from a state in which the listed tasks ([tasksAtom])
    are the stored tasks and task ids are unique (the state after
    [loadTasks], or the initial state over empty storage), every sequence
    of view-model actions other than [stopTask], with fresh ids for
    created tasks, keeps them so: after [createTask], [updateTask],
    [deleteTask], [startTask], [completeTask], [togglePause], the ticks
    and the others, whether they return or throw, the panel lists exactly
    the stored tasks, in the stored order, and ids stay unique. *)
Theorem listed_tasks_are_stored_tasks w0 w :
  synced w0 →
  Engine.reachable throughViewModel w0 w →
  App.tasksAtom w = Storage.tasks (App.localStorage w)
  ∧ NoDup (Task.id <$> Storage.tasks (App.localStorage w)).
Proof.
  apply reachable_synced.
Qed.

Lemma listed_tasks_are_stored_tasks_witness :
  let w0 := App.init Storage.empty in
  let w := Engine.run
    (Sample.twoTasks ++
     [Engine.StartTask 3000 "w1e4r6t8y" Sample.idA;
      Engine.CompleteTask 4000 Sample.idB;
      Engine.DeleteTask Sample.idB;
      Engine.UpdateTask 5000 "ghost" UpdateTaskDto.empty])
    w0 in
  synced w0
  ∧ Engine.reachable throughViewModel w0 w
  ∧ App.tasksAtom w = Storage.tasks (App.localStorage w)
  ∧ length (App.tasksAtom w) = 1%nat.
Proof.
  intros w0 w.
  assert (H0 : synced w0) by (split; [reflexivity|constructor]).
  assert (Hreach : Engine.reachable throughViewModel w0 w).
  { apply reachable_run; [constructor|]. vm_compute. reflexivity. }
  split_and!; [exact H0|exact Hreach| |].
  - exact (proj1 (listed_tasks_are_stored_tasks w0 w H0 Hreach)).
  - vm_compute. reflexivity.
Defined.

(** X16.  In every state reached that way (the listed tasks in step with
    the store, view-model actions other than [stopTask], fresh ids) the
    three lists the panel shows, [todoTasksAtom], [inProgressTasksAtom]
    and [doneTasksAtom], have the lengths [getTaskStats] reports for
    [todo], [inProgress] and [done], and the derived [activeTaskAtom] is
    what [getTaskById] returns for the active task id. *)
Theorem panel_lists_agree_with_service w0 w :
  synced w0 →
  Engine.reachable throughViewModel w0 w →
  ∃ stats,
    LocalTaskService.getTaskStats (App.localStorage w)
    = (Ok stats, App.localStorage w)
    ∧ LocalTaskService.TaskStats.todo stats
      = Z.of_nat (length (App.todoTasksAtom w))
    ∧ LocalTaskService.TaskStats.inProgress stats
      = Z.of_nat (length (App.inProgressTasksAtom w))
    ∧ LocalTaskService.TaskStats.done stats
      = Z.of_nat (length (App.doneTasksAtom w))
    ∧ ∀ id, App.activeTaskIdAtom w = Some id →
        LocalTaskService.getTaskById id (App.localStorage w)
        = (Ok (App.activeTaskAtom w), App.localStorage w).
Proof.
  intros H0 Hreach. destruct (reachable_synced w0 w H0 Hreach) as [Hatom _].
  eexists. split; [reflexivity|].
  unfold App.todoTasksAtom, App.inProgressTasksAtom, App.doneTasksAtom,
    App.activeTaskAtom.
  rewrite Hatom. split_and!; try reflexivity.
  intros id ->. apply getTaskById_eq.
Qed.

Lemma panel_lists_agree_with_service_witness :
  let w0 := App.init Storage.empty in
  synced w0
  ∧ Engine.reachable throughViewModel w0 Sample.started
  ∧ App.activeTaskIdAtom Sample.started = Some Sample.idA
  ∧ LocalTaskService.getTaskById Sample.idA (App.localStorage Sample.started)
    = (Ok (App.activeTaskAtom Sample.started), App.localStorage Sample.started)
  ∧ length (App.inProgressTasksAtom Sample.started) = 1%nat.
Proof.
  intros w0.
  assert (H0 : synced w0) by (split; [reflexivity|constructor]).
  assert (Hreach : Engine.reachable throughViewModel w0 Sample.started).
  { apply (reachable_run throughViewModel
             (Sample.twoTasks ++ [Engine.StartTask 3000 "w1e4r6t8y" Sample.idA]));
      [constructor|]. vm_compute. reflexivity. }
  destruct (panel_lists_agree_with_service w0 Sample.started H0 Hreach)
    as (stats & _ & _ & _ & _ & Hactive).
  split_and!; [exact H0|exact Hreach|reflexivity| |reflexivity].
  apply Hactive. reflexivity.
Defined.

(** X17.  When the listed tasks are the stored tasks and ids are unique,
    [startTask] of a stored task makes it the active task of the panel:
    the derived [activeTaskAtom] is the updated task, it is listed among
    the in-progress tasks, and the panel, when open, renders the timer
    widget. *)
Theorem startTask_shows_in_panel now rnd taskId w index old :
  App.tasksAtom w = Storage.tasks (App.localStorage w) →
  NoDup (Task.id <$> Storage.tasks (App.localStorage w)) →
  findTask taskId (App.localStorage w) = Some (index, old) →
  let w' := Engine.run_op (Engine.StartTask now rnd taskId) w in
  ∃ updated,
    App.activeTaskAtom w' = Some updated
    ∧ Task.id updated = taskId
    ∧ Task.status updated = in_progress
    ∧ updated ∈ App.inProgressTasksAtom w'
    ∧ TaskPanel.rendersPomodoroTimer w' = true.
Proof.
  intros Hatom Hnd Hfind w'.
  exists (LocalTaskService.mergeTask now old (UpdateTaskDto.of_status in_progress)).
  pose proof (findTask_id _ _ _ _ Hfind) as Hid.
  assert (Htasks : App.tasksAtom w'
    = <[index := LocalTaskService.mergeTask now old
                   (UpdateTaskDto.of_status in_progress)]>
        (Storage.tasks (App.localStorage w))).
  { unfold w', Engine.run_op. cbn [Engine.exec].
    rewrite (startTask_found _ _ _ _ _ _ Hfind). cbn [snd App.tasksAtom].
    rewrite Hatom. by apply (map_replace_insert _ _ _ old). }
  assert (Hactive : App.activeTaskIdAtom w' = Some taskId).
  { unfold w', Engine.run_op. cbn [Engine.exec].
    by rewrite (startTask_found _ _ _ _ _ _ Hfind). }
  assert (Hrunning :
    PomodoroTimerState.isRunning (App.pomodoroTimerAtom w') = true).
  { unfold w', Engine.run_op. cbn [Engine.exec].
    by rewrite (startTask_found _ _ _ _ _ _ Hfind). }
  assert (Hderived : App.activeTaskAtom w'
    = Some (LocalTaskService.mergeTask now old
              (UpdateTaskDto.of_status in_progress))).
  { unfold App.activeTaskAtom. rewrite Hactive, Htasks.
    by rewrite (findTask_insert_same _ _ _ _
                  (LocalTaskService.mergeTask now old
                     (UpdateTaskDto.of_status in_progress)) Hfind Hid). }
  split_and!; [exact Hderived|exact Hid|reflexivity| |].
  - unfold App.inProgressTasksAtom. rewrite Htasks.
    apply list_elem_of_filter. split; [reflexivity|].
    apply list_elem_of_lookup. exists index.
    apply list_lookup_insert_eq. eapply lookup_lt_Some.
    by eapply findTask_lookup.
  - unfold TaskPanel.rendersPomodoroTimer. rewrite Hderived, Hrunning.
    by rewrite bool_decide_eq_true_2.
Qed.

Lemma startTask_shows_in_panel_witness :
  let w' := Engine.run_op (Engine.StartTask 3000 "w1e4r6t8y" Sample.idA)
                          Sample.ready in
  App.tasksAtom Sample.ready = Storage.tasks (App.localStorage Sample.ready)
  ∧ findTask Sample.idA (App.localStorage Sample.ready)
    = Some (0%nat, Sample.taskA)
  ∧ ∃ updated,
      App.activeTaskAtom w' = Some updated
      ∧ Task.status updated = in_progress
      ∧ TaskPanel.rendersPomodoroTimer w' = true.
Proof.
  intros w'.
  assert (Hnd : NoDup (Task.id <$> Storage.tasks (App.localStorage Sample.ready))).
  { apply (bool_decide_unpack _). vm_compute. exact I. }
  destruct (startTask_shows_in_panel 3000 "w1e4r6t8y" Sample.idA Sample.ready
              0 Sample.taskA eq_refl Hnd eq_refl)
    as (updated & Hactive & _ & Hstatus & _ & Hrender).
  split_and!; [reflexivity|reflexivity|].
  exists updated. by split_and!.
Defined.

(** X18.  [stopTask] credits the elapsed minutes to the stored task but
    does not touch [tasksAtom]: when the listed tasks were the stored ones
    and at least one whole minute is credited, the stored task's
    [actualMinutes] has grown by the elapsed minutes while the listed copy
    still shows the old value; the list differs from the store until
    [loadTasks] reads it again. *)
Theorem stopTask_leaves_listed_minutes_stale
    now achievement pending w cs index old j task :
  App.tasksAtom w = Storage.tasks (App.localStorage w) →
  App.currentSessionAtom w = Some cs →
  findSession (TaskSession.id cs) (App.localStorage w) = Some (index, old) →
  findTask (TaskSession.taskId old) (App.localStorage w) = Some (j, task) →
  TaskViewModel.elapsedMinutes now (TaskSession.startedAt cs) ≠ 0 →
  let w' := Engine.run_op (Engine.StopTask now achievement pending) w in
  ∃ credited,
    Storage.tasks (App.localStorage w') !! j = Some credited
    ∧ Task.actualMinutes credited
      = Task.actualMinutes task
        + TaskViewModel.elapsedMinutes now (TaskSession.startedAt cs)
    ∧ App.tasksAtom w' !! j = Some task
    ∧ App.tasksAtom w' ≠ Storage.tasks (App.localStorage w')
    ∧ App.tasksAtom (Engine.run_op Engine.LoadTasks w')
      = Storage.tasks (App.localStorage w').
Proof.
  intros Hatom Hcur Hfind Htask Hd w'.
  pose proof (findTask_lookup _ _ _ _ Htask) as Hj.
  assert (Hstore : Storage.tasks (App.localStorage w')
    = <[j := LocalTaskService.mergeTask now task
               (UpdateTaskDto.of_actualMinutes
                  (Task.actualMinutes task
                   + TaskViewModel.elapsedMinutes now
                       (TaskSession.startedAt cs)))]>
        (Storage.tasks (App.localStorage w))).
  { unfold w', Engine.run_op. cbn [Engine.exec].
    rewrite (stopTask_found _ _ _ _ _ _ _ Hcur Hfind).
    cbn [snd App.localStorage].
    rewrite (updateSession_found _ _ _ _ _ _ Hfind). cbn [snd].
    cbn [TaskViewModel.closingDto UpdateSessionDto.durationMinutes
         LocalTaskService.truthy].
    rewrite bool_decide_eq_false_2 by done. by rewrite Htask. }
  assert (Hlisted : App.tasksAtom w' = App.tasksAtom w).
  { unfold w', Engine.run_op. cbn [Engine.exec].
    by rewrite (stopTask_found _ _ _ _ _ _ _ Hcur Hfind). }
  assert (Hnew : Storage.tasks (App.localStorage w') !! j
    = Some (LocalTaskService.mergeTask now task
              (UpdateTaskDto.of_actualMinutes
                 (Task.actualMinutes task
                  + TaskViewModel.elapsedMinutes now
                      (TaskSession.startedAt cs))))).
  { rewrite Hstore. apply list_lookup_insert_eq. by eapply lookup_lt_Some. }
  eexists. split_and!; [exact Hnew|reflexivity| | |].
  - by rewrite Hlisted, Hatom.
  - intros Heq. rewrite <- Heq, Hlisted, Hatom, Hj in Hnew.
    injection Hnew as Hnew. apply (f_equal Task.actualMinutes) in Hnew.
    cbn in Hnew. lia.
  - unfold Engine.run_op at 1. cbn [Engine.exec]. by rewrite loadTasks_eq.
Qed.

Lemma stopTask_leaves_listed_minutes_stale_witness :
  ∃ task credited,
    App.tasksAtom Sample.started = Storage.tasks (App.localStorage Sample.started)
    ∧ findTask Sample.idA (App.localStorage Sample.started) = Some (0%nat, task)
    ∧ TaskViewModel.elapsedMinutes 303000 3000 ≠ 0
    ∧ Storage.tasks (App.localStorage Sample.stopped) !! 0%nat = Some credited
    ∧ Task.actualMinutes credited = 5
    ∧ App.tasksAtom Sample.stopped !! 0%nat = Some task
    ∧ Task.actualMinutes task = 0.
Proof.
  destruct (findTask Sample.idA (App.localStorage Sample.started))
    as [[[|i] task]|] eqn:Hfind; try (vm_compute in Hfind; discriminate).
  assert (Hzero : Task.actualMinutes task = 0).
  { vm_compute in Hfind. by injection Hfind as <-. }
  assert (Hd : TaskViewModel.elapsedMinutes 303000 3000 ≠ 0)
    by (vm_compute; discriminate).
  destruct (stopTask_leaves_listed_minutes_stale 303000 (Some "Wrote spec")
              (Some "Review") Sample.started Sample.sessionA 0 Sample.sessionA
              0 task eq_refl eq_refl eq_refl Hfind Hd)
    as (credited & Hstored & Hminutes & Hlisted & _).
  exists task, credited.
  split_and!; [reflexivity|reflexivity|exact Hd|exact Hstored| |exact Hlisted
              |exact Hzero].
  rewrite Hminutes, Hzero. reflexivity.
Defined.

(** X19.  When the service call returns, [createTasksFromNote] of the
    view model returns the tasks the service created, one per title, and
    appends them to the listed tasks as it did to the stored tasks; the
    stored sessions, the current session, the active task id and the timer
    are left as they are. *)
Theorem vm_createTasksFromNote_appends clock random noteId titles w :
  ∃ created w',
    TaskViewModel.createTasksFromNote clock random noteId titles w
    = (Ok created, w')
    ∧ LocalTaskService.createTasksFromNote clock random noteId titles
        (App.localStorage w) = (Ok created, App.localStorage w')
    ∧ length created = length titles
    ∧ Storage.tasks (App.localStorage w')
      = Storage.tasks (App.localStorage w) ++ created
    ∧ App.tasksAtom w' = App.tasksAtom w ++ created
    ∧ Storage.sessions (App.localStorage w')
      = Storage.sessions (App.localStorage w)
    ∧ App.currentSessionAtom w' = App.currentSessionAtom w
    ∧ App.activeTaskIdAtom w' = App.activeTaskIdAtom w
    ∧ App.pomodoroTimerAtom w' = App.pomodoroTimerAtom w.
Proof.
  eexists _, _. split.
  { unfold TaskViewModel.createTasksFromNote,
      LocalTaskService.createTasksFromNote.
    run_monad. rewrite createTasksFromNote_loop_eq. reflexivity. }
  cbn [App.localStorage App.tasksAtom App.currentSessionAtom
       App.activeTaskIdAtom App.pomodoroTimerAtom App.errorAtom
       Storage.tasks Storage.sessions].
  split_and!; try reflexivity.
  - unfold LocalTaskService.createTasksFromNote.
    by rewrite createTasksFromNote_loop_eq.
  - apply tasksFromNote_length.
Qed.

(** ** Settings, errors and the current session *)

(** X20.  [updatePomodoroSettings] overwrites each of the six settings
    whose key it is handed and keeps every other; it writes neither the
    stored tasks, the stored sessions, the current session nor the timer,
    so a running countdown is not affected.  The new work duration applies
    to the next [startTask], which sets [timeRemaining] and [totalTime] to
    it, and to the next [stopTask], which resets [timeRemaining] to it but
    leaves [totalTime] at the value of the countdown it stopped. *)
Theorem settings_change_applies_to_next_start settings w :
  let w1 := Engine.run_op (Engine.UpdatePomodoroSettings settings) w in
  let before := App.pomodoroSettingsAtom w in
  let after := App.pomodoroSettingsAtom w1 in
  let workDuration :=
    default (PomodoroSettings.workDuration before)
            (PartialPomodoroSettings.workDuration settings) in
  PomodoroSettings.workDuration after = workDuration
  ∧ PomodoroSettings.shortBreakDuration after
    = default (PomodoroSettings.shortBreakDuration before)
              (PartialPomodoroSettings.shortBreakDuration settings)
  ∧ PomodoroSettings.longBreakDuration after
    = default (PomodoroSettings.longBreakDuration before)
              (PartialPomodoroSettings.longBreakDuration settings)
  ∧ PomodoroSettings.sessionsUntilLongBreak after
    = default (PomodoroSettings.sessionsUntilLongBreak before)
              (PartialPomodoroSettings.sessionsUntilLongBreak settings)
  ∧ PomodoroSettings.autoStartBreaks after
    = default (PomodoroSettings.autoStartBreaks before)
              (PartialPomodoroSettings.autoStartBreaks settings)
  ∧ PomodoroSettings.autoStartPomodoros after
    = default (PomodoroSettings.autoStartPomodoros before)
              (PartialPomodoroSettings.autoStartPomodoros settings)
  ∧ App.pomodoroTimerAtom w1 = App.pomodoroTimerAtom w
  ∧ Storage.tasks (App.localStorage w1) = Storage.tasks (App.localStorage w)
  ∧ Storage.sessions (App.localStorage w1)
    = Storage.sessions (App.localStorage w)
  ∧ App.currentSessionAtom w1 = App.currentSessionAtom w
  ∧ (∀ now rnd taskId index old,
       findTask taskId (App.localStorage w) = Some (index, old) →
       let t := App.pomodoroTimerAtom
                  (Engine.run_op (Engine.StartTask now rnd taskId) w1) in
       PomodoroTimerState.isRunning t = true
       ∧ PomodoroTimerState.timeRemaining t = workDuration * 60
       ∧ PomodoroTimerState.totalTime t = workDuration * 60)
  ∧ (∀ now achievement pending cs index old,
       App.currentSessionAtom w = Some cs →
       findSession (TaskSession.id cs) (App.localStorage w)
         = Some (index, old) →
       let t := App.pomodoroTimerAtom
                  (Engine.run_op (Engine.StopTask now achievement pending) w1) in
       PomodoroTimerState.isRunning t = false
       ∧ PomodoroTimerState.timeRemaining t = workDuration * 60
       ∧ PomodoroTimerState.totalTime t
         = PomodoroTimerState.totalTime (App.pomodoroTimerAtom w)).
Proof.
  intros w1 before after workDuration. split_and!; try reflexivity.
  - intros now rnd taskId index old Hfind t. subst t.
    unfold Engine.run_op. cbn [Engine.exec].
    by rewrite (startTask_found now w1 rnd taskId index old Hfind).
  - intros now achievement pending cs index old Hcur Hfind t. subst t.
    unfold Engine.run_op. cbn [Engine.exec].
    by rewrite (stopTask_found now w1 achievement pending cs index old
                  Hcur Hfind).
Qed.

Lemma settings_change_applies_to_next_start_witness :
  let settings :=
    PartialPomodoroSettings.mk (Some 50) None None None None None in
  let w1 := Engine.run_op (Engine.UpdatePomodoroSettings settings)
                          Sample.started in
  App.currentSessionAtom Sample.started = Some Sample.sessionA
  ∧ findSession (TaskSession.id Sample.sessionA)
      (App.localStorage Sample.started) = Some (0%nat, Sample.sessionA)
  ∧ PomodoroSettings.workDuration (App.pomodoroSettingsAtom w1) = 50
  ∧ PomodoroSettings.shortBreakDuration (App.pomodoroSettingsAtom w1) = 5
  ∧ PomodoroSettings.autoStartBreaks (App.pomodoroSettingsAtom w1) = false
  ∧ PomodoroTimerState.timeRemaining (App.pomodoroTimerAtom w1) = 1500
  ∧ (let t := App.pomodoroTimerAtom
                (Engine.run_op (Engine.StopTask 303000 None None) w1) in
     PomodoroTimerState.timeRemaining t = 3000
     ∧ PomodoroTimerState.totalTime t = 1500)
  ∧ findTask Sample.idB (App.localStorage Sample.started)
    = Some (1%nat, LocalTaskService.newTask 2000 "p7m2c5v8b"
                     (Sample.dto "Review"))
  ∧ (let t := App.pomodoroTimerAtom
                (Engine.run_op (Engine.StartTask 400000 "q1w2e3r4t" Sample.idB)
                   w1) in
     PomodoroTimerState.timeRemaining t = 3000
     ∧ PomodoroTimerState.totalTime t = 3000).
Proof.
  intros settings w1.
  destruct (settings_change_applies_to_next_start settings Sample.started)
    as (Hwork & Hshort & _ & _ & Hauto & _ & Htimer & _ & _ & _ & Hstart
        & Hstop).
  fold w1 in Hwork, Hshort, Hauto, Htimer, Hstart, Hstop.
  split_and!; [reflexivity|reflexivity|exact Hwork|exact Hshort|exact Hauto
              | | |reflexivity|].
  - rewrite Htimer. reflexivity.
  - destruct (Hstop 303000 None None Sample.sessionA 0%nat Sample.sessionA
                eq_refl eq_refl) as (_ & Hremaining & Htotal).
    split; [exact Hremaining|exact Htotal].
  - destruct (Hstart 400000 "q1w2e3r4t" Sample.idB 1%nat
                (LocalTaskService.newTask 2000 "p7m2c5v8b" (Sample.dto "Review"))
                eq_refl) as (_ & Hremaining & Htotal).
    split; [exact Hremaining|exact Htotal].
Defined.

(** X21.  For an id that matches no stored task, [startTask],
    [updateTask] and [completeTask] of the view model throw
    "Task not found" and leave the state as it was except for [errorAtom],
    which holds that message: no session is created, no current session
    or active task is set and the timer is not started.  [deleteTask] of
    such an id returns normally and leaves the stored tasks and
    [errorAtom] as they were. *)
Theorem vm_unknown_task_id now rnd id dto w :
  findTask id (App.localStorage w) = None →
  let failed :=
    App.mk (App.localStorage w) (App.tasksAtom w) (App.activeTaskIdAtom w)
           (App.currentSessionAtom w) (App.pomodoroTimerAtom w)
           (App.pomodoroSettingsAtom w) (App.taskSessionsAtom w)
           (Some "Task not found") in
  TaskViewModel.startTask now rnd id w = (Err TaskNotFound, failed)
  ∧ TaskViewModel.updateTask now id dto w = (Err TaskNotFound, failed)
  ∧ TaskViewModel.completeTask now id w = (Err TaskNotFound, failed)
  ∧ ∃ w', TaskViewModel.deleteTask id w = (Ok tt, w')
          ∧ App.localStorage w' = App.localStorage w
          ∧ App.errorAtom w' = App.errorAtom w.
Proof.
  intros H failed. split_and!.
  - by rewrite (startTask_missing _ _ _ _ H).
  - by rewrite (vm_updateTask_missing _ _ _ _ H).
  - unfold TaskViewModel.completeTask, mbind, M_bind.
    by rewrite (vm_updateTask_missing _ _ _ _ H).
  - eexists. split; [apply deleteTask_vm_eq|]. cbn. split; [|done].
    unfold findTask in H. rewrite (filter_unknown_id _ _ H).
    by destruct (App.localStorage w).
Qed.

Lemma vm_unknown_task_id_witness :
  findTask "ghost" (App.localStorage Sample.ready) = None
  ∧ fst (TaskViewModel.startTask 3000 "w1e4r6t8y" "ghost" Sample.ready)
    = Err TaskNotFound
  ∧ App.errorAtom
      (snd (TaskViewModel.startTask 3000 "w1e4r6t8y" "ghost" Sample.ready))
    = Some "Task not found"
  ∧ Storage.sessions
      (App.localStorage
         (snd (TaskViewModel.startTask 3000 "w1e4r6t8y" "ghost" Sample.ready)))
    = [].
Proof.
  destruct (vm_unknown_task_id 3000 "w1e4r6t8y" "ghost" UpdateTaskDto.empty
              Sample.ready eq_refl) as (Hstart & _).
  rewrite Hstart. by split_and!.
Defined.

Lemma run_op_error op w :
  App.errorAtom (Engine.run_op op w) = App.errorAtom w
  ∨ ∃ e, App.errorAtom (Engine.run_op op w) = Some (message e).
Proof.
  unfold Engine.run_op.
  destruct op as [now rnd dto|now id dto|id|now rnd dto|now id dto|
                  |now rnd dto|now id dto|id|now rnd taskId| |now ach pend
                  |now taskId|taskId|settings|active|];
    cbn [Engine.exec].
  - run_monad. auto.
  - run_monad.
    destruct (LocalTaskService.updateTask _ _ _ _) as [[?|?] ?]; auto.
  - run_monad. auto.
  - run_monad. auto.
  - run_monad.
    destruct (LocalTaskService.updateSession _ _ _ _) as [[?|?] ?]; auto.
  - rewrite loadTasks_eq. auto.
  - unfold TaskViewModel.createTask. run_monad. auto.
  - unfold mbind, M_bind.
    destruct (findTask id (App.localStorage w)) as [[i old]|] eqn:H.
    + rewrite (vm_updateTask_found _ _ _ _ _ _ H). auto.
    + rewrite (vm_updateTask_missing _ _ _ _ H). eauto.
  - unfold TaskViewModel.deleteTask. run_monad. auto.
  - destruct (findTask taskId (App.localStorage w)) as [[i old]|] eqn:H.
    + rewrite (startTask_found _ _ _ _ _ _ H). auto.
    + rewrite (startTask_missing _ _ _ _ H). eauto.
  - run_monad. auto.
  - destruct (App.currentSessionAtom w) as [cs|] eqn:Hcur.
    + destruct (findSession (TaskSession.id cs) (App.localStorage w))
        as [[i old]|] eqn:H.
      * rewrite (stopTask_found _ _ _ _ _ _ _ Hcur H). auto.
      * rewrite (stopTask_missing _ _ _ _ _ Hcur H). eauto.
    + rewrite stopTask_idle by done. auto.
  - unfold TaskViewModel.completeTask, mbind, M_bind.
    destruct (findTask taskId (App.localStorage w)) as [[i old]|] eqn:H.
    + rewrite (vm_updateTask_found _ _ _ _ _ _ H). auto.
    + rewrite (vm_updateTask_missing _ _ _ _ H). eauto.
  - unfold TaskViewModel.loadTaskSessions. run_monad. auto.
  - run_monad. auto.
  - run_monad. auto.
  - unfold TaskViewModel.tick. run_monad. destruct (negb _ || _); auto.
Qed.

(** X22.  No operation of the task engine clears [errorAtom]: once an
    action has failed and recorded its message, every later operation,
    successful or not, leaves a message in [errorAtom]. *)
Theorem error_is_never_cleared ops w :
  App.errorAtom w ≠ None →
  App.errorAtom (Engine.run ops w) ≠ None.
Proof.
  revert w. induction ops as [|op ops IH]; intros w Herr; [done|].
  rewrite run_cons. apply IH.
  destruct (run_op_error op w) as [->|[e ->]]; done.
Qed.

Lemma error_is_never_cleared_witness :
  let w := Engine.run_op (Engine.StartTask 3000 "w1e4r6t8y" "ghost")
                         Sample.ready in
  App.errorAtom w ≠ None
  ∧ App.errorAtom
      (Engine.run [Engine.StartTask 4000 "w1e4r6t8y" Sample.idA;
                   Engine.StopTask 304000 None None;
                   Engine.LoadTasks] w)
    = Some "Task not found".
Proof.
  intros w. assert (Herr : App.errorAtom w ≠ None) by done.
  split; [exact Herr|].
  pose proof (error_is_never_cleared
    [Engine.StartTask 4000 "w1e4r6t8y" Sample.idA;
     Engine.StopTask 304000 None None; Engine.LoadTasks] w Herr) as Hkept.
  destruct (App.errorAtom (Engine.run _ w)) as [m|] eqn:Hm; [|done].
  vm_compute in Hm. by injection Hm as <-.
Defined.

(** ** The current session is a stored session *)

Lemma mutation_session_ids m st :
  TaskSession.id <$> Storage.sessions st
  `prefix_of` TaskSession.id <$> Storage.sessions (Mutation.apply st m).
Proof.
  destruct m as [now rnd dto|now id dto|id|now rnd dto|now id dto].
  - by rewrite mutation_sessions_kept.
  - by rewrite mutation_sessions_kept.
  - by rewrite mutation_sessions_kept.
  - cbn [Mutation.apply]. rewrite createSession_eq. cbn [snd Storage.sessions].
    rewrite fmap_app. by apply prefix_app_r.
  - rewrite updateSession_sessions.
    destruct (findSession id st) as [[index old]|] eqn:Hfind; [|done].
    rewrite list_fmap_insert, list_insert_id; [done|].
    rewrite list_lookup_fmap. by rewrite (findSession_lookup _ _ _ _ Hfind).
Qed.

Lemma mutations_session_ids ms st :
  TaskSession.id <$> Storage.sessions st
  `prefix_of` TaskSession.id <$> Storage.sessions (foldl Mutation.apply st ms).
Proof.
  revert st. induction ms as [|m ms IH]; intros st; [done|].
  cbn [foldl]. etrans; [apply mutation_session_ids|apply IH].
Qed.

Lemma run_op_currentSession op w :
  let w' := Engine.run_op op w in
  App.currentSessionAtom w' = App.currentSessionAtom w
  ∨ App.currentSessionAtom w' = None
  ∨ ∃ s, App.currentSessionAtom w' = Some s
         ∧ s ∈ Storage.sessions (App.localStorage w').
Proof.
  unfold Engine.run_op.
  destruct op as [now rnd dto|now id dto|id|now rnd dto|now id dto|
                  |now rnd dto|now id dto|id|now rnd taskId| |now ach pend
                  |now taskId|taskId|settings|active|];
    cbn [Engine.exec].
  - run_monad. auto.
  - run_monad.
    destruct (LocalTaskService.updateTask _ _ _ _) as [[?|?] ?]; auto.
  - run_monad. auto.
  - run_monad. auto.
  - run_monad.
    destruct (LocalTaskService.updateSession _ _ _ _) as [[?|?] ?]; auto.
  - rewrite loadTasks_eq. cbn [snd App.currentSessionAtom App.localStorage].
    destruct (activeSession (App.localStorage w)) as [s|] eqn:Hs; [|auto].
    right; right. exists s. split; [done|].
    by apply activeSession_elem_of.
  - unfold TaskViewModel.createTask. run_monad. auto.
  - unfold mbind, M_bind.
    destruct (findTask id (App.localStorage w)) as [[i old]|] eqn:H.
    + rewrite (vm_updateTask_found _ _ _ _ _ _ H). auto.
    + rewrite (vm_updateTask_missing _ _ _ _ H). auto.
  - unfold TaskViewModel.deleteTask. run_monad. auto.
  - destruct (findTask taskId (App.localStorage w)) as [[i old]|] eqn:H.
    + rewrite (startTask_found _ _ _ _ _ _ H). right; right.
      eexists. split; [reflexivity|]. cbn. apply elem_of_app. right.
      apply list_elem_of_singleton. reflexivity.
    + rewrite (startTask_missing _ _ _ _ H). auto.
  - run_monad. auto.
  - destruct (App.currentSessionAtom w) as [cs|] eqn:Hcur.
    + destruct (findSession (TaskSession.id cs) (App.localStorage w))
        as [[i old]|] eqn:H.
      * rewrite (stopTask_found _ _ _ _ _ _ _ Hcur H). auto.
      * rewrite (stopTask_missing _ _ _ _ _ Hcur H). cbn. auto.
    + rewrite stopTask_idle by done. auto.
  - unfold TaskViewModel.completeTask, mbind, M_bind.
    destruct (findTask taskId (App.localStorage w)) as [[i old]|] eqn:H.
    + rewrite (vm_updateTask_found _ _ _ _ _ _ H). auto.
    + rewrite (vm_updateTask_missing _ _ _ _ H). auto.
  - unfold TaskViewModel.loadTaskSessions. run_monad. auto.
  - run_monad. auto.
  - run_monad. auto.
  - unfold TaskViewModel.tick. run_monad. destruct (negb _ || _); auto.
Qed.

Lemma run_op_currentSessionStored op w :
  currentSessionStored w → currentSessionStored (Engine.run_op op w).
Proof.
  intros Hstored cs Hcs.
  destruct (run_op_currentSession op w) as [Hsame|[Hnone|(s & Hs & Hin)]].
  - rewrite Hsame in Hcs. specialize (Hstored cs Hcs).
    rewrite run_op_storage.
    eapply elem_of_prefix; [exact Hstored|apply mutations_session_ids].
  - congruence.
  - rewrite Hs in Hcs. injection Hcs as <-. by apply list_elem_of_fmap_2.
Qed.

Lemma stored_id_found id st :
  id ∈ TaskSession.id <$> Storage.sessions st →
  ∃ index old, findSession id st = Some (index, old).
Proof.
  intros (s & -> & Hs)%list_elem_of_fmap.
  destruct (findSession_elem_of s st Hs) as (index & old & Hfind & _). eauto.
Qed.

(** X23.  In every state reached from the initial state over any store
    by any sequence of the engine's operations, the current session, when
    one is set, carries the id of a stored session: sessions are never
    removed and an update keeps a session's id.  Hence the lookup
    [stopTask] makes finds a session of that id, and [stopTask] does not
    throw "Session not found" in such a state. *)
Theorem current_session_is_stored st w :
  Engine.reachable anyOperation (App.init st) w →
  ∀ cs, App.currentSessionAtom w = Some cs →
    (∃ index old,
       findSession (TaskSession.id cs) (App.localStorage w)
       = Some (index, old)
       ∧ TaskSession.id old = TaskSession.id cs)
    ∧ ∀ now achievement pending,
        fst (TaskViewModel.stopTask now achievement pending w)
        ≠ Err SessionNotFound.
Proof.
  intros Hreach.
  assert (Hstored : currentSessionStored w).
  { induction Hreach as [|op w _ IH _]; [by intros cs [=]|].
    by apply run_op_currentSessionStored. }
  intros cs Hcs.
  destruct (stored_id_found _ _ (Hstored cs Hcs)) as (index & old & Hfind).
  split.
  - exists index, old. split; [exact Hfind|].
    unfold findSession in Hfind.
    by apply list_find_Some in Hfind as (_ & ? & _).
  - intros now achievement pending.
    by rewrite (stopTask_found now w achievement pending cs index old
                  Hcs Hfind).
Qed.

Lemma current_session_is_stored_witness :
  let st := App.localStorage Sample.started in
  let w := Engine.run
    [Engine.LoadTasks; Engine.DeleteTask Sample.idA;
     Engine.SvcUpdateSession 9000 (TaskSession.id Sample.sessionA)
       Sample.reopening]
    (App.init st) in
  Engine.reachable anyOperation (App.init st) w
  ∧ App.currentSessionAtom w = Some Sample.sessionA
  ∧ (∃ index old,
       findSession (TaskSession.id Sample.sessionA) (App.localStorage w)
       = Some (index, old))
  ∧ fst (TaskViewModel.stopTask 303000 None None w) ≠ Err SessionNotFound.
Proof.
  intros st w.
  assert (Hreach : Engine.reachable anyOperation (App.init st) w).
  { apply reachable_run; [constructor|]. reflexivity. }
  destruct (current_session_is_stored st w Hreach Sample.sessionA eq_refl)
    as [(index & old & Hfind & _) Hstop].
  split_and!; [exact Hreach|reflexivity|by exists index, old|].
  apply Hstop.
Defined.

(** X24.  Clicking a task ([setActiveTaskId]) while a session is running
    changes the active task only: the current session and the timer stay,
    and the timer widget now shows the clicked task.  A later [stopTask]
    still closes the running session, which keeps its own [taskId], but
    loads into [taskSessionsAtom] the sessions of the clicked task. *)
Theorem stopTask_after_selecting_another_task
    now achievement pending w cs index old other :
  App.currentSessionAtom w = Some cs →
  findSession (TaskSession.id cs) (App.localStorage w) = Some (index, old) →
  other ≠ "" →
  let w1 := Engine.run_op (Engine.SetActiveTaskId (Some other)) w in
  let w' := Engine.run_op (Engine.StopTask now achievement pending) w1 in
  App.activeTaskAtom w1
    = snd <$> list_find (λ task, Task.id task = other) (App.tasksAtom w)
  ∧ App.currentSessionAtom w1 = Some cs
  ∧ App.pomodoroTimerAtom w1 = App.pomodoroTimerAtom w
  ∧ (∃ closed,
       Storage.sessions (App.localStorage w') !! index = Some closed
       ∧ TaskSession.taskId closed = TaskSession.taskId old
       ∧ TaskSession.endedAt closed = Some now)
  ∧ App.taskSessionsAtom w'
    = filter (λ session, TaskSession.taskId session = other)
             (Storage.sessions (App.localStorage w')).
Proof.
  intros Hcur Hfind Hother w1 w'.
  assert (Hcur1 : App.currentSessionAtom w1 = Some cs) by exact Hcur.
  assert (Hfind1 : findSession (TaskSession.id cs) (App.localStorage w1)
                   = Some (index, old)) by exact Hfind.
  split_and!; [reflexivity|exact Hcur|reflexivity| |].
  - destruct (stopTask_sessions now achievement pending w1 cs index old
                Hcur1 Hfind1) as (w2 & Hrun & Hsessions & _).
    assert (Hw' : w' = w2) by (unfold w', Engine.run_op; cbn [Engine.exec];
                               by rewrite Hrun).
    rewrite Hw', Hsessions. eexists. split.
    { apply list_lookup_insert_eq. eapply lookup_lt_Some.
      by apply findSession_lookup in Hfind. }
    by split.
  - unfold w', Engine.run_op. cbn [Engine.exec].
    rewrite (stopTask_found now w1 achievement pending cs index old
               Hcur1 Hfind1).
    cbn [snd App.taskSessionsAtom App.localStorage]. unfold sessionsAfterStop.
    change (App.activeTaskIdAtom w1) with (Some other). cbv beta iota.
    by rewrite bool_decide_eq_false_2.
Qed.

Lemma stopTask_after_selecting_another_task_witness :
  let w1 := Engine.run_op (Engine.SetActiveTaskId (Some Sample.idB))
                          Sample.started in
  let w' := Engine.run_op (Engine.StopTask 303000 None None) w1 in
  App.currentSessionAtom Sample.started = Some Sample.sessionA
  ∧ findSession (TaskSession.id Sample.sessionA)
      (App.localStorage Sample.started) = Some (0%nat, Sample.sessionA)
  ∧ Sample.idB ≠ ""
  ∧ (∃ closed,
       Storage.sessions (App.localStorage w') !! 0%nat = Some closed
       ∧ TaskSession.taskId closed = Sample.idA)
  ∧ App.taskSessionsAtom w' = [].
Proof.
  intros w1 w'.
  assert (Hother : Sample.idB ≠ "") by done.
  destruct (stopTask_after_selecting_another_task 303000 None None
              Sample.started Sample.sessionA 0 Sample.sessionA Sample.idB
              eq_refl eq_refl Hother)
    as (_ & _ & _ & (closed & Hlook & Htask & _) & Hloaded).
  fold w1 in Hlook, Hloaded. fold w' in Hlook, Hloaded.
  split_and!; [reflexivity|reflexivity|exact Hother| |].
  - exists closed. split; [exact Hlook|exact Htask].
  - rewrite Hloaded. reflexivity.
Defined.

(** ** The components *)

(** X25.  [handleCreateTask] of the task panel: when the text of the
    input field is empty or consists of white space only, nothing is
    created and the field keeps its text.  Otherwise the field is cleared
    and [createTask] is called with the trimmed text: once the store has
    accepted the write, one task is stored and listed, with the trimmed
    text as its non-empty title, status [todo], priority [medium], no note
    and no tags; the sessions and the timer are left as they are. *)
Theorem handleCreateTask_trims now rnd text w :
  (JsString.trim text = "" →
   TaskPanel.handleCreateTask now rnd text w = (Ok text, w))
  ∧ (JsString.trim text ≠ "" →
     ∃ task w',
       TaskPanel.handleCreateTask now rnd text w = (Ok "", w')
       ∧ Storage.tasks (App.localStorage w')
         = Storage.tasks (App.localStorage w) ++ [task]
       ∧ App.tasksAtom w' = App.tasksAtom w ++ [task]
       ∧ Task.title task = JsString.trim text
       ∧ Task.title task ≠ ""
       ∧ Task.status task = todo
       ∧ Task.priority task = medium
       ∧ Task.noteId task = None
       ∧ Task.tags task = []
       ∧ Task.actualMinutes task = 0
       ∧ Storage.sessions (App.localStorage w')
         = Storage.sessions (App.localStorage w)
       ∧ App.pomodoroTimerAtom w' = App.pomodoroTimerAtom w).
Proof.
  unfold TaskPanel.handleCreateTask. split; intros Htrim.
  - by rewrite bool_decide_eq_true_2.
  - rewrite bool_decide_eq_false_2 by done.
    eexists _, _. split.
    { unfold TaskPanel.onCreateTask, TaskViewModel.createTask.
      run_monad. reflexivity. }
    cbn. by split_and!.
Qed.

Lemma handleCreateTask_trims_witness :
  JsString.trim "   " = ""
  ∧ TaskPanel.handleCreateTask 1000 "k3j9x0q1z" "   " (App.init Storage.empty)
    = (Ok "   ", App.init Storage.empty)
  ∧ JsString.trim " Write spec " ≠ ""
  ∧ ∃ task w',
      TaskPanel.handleCreateTask 1000 "k3j9x0q1z" " Write spec "
        (App.init Storage.empty) = (Ok "", w')
      ∧ App.tasksAtom w' = [task]
      ∧ Task.title task = "Write spec".
Proof.
  destruct (handleCreateTask_trims 1000 "k3j9x0q1z" "   "
              (App.init Storage.empty)) as [Hblank _].
  destruct (handleCreateTask_trims 1000 "k3j9x0q1z" " Write spec "
              (App.init Storage.empty)) as [_ Htext].
  assert (Hne : JsString.trim " Write spec " ≠ "") by done.
  destruct (Htext Hne) as (task & w' & Hrun & _ & Hlisted & Htitle & _).
  split_and!; [reflexivity|exact (Hblank eq_refl)|exact Hne|].
  exists task, w'. split_and!; [exact Hrun|exact Hlisted|].
  rewrite Htitle. reflexivity.
Defined.

Lemma formatTime_checked :
  forallb (λ seconds,
             String.eqb (PomodoroTimer.formatTime seconds)
               (twoDigits (seconds `div` 60) +:+ ":"
                +:+ twoDigits (seconds `mod` 60)))
          (seqZ 0 6000) = true.
Proof. vm_compute. reflexivity. Qed.

(** X26.  [formatTime] shows a time below 100 minutes as [MM:SS]: the
    whole minutes and the remaining seconds, each written with exactly two
    decimal digits, separated by a colon. *)
Theorem formatTime_mm_ss seconds :
  0 ≤ seconds < 6000 →
  PomodoroTimer.formatTime seconds
  = twoDigits (seconds `div` 60) +:+ ":" +:+ twoDigits (seconds `mod` 60).
Proof.
  intros H. pose proof formatTime_checked as Hall.
  rewrite forallb_forall in Hall. apply String.eqb_eq, Hall.
  apply list_elem_of_In, elem_of_seqZ. lia.
Qed.

Lemma formatTime_mm_ss_witness :
  0 ≤ 1499 < 6000 ∧ PomodoroTimer.formatTime 1499 = "24:59".
Proof.
  assert (H : 0 ≤ 1499 < 6000) by lia.
  split; [exact H|]. rewrite (formatTime_mm_ss 1499 H). reflexivity.
Defined.

(** ** Counting pomodoros; updating a session *)

Lemma run_op_completedPomodoros op w :
  PomodoroTimerState.completedPomodoros
    (App.pomodoroTimerAtom (Engine.run_op op w))
  = PomodoroTimerState.completedPomodoros (App.pomodoroTimerAtom w)
    + (if completesPomodoro op w then 1 else 0).
Proof.
  assert (Hother : completesPomodoro op w = false →
    PomodoroTimerState.completedPomodoros
      (App.pomodoroTimerAtom (Engine.run_op op w))
    = PomodoroTimerState.completedPomodoros (App.pomodoroTimerAtom w) + 0
    ∨ op = Engine.Tick).
  { intros _. destruct (run_op_timer op w)
      as [->|[[_ ->]|[[_ ->]|[[_ ->]|(Hop & _)]]]]; cbn; auto with lia. }
  destruct op; try (by destruct Hother as [?|?]).
  cbn [completesPomodoro].
  destruct (PomodoroTimerState.isRunning (App.pomodoroTimerAtom w)) eqn:Hrun;
    [|rewrite tick_idle by auto; cbn; lia].
  destruct (PomodoroTimerState.isPaused (App.pomodoroTimerAtom w)) eqn:Hpause;
    [rewrite tick_idle by auto; cbn; lia|].
  rewrite (tick_running w Hrun Hpause). cbn [andb negb].
  unfold TaskViewModel.countdown, withTimer. cbn [App.pomodoroTimerAtom].
  destruct (_ <=? 0); cbn; lia.
Qed.

(** X27.  [completedPomodoros] counts the countdowns that ran out: the
    tick that takes a running, unpaused timer to zero adds one, and no
    other operation changes it; [startTask] and [stopTask] keep it, so a
    session stopped early is not counted, and no operation resets or
    lowers it. *)
Theorem completedPomodoros_counts_completions op ops w :
  PomodoroTimerState.completedPomodoros
    (App.pomodoroTimerAtom (Engine.run_op op w))
  = PomodoroTimerState.completedPomodoros (App.pomodoroTimerAtom w)
    + (if completesPomodoro op w then 1 else 0)
  ∧ PomodoroTimerState.completedPomodoros (App.pomodoroTimerAtom w)
    ≤ PomodoroTimerState.completedPomodoros
        (App.pomodoroTimerAtom (Engine.run ops w)).
Proof.
  split; [apply run_op_completedPomodoros|].
  revert w. induction ops as [|op' ops IH]; intros w; [done|].
  rewrite run_cons. etrans; [|apply IH].
  rewrite run_op_completedPomodoros. destruct (completesPomodoro op' w); lia.
Qed.

Lemma updateSession_tasks now id dto st index old :
  findSession id st = Some (index, old) →
  LocalTaskService.truthy (UpdateSessionDto.durationMinutes dto) = None →
  Storage.tasks (snd (LocalTaskService.updateSession now id dto st))
  = Storage.tasks st.
Proof.
  intros Hfind Hd. rewrite (updateSession_found _ _ _ _ _ _ Hfind).
  by rewrite Hd.
Qed.

(** X28.  For the id of a stored session, [updateSession(id, dto)]
    returns the merged session and stores it in the slot of the old one,
    where a lookup by id finds it afterwards: every key present in the
    dto is taken from it, every other field from the old session, and
    [id], [taskId], [startedAt] and [type] are always kept.  When
    [durationMinutes] is absent or 0 no task is written. *)
Theorem updateSession_merges now id dto st index old :
  findSession id st = Some (index, old) →
  ∃ updated st',
    LocalTaskService.updateSession now id dto st = (Ok updated, st')
    ∧ Storage.sessions st' = <[index := updated]> (Storage.sessions st)
    ∧ findSession id st' = Some (index, updated)
    ∧ TaskSession.id updated = TaskSession.id old
    ∧ TaskSession.taskId updated = TaskSession.taskId old
    ∧ TaskSession.startedAt updated = TaskSession.startedAt old
    ∧ TaskSession.type updated = TaskSession.type old
    ∧ TaskSession.endedAt updated
      = default (TaskSession.endedAt old) (UpdateSessionDto.endedAt dto)
    ∧ TaskSession.durationMinutes updated
      = default (TaskSession.durationMinutes old)
                (UpdateSessionDto.durationMinutes dto)
    ∧ TaskSession.completed updated
      = default (TaskSession.completed old) (UpdateSessionDto.completed dto)
    ∧ TaskSession.notes updated
      = default (TaskSession.notes old) (UpdateSessionDto.notes dto)
    ∧ (UpdateSessionDto.durationMinutes dto = None
       ∨ UpdateSessionDto.durationMinutes dto = Some 0 →
       Storage.tasks st' = Storage.tasks st).
Proof.
  intros Hfind.
  exists (LocalTaskService.mergeSession old dto),
         (snd (LocalTaskService.updateSession now id dto st)).
  pose proof (updateSession_sessions now id dto st) as Hsessions.
  cbn [Mutation.apply] in Hsessions. rewrite Hfind in Hsessions.
  split_and!; try reflexivity.
  - by rewrite (updateSession_found _ _ _ _ _ _ Hfind).
  - exact Hsessions.
  - unfold findSession in *. rewrite Hsessions.
    apply list_find_Some in Hfind as Hfind'.
    destruct Hfind' as (Hl & Hid & Hleast).
    apply list_find_insert_Some. right; left.
    split_and!; [done..|by eapply lookup_lt_Some|done|done].
  - intros Hd. apply (updateSession_tasks now id dto st index old Hfind).
    by destruct Hd as [-> | ->].
Qed.

Lemma updateSession_merges_witness :
  let st := App.localStorage Sample.started in
  let dto := UpdateSessionDto.mk None (Some 0) None None None
               (Some (Some "called away")) in
  ∃ updated st',
    findSession (TaskSession.id Sample.sessionA) st
      = Some (0%nat, Sample.sessionA)
    ∧ LocalTaskService.updateSession 9000 (TaskSession.id Sample.sessionA)
        dto st = (Ok updated, st')
    ∧ findSession (TaskSession.id Sample.sessionA) st'
      = Some (0%nat, updated)
    ∧ TaskSession.notes updated = Some "called away"
    ∧ TaskSession.endedAt updated = None
    ∧ Storage.tasks st' = Storage.tasks st.
Proof.
  intros st dto.
  destruct (updateSession_merges 9000 (TaskSession.id Sample.sessionA) dto st
              0 Sample.sessionA eq_refl)
    as (updated & st' & Hrun & _ & Hfind & _ & _ & _ & _ & Hended & _ & _
        & Hnotes & Htasks).
  exists updated, st'.
  split_and!; [reflexivity|exact Hrun|exact Hfind|exact Hnotes|exact Hended|].
  apply Htasks. by right.
Defined.
